(** * Decision engine of the deepfake detection server

    A shallow embedding of the frame decision engine, the video aggregator
    and the streaming handler of

      - [DeepfakeBench/training/demo_server.py] (class
        [DeepfakeDetectionServer]) and
      - [native_host/server.py] ([infer_using_server], [handler]),

    followed by the properties of the specification that concern them.

    Numbers.  Probabilities and confidences are Python floats in the source.
    They are embedded as exact rationals [Q]: every decision of the engine is
    an order comparison, a [min]/[max], an addition or a mean, and these are
    taken with their exact meaning.  Numeric results are therefore compared
    with [==] ([Qeq]); rounding of the floating point operations is outside
    the model, and so is NaN (the only place that can produce one, the mean of
    an empty list, is an explicit [None]).

    Opaque capabilities.  The face aligner and the classifiers are parameters
    of the model ([extract_aligned_face], [model_prob]); image decoding is
    [b64_to_bgr_img].  Printing, timing and the saving of debug images have no
    influence on any returned value and are left out. *)

From Stdlib Require Import List String Ascii Bool Arith ZArith QArith Qminmax.
From Stdlib Require Import Lia Lqa Sorted.
Import ListNotations.

Local Open Scope string_scope.
Local Open Scope Q_scope.

(** ** Python built-ins used by the source *)

Module Py.

(** [x < y] and [x <= y] on floats. *)
Definition ltb (x y : Q) : bool := negb (Qle_bool y x).
Definition leb (x y : Q) : bool := Qle_bool x y.

(** [min(x, y)] returns [y] only when [y < x]; this is [Qmin]. *)
Definition min (x y : Q) : Q := Qmin x y.

(** [max(l, key=k)]: the first element whose key is maximal;
    [ValueError] ([None]) on an empty list. *)
Fixpoint max_key_from {A : Type} (key : A -> Q) (best : A) (l : list A) : A :=
  match l with
  | [] => best
  | x :: l' => max_key_from key (if ltb (key best) (key x) then x else best) l'
  end.

Definition max_key {A : Type} (key : A -> Q) (l : list A) : option A :=
  match l with
  | [] => None
  | x :: l' => Some (max_key_from key x l')
  end.

Fixpoint sum (l : list Q) : Q :=
  match l with
  | [] => 0
  | x :: l' => x + sum l'
  end.

Definition len {A : Type} (l : list A) : Q := inject_Z (Z.of_nat (List.length l)).

(** [np.mean(l)]; the mean of an empty list is NaN, rendered [None]. *)
Definition np_mean (l : list Q) : option Q :=
  match l with
  | [] => None
  | _ => Some (sum l / len l)
  end.

(** [np.mean(l) if l else 0.0] *)
Definition mean_or_zero (l : list Q) : Q :=
  match np_mean l with
  | Some m => m
  | None => 0
  end.

(** [s.lower()] on ASCII letters. *)
Definition lower_ascii (c : ascii) : ascii :=
  let n := nat_of_ascii c in
  if ((65 <=? n) && (n <=? 90))%nat then ascii_of_nat (n + 32) else c.

Fixpoint lower (s : string) : string :=
  match s with
  | EmptyString => EmptyString
  | String c s' => String (lower_ascii c) (lower s')
  end.

(** [sub in s] on strings. *)
Fixpoint contains (sub s : string) : bool :=
  String.prefix sub s ||
  match s with
  | EmptyString => false
  | String _ s' => contains sub s'
  end.

(** [l[0]]; [IndexError] ([None]) on an empty list. *)
Definition first {A : Type} (l : list A) : option A := List.hd_error l.

End Py.

(** Sequencing of operations that may raise. *)
Notation "x <- c ;; k" :=
  (match c with Some x => k | None => None end)
  (at level 61, c at next level, right associativity).

(** ** Data of [demo_server.py] *)

(** The two class labels, as the strings the source compares. *)
Definition FAKE : string := "FAKE".
Definition REAL : string := "REAL".
Definition SUSPICIOUS : string := "SUSPICIOUS".

(** The per-model entry of a [results] / [frame_result] dictionary.  The keys
    [original_prediction], [original_confidence] and [was_converted] exist
    only in single-model mode.  ([cls], the raw class output, is carried along
    by the source and never inspected; it is left out.) *)
Record ModelResult : Type := mkModelResult {
  prob : Q;
  prediction : string;
  confidence : Q;
  original_prediction : option string;
  original_confidence : option Q;
  was_converted : option bool
}.

(** An element of [fake_predictions] / [real_predictions]. *)
Record Vote : Type := mkVote {
  v_model : string;
  v_confidence : Q;
  v_prob : Q
}.

(** The ensemble verdict dictionary.  [e_suspicious] is [None] until
    [_add_suspicious_flag] has set the key.  The display texts [details] and
    [warning] are left out. *)
Record Ensemble : Type := mkEnsemble {
  e_prob : Q;
  e_prediction : string;
  e_confidence : Q;
  e_rule : string;
  e_suspicious : option bool
}.

(** [d.get('suspicious', False)] and [d.get('was_converted', False)] *)
Definition get_flag (o : option bool) : bool :=
  match o with
  | Some b => b
  | None => false
  end.

(** A dictionary from model names to entries, in insertion order (the order
    in which [self.models] is iterated). *)
Definition Results : Type := list (string * ModelResult).

(** ** The server object *)

(** [self.models] is represented by its keys, in insertion order; the model
    behind a key is reached through [model_prob] below.  [face_detector] and
    [landmark_predictor] record whether the attribute is not [None]. *)
Record Server : Type := mkServer {
  models : list string;
  face_detector : bool;
  landmark_predictor : bool;
  FAKE_CONFIDENCE_THRESHOLD : Q;
  REAL_CONFIDENCE_BOOST : Q
}.

(** The class attributes of [DeepfakeDetectionServer]. *)
Definition default_FAKE_CONFIDENCE_THRESHOLD : Q := 70 # 100.
Definition default_REAL_CONFIDENCE_BOOST : Q := 25 # 100.

(** ** Frame decision engine *)

(** [_apply_confidence_threshold(self, prob, original_prediction,
    original_confidence)], returning
    [(final_prediction, final_confidence, was_converted)]. *)
Definition _apply_confidence_threshold (self : Server) (p : Q)
    (original_prediction : string) (original_confidence : Q)
  : string * Q * bool :=
  if (original_prediction =? "FAKE")%string
     && Py.ltb original_confidence (FAKE_CONFIDENCE_THRESHOLD self) then
    let base_confidence := original_confidence in
    let boosted_confidence :=
      Py.min (base_confidence + REAL_CONFIDENCE_BOOST self) 1 in
    ("REAL", boosted_confidence, true)
  else if (original_prediction =? "REAL")%string then
    let boosted_confidence :=
      Py.min (original_confidence + REAL_CONFIDENCE_BOOST self) 1 in
    ("REAL", boosted_confidence, false)
  else
    (original_prediction, original_confidence, false).

(** [pred_label = "FAKE" if prob >= 0.5 else "REAL"] *)
Definition pred_label (p : Q) : string :=
  if Py.leb (1 # 2) p then "FAKE" else "REAL".

(** [confidence = prob if prob >= 0.5 else (1 - prob)] *)
Definition pred_confidence (p : Q) : Q :=
  if Py.leb (1 # 2) p then p else 1 - p.

(** [_add_suspicious_flag(result)] *)
Definition _add_suspicious_flag (result : Ensemble) : Ensemble :=
  let confidence := e_confidence result in
  if Py.leb (50 # 100) confidence && Py.leb confidence (65 # 100) then
    {| e_prob := e_prob result; e_prediction := e_prediction result;
       e_confidence := e_confidence result; e_rule := e_rule result;
       e_suspicious := Some true |}
  else
    {| e_prob := e_prob result; e_prediction := e_prediction result;
       e_confidence := e_confidence result; e_rule := e_rule result;
       e_suspicious := Some false |}.

(** The first loop of [_calculate_ensemble_verdict]: every entry is appended
    to [fake_predictions] or to [real_predictions]. *)
Definition vote_of (model_name : string) (result : ModelResult) : Vote :=
  {| v_model := model_name; v_confidence := confidence result;
     v_prob := prob result |}.

Fixpoint collect_votes (items : Results) (fake_predictions real_predictions : list Vote)
  : list Vote * list Vote :=
  match items with
  | [] => (fake_predictions, real_predictions)
  | (model_name, result) :: rest =>
      if (prediction result =? "FAKE")%string then
        collect_votes rest (fake_predictions ++ [vote_of model_name result])%list
                      real_predictions
      else
        collect_votes rest fake_predictions
                      (real_predictions ++ [vote_of model_name result])%list
  end.

Definition unflagged (p : Q) (label : string) (c : Q) (rule : string) : Ensemble :=
  {| e_prob := p; e_prediction := label; e_confidence := c; e_rule := rule;
     e_suspicious := None |}.

(** [_calculate_ensemble_verdict(self, results)].  [None] stands for a Python
    exception or a NaN verdict; [ensemble_verdict_total] below shows that it
    arises for the empty dictionary only. *)
Definition _calculate_ensemble_verdict (results : Results) : option Ensemble :=
  let '(fake_predictions, real_predictions) := collect_votes results [] [] in
  let num_fake := List.length fake_predictions in
  let num_real := List.length real_predictions in
  if ((num_fake =? 3) && (num_real =? 0))%nat then
    best_fake <- Py.max_key v_confidence fake_predictions ;;
    Some (_add_suspicious_flag
            (unflagged (v_prob best_fake) "FAKE" (v_confidence best_fake)
                       "Rule 1: All models predict FAKE"))
  else if ((num_fake =? 0) && (num_real =? 3))%nat then
    best_real <- Py.max_key v_confidence real_predictions ;;
    Some (_add_suspicious_flag
            (unflagged (v_prob best_real) "REAL" (v_confidence best_real)
                       "Rule 2: All models predict REAL"))
  else if ((num_fake =? 1) && (num_real =? 2))%nat then
    fake_model <- Py.first fake_predictions ;;
    best_real <- Py.max_key v_confidence real_predictions ;;
    let result :=
      if Py.ltb (85 # 100) (v_confidence fake_model) then
        if Py.ltb (85 # 100) (v_confidence best_real) then
          unflagged (v_prob best_real) "REAL" (v_confidence best_real)
            "Rule 3: Counter-Override - Both sides >85%, majority wins (REAL)"
        else
          unflagged (v_prob fake_model) "FAKE" (v_confidence fake_model)
            "Rule 3: Override - FAKE model has >85% confidence"
      else
        unflagged (v_prob best_real) "REAL" (v_confidence best_real)
          "Rule 3: Majority vote REAL (2 vs 1)" in
    Some (_add_suspicious_flag result)
  else if ((num_fake =? 2) && (num_real =? 1))%nat then
    real_model <- Py.first real_predictions ;;
    best_fake <- Py.max_key v_confidence fake_predictions ;;
    let result :=
      if Py.ltb (85 # 100) (v_confidence real_model) then
        if Py.ltb (85 # 100) (v_confidence best_fake) then
          unflagged (v_prob best_fake) "FAKE" (v_confidence best_fake)
            "Rule 4: Counter-Override - Both sides >85%, majority wins (FAKE)"
        else
          unflagged (v_prob real_model) "REAL" (v_confidence real_model)
            "Rule 4: Override - REAL model has >85% confidence"
      else
        unflagged (v_prob best_fake) "FAKE" (v_confidence best_fake)
          "Rule 4: Majority vote FAKE (2 vs 1)" in
    Some (_add_suspicious_flag result)
  else
    avg_prob <- Py.np_mean (map (fun r => prob (snd r)) results) ;;
    let avg_pred_label := if Py.leb (1 # 2) avg_prob then "FAKE" else "REAL" in
    let avg_confidence := if Py.leb (1 # 2) avg_prob then avg_prob else 1 - avg_prob in
    Some (_add_suspicious_flag
            (unflagged avg_prob avg_pred_label avg_confidence
                       "Fallback: Simple average")).

(** ** Outcomes of the request functions

    [Ok] is a returned result dictionary, [Error] a returned
    [{'error': msg}] dictionary, [Raise] an exception that leaves the
    function. *)
Inductive Outcome (A : Type) : Type :=
| Ok (a : A)
| Error (msg : string)
| Raise (exc : string).

Arguments Ok {A} a.
Arguments Error {A} msg.
Arguments Raise {A} exc.

Definition bind {A B : Type} (c : Outcome A) (k : A -> Outcome B) : Outcome B :=
  match c with
  | Ok a => k a
  | Error msg => Error msg
  | Raise exc => Raise exc
  end.

Notation "x <~ c ;; k" := (bind c (fun x => k))
  (at level 61, c at next level, right associativity).

(** An operation that raises [exc] when it has no value. *)
Definition or_raise {A : Type} (exc : string) (o : option A) : Outcome A :=
  match o with
  | Some a => Ok a
  | None => Raise exc
  end.

(** [d[key]] on a dictionary kept in insertion order. *)
Fixpoint getitem (d : Results) (key : string) : option ModelResult :=
  match d with
  | [] => None
  | (k, v) :: d' => if (k =? key)%string then Some v else getitem d' key
  end.

(** The [results] dictionary of [process_image]: the per-model entries and
    the [ENSEMBLE] key, present when more than one model is loaded. *)
Record ImageResults : Type := mkImageResults {
  model_results : Results;
  ENSEMBLE : option Ensemble
}.

(** An element of [frames_data] ([timestamp] and [time_str] are only
    displayed). *)
Record FrameData (Image : Type) : Type := mkFrameData {
  frame : Image;
  frame_number : nat
}.

Arguments frame {Image} f.
Arguments frame_number {Image} f.

(** An element of [frame_results]. *)
Record FrameResult : Type := mkFrameResult {
  fr_frame_number : nat;
  fr_models : Results;
  fr_ENSEMBLE : option Ensemble
}.

(** The local variables that the frame loop of [process_video] updates. *)
Record VideoState : Type := mkVideoState {
  frame_results : list FrameResult;
  fake_count : nat;
  real_count : nat;
  suspicious_count : nat;
  converted_count : nat
}.

(** The dictionary returned by [process_video]; [suspicious_frames] exists
    in ensemble mode, [converted_frames] in single-model mode. *)
Record VideoResult : Type := mkVideoResult {
  video_verdict : string;
  video_confidence : Q;
  total_frames_analyzed : nat;
  fake_frames : nat;
  real_frames : nat;
  suspicious_frames : option nat;
  converted_frames : option nat;
  fake_percentage : Q;
  vr_frame_results : list FrameResult
}.

Definition count_Q (n : nat) : Q := inject_Z (Z.of_nat n).

Section Engine.

(** Pixel buffers (frames and aligned faces are both numpy arrays). *)
Variable Image : Type.

(** [self.extract_aligned_face(img)]: the aligned face, or [None]. *)
Variable extract_aligned_face : Image -> option Image.

(** The fake probability [preds["prob"]] that the model stored under a key
    of [self.models] returns for an aligned face ([preprocess_face]
    followed by [self.inference]). *)
Variable model_prob : string -> Image -> Q.

(** The body of the loop over [self.models.items()], as it stands in
    [process_image], in [process_video] and in [infer_using_server]. *)
Definition score_model (self : Server) (is_single_model : bool)
    (model_name : string) (face : Image) : ModelResult :=
  let p := model_prob model_name face in
  let pred_label := pred_label p in
  let confidence := pred_confidence p in
  if is_single_model then
    let '(final_pred, final_conf, was_converted) :=
      _apply_confidence_threshold self p pred_label confidence in
    {| prob := p; prediction := final_pred; confidence := final_conf;
       original_prediction := Some pred_label;
       original_confidence := Some confidence;
       was_converted := Some was_converted |}
  else
    {| prob := p; prediction := pred_label; confidence := confidence;
       original_prediction := None; original_confidence := None;
       was_converted := None |}.

(** The face on which a frame is scored: the aligner's answer when a face
    detector is loaded, the frame itself otherwise. *)
Definition aligned (self : Server) (img : Image) : option Image :=
  if face_detector self then extract_aligned_face img else Some img.

(** [process_image(self, img_path)]; [img] is what [cv2.imread] returned. *)
Definition process_image (self : Server) (img : option Image)
  : Outcome ImageResults :=
  match img with
  | None => Error "Failed to load image"
  | Some img =>
      match aligned self img with
      | None => Error "No face detected in image"
      | Some face_aligned =>
          let is_single_model := (List.length (models self) =? 1)%nat in
          let results :=
            map (fun model_name =>
                   (model_name,
                    score_model self is_single_model model_name face_aligned))
                (models self) in
          if (1 <? List.length (models self))%nat then
            ensemble_result <~
              or_raise "ValueError" (_calculate_ensemble_verdict results) ;;
            Ok {| model_results := results; ENSEMBLE := Some ensemble_result |}
          else
            Ok {| model_results := results; ENSEMBLE := None |}
      end
  end.

(** The loop over [self.models.items()] inside the frame loop of
    [process_video], which also counts the converted frames. *)
Fixpoint score_models (self : Server) (is_single_model : bool) (face : Image)
    (names : list string) (frame_result : Results) (converted_count : nat)
  : Results * nat :=
  match names with
  | [] => (frame_result, converted_count)
  | model_name :: rest =>
      let entry := score_model self is_single_model model_name face in
      let converted_count :=
        if is_single_model && get_flag (was_converted entry)
        then S converted_count else converted_count in
      score_models self is_single_model face rest
                   (frame_result ++ [(model_name, entry)])%list converted_count
  end.

(** One iteration of the frame loop of [process_video]. *)
Definition video_step (self : Server) (st : VideoState) (frame_data : FrameData Image)
  : Outcome VideoState :=
  let is_single_model := (List.length (models self) =? 1)%nat in
  match aligned self (frame frame_data) with
  | None => Ok st
  | Some face_aligned =>
      let '(entries, converted_count) :=
        score_models self is_single_model face_aligned (models self) []
                     (converted_count st) in
      if (1 <? List.length (models self))%nat then
        ensemble_result <~
          or_raise "ValueError" (_calculate_ensemble_verdict entries) ;;
        let frame_result :=
          {| fr_frame_number := frame_number frame_data; fr_models := entries;
             fr_ENSEMBLE := Some ensemble_result |} in
        if get_flag (e_suspicious ensemble_result) then
          Ok {| frame_results := (frame_results st ++ [frame_result])%list;
                fake_count := fake_count st; real_count := real_count st;
                suspicious_count := S (suspicious_count st);
                converted_count := converted_count |}
        else if (e_prediction ensemble_result =? "FAKE")%string then
          Ok {| frame_results := (frame_results st ++ [frame_result])%list;
                fake_count := S (fake_count st); real_count := real_count st;
                suspicious_count := suspicious_count st;
                converted_count := converted_count |}
        else
          Ok {| frame_results := (frame_results st ++ [frame_result])%list;
                fake_count := fake_count st; real_count := S (real_count st);
                suspicious_count := suspicious_count st;
                converted_count := converted_count |}
      else
        model_name <~ or_raise "IndexError" (Py.first (models self)) ;;
        entry <~ or_raise "KeyError" (getitem entries model_name) ;;
        let frame_result :=
          {| fr_frame_number := frame_number frame_data; fr_models := entries;
             fr_ENSEMBLE := None |} in
        if (prediction entry =? "FAKE")%string then
          Ok {| frame_results := (frame_results st ++ [frame_result])%list;
                fake_count := S (fake_count st); real_count := real_count st;
                suspicious_count := suspicious_count st;
                converted_count := converted_count |}
        else
          Ok {| frame_results := (frame_results st ++ [frame_result])%list;
                fake_count := fake_count st; real_count := S (real_count st);
                suspicious_count := suspicious_count st;
                converted_count := converted_count |}
  end.

Fixpoint video_loop (self : Server) (st : VideoState)
    (frames_data : list (FrameData Image)) : Outcome VideoState :=
  match frames_data with
  | [] => Ok st
  | frame_data :: rest =>
      st' <~ video_step self st frame_data ;;
      video_loop self st' rest
  end.

Definition initial_state : VideoState :=
  {| frame_results := []; fake_count := 0; real_count := 0;
     suspicious_count := 0; converted_count := 0 |}.

(** [[f[model_name]['confidence'] for f in frame_results
      if f[model_name]['prediction'] == label]] *)
Fixpoint confidences_of (label model_name : string) (frs : list FrameResult)
  : Outcome (list Q) :=
  match frs with
  | [] => Ok []
  | f :: rest =>
      entry <~ or_raise "KeyError" (getitem (fr_models f) model_name) ;;
      tail <~ confidences_of label model_name rest ;;
      if (prediction entry =? label)%string
      then Ok (confidence entry :: tail) else Ok tail
  end.

(** The second loop of the ensemble branch: the confidences of the
    [ENSEMBLE] verdicts, sorted into three lists. *)
Fixpoint ensemble_buckets (frs : list FrameResult)
    (fake_confidences real_confidences suspicious_confidences : list Q)
  : list Q * list Q * list Q :=
  match frs with
  | [] => (fake_confidences, real_confidences, suspicious_confidences)
  | f :: rest =>
      match fr_ENSEMBLE f with
      | Some ens =>
          let is_suspicious := get_flag (e_suspicious ens) in
          if is_suspicious then
            ensemble_buckets rest fake_confidences real_confidences
                             (suspicious_confidences ++ [e_confidence ens])%list
          else if (e_prediction ens =? "FAKE")%string then
            ensemble_buckets rest (fake_confidences ++ [e_confidence ens])%list
                             real_confidences suspicious_confidences
          else
            ensemble_buckets rest fake_confidences
                             (real_confidences ++ [e_confidence ens])%list
                             suspicious_confidences
      | None =>
          ensemble_buckets rest fake_confidences real_confidences
                           suspicious_confidences
      end
  end.

(** [process_video(self, video_path, fps)], from the list [frames_data]
    that [extract_frames_from_video] returned. *)
Definition process_video (self : Server) (frames_data : list (FrameData Image))
  : Outcome VideoResult :=
  match frames_data with
  | [] => Error "No frames extracted from video"
  | _ =>
      let is_single_model := (List.length (models self) =? 1)%nat in
      st <~ video_loop self initial_state frames_data ;;
      match frame_results st with
      | [] => Error "No frames could be analyzed (no faces detected)"
      | _ =>
          let total_analyzed := List.length (frame_results st) in
          let fake_percentage :=
            if (0 <? total_analyzed)%nat
            then (count_Q (fake_count st) / count_Q total_analyzed) * 100
            else 0 in
          if is_single_model then
            if (real_count st <? fake_count st)%nat then
              model_name <~ or_raise "IndexError" (Py.first (models self)) ;;
              fake_confidences <~
                confidences_of "FAKE" model_name (frame_results st) ;;
              Ok {| video_verdict := "FAKE";
                    video_confidence := Py.mean_or_zero fake_confidences;
                    total_frames_analyzed := total_analyzed;
                    fake_frames := fake_count st;
                    real_frames := real_count st;
                    suspicious_frames := None;
                    converted_frames := Some (converted_count st);
                    fake_percentage := fake_percentage;
                    vr_frame_results := frame_results st |}
            else
              model_name <~ or_raise "IndexError" (Py.first (models self)) ;;
              real_confidences <~
                confidences_of "REAL" model_name (frame_results st) ;;
              Ok {| video_verdict := "REAL";
                    video_confidence := Py.mean_or_zero real_confidences;
                    total_frames_analyzed := total_analyzed;
                    fake_frames := fake_count st;
                    real_frames := real_count st;
                    suspicious_frames := None;
                    converted_frames := Some (converted_count st);
                    fake_percentage := fake_percentage;
                    vr_frame_results := frame_results st |}
          else
            let '(fake_confidences, real_confidences, suspicious_confidences) :=
              ensemble_buckets (frame_results st) [] [] [] in
            let '(video_verdict, video_confidence) :=
              if (fake_count st <? suspicious_count st)%nat
                 && (real_count st <? suspicious_count st)%nat then
                ("SUSPICIOUS", Py.mean_or_zero suspicious_confidences)
              else if (real_count st <? fake_count st)%nat then
                ("FAKE", Py.mean_or_zero fake_confidences)
              else
                ("REAL", Py.mean_or_zero real_confidences) in
            Ok {| video_verdict := video_verdict;
                  video_confidence := video_confidence;
                  total_frames_analyzed := total_analyzed;
                  fake_frames := fake_count st;
                  real_frames := real_count st;
                  suspicious_frames := Some (suspicious_count st);
                  converted_frames := None;
                  fake_percentage := fake_percentage;
                  vr_frame_results := frame_results st |}
      end
  end.

End Engine.

(** ** The streaming endpoint, [native_host/server.py] *)

(** A field of a decoded JSON message that the handler slices as a string:
    absent, a string, or a value that is not subscriptable (a number, [null],
    a boolean). *)
Inductive Field : Type :=
| Absent
| Str (s : string)
| NonStr.

(** A decoded JSON object.  [m_frameB64] is the data URL of the frame. *)
Record Message : Type := mkMessage {
  m_token : option string;
  m_type : option string;
  m_id : Field;
  m_ts : option Q;
  m_frameB64 : option string
}.

(** What arrives on the socket: text that is not JSON, JSON that is not an
    object, or an object. *)
Inductive RawMessage : Type :=
| InvalidJson
| NotAnObject
| Json (msg : Message).

(** A response dictionary.  Keys that a response does not carry are [None]
    ([Absent] for [id]).  The keys [bbox], [voting_info], [saved_face_path],
    [source] and the progress keys are display data and are left out. *)
Record Response : Type := mkResponse {
  r_type : string;
  r_id : Field;
  r_ts : option Q;
  r_prediction : option string;
  r_confidence : option Q;
  r_error : option string;
  r_models : option ImageResults
}.

Definition error_response (error : string) : Response :=
  {| r_type := "error"; r_id := Absent; r_ts := None; r_prediction := None;
     r_confidence := None; r_error := Some error; r_models := None |}.

(** What the handler does that the outside can observe. *)
Inductive Event (Image : Type) : Type :=
| Send (resp : Response)
| Align (img : Image) (face : option Image)
| Infer (model_name : string) (face : Image).

Arguments Send {Image} resp.
Arguments Align {Image} img face.
Arguments Infer {Image} model_name face.

Section NativeHost.

Variable Image : Type.
Variable extract_aligned_face : Image -> option Image.
Variable model_prob : string -> Image -> Q.

(** [b64_to_bgr_img(data_url)]; [None] when it raises. *)
Variable b64_to_bgr_img : string -> option Image.

(** The environment variable [DF_AUTH_TOKEN]. *)
Variable AUTH_TOKEN : string.

(** The inference part of [infer_using_server], from the preprocessing on.
    Any exception is caught and returned as an error dictionary. *)
Definition run_models (self : Server) (face_aligned : Image)
  : list (Event Image) * Outcome ImageResults :=
  match models self with
  | [] => ([], Error "inference exception: ")
  | _ =>
      let is_single_model := (List.length (models self) =? 1)%nat in
      let results :=
        map (fun model_name =>
               (model_name,
                score_model Image model_prob self is_single_model model_name
                            face_aligned))
            (models self) in
      let calls := map (fun model_name => Infer model_name face_aligned)
                       (models self) in
      if (1 <? List.length (models self))%nat then
        match _calculate_ensemble_verdict results with
        | Some ensemble_result =>
            (calls, Ok {| model_results := results;
                          ENSEMBLE := Some ensemble_result |})
        | None => (calls, Error "inference exception: ")
        end
      else
        (calls, Ok {| model_results := results; ENSEMBLE := None |})
  end.

(** [infer_using_server(img_bgr, video_id, frame_id, timestamp)] *)
Definition infer_using_server (self : Server) (img_bgr : Image)
  : list (Event Image) * Outcome ImageResults :=
  if face_detector self && landmark_predictor self then
    let face_aligned := extract_aligned_face img_bgr in
    match face_aligned with
    | None => ([Align img_bgr None], Error "No face detected")
    | Some face =>
        let '(calls, results) := run_models self face in
        ((Align img_bgr (Some face) :: calls)%list, results)
    end
  else
    run_models self img_bgr.

(** The final prediction and confidence of a successful response. *)
Definition final_verdict (self : Server) (results : ImageResults)
  : option string * option Q :=
  match ENSEMBLE results with
  | Some ensemble_info =>
      (Some (e_prediction ensemble_info), Some (e_confidence ensemble_info))
  | None =>
      if (List.length (models self) =? 1)%nat then
        match Py.first (models self) with
        | Some model_name =>
            match getitem (model_results results) model_name with
            | Some entry => (Some (prediction entry), Some (confidence entry))
            | None => (None, Some 0)
            end
        | None => (None, Some 0)
        end
      else
        (option_map (fun r => prediction (snd r))
                    (Py.first (model_results results)), Some 0)
  end.

(** [msg.get('token') != AUTH_TOKEN] *)
Definition token_differs (msg : Message) : bool :=
  match m_token msg with
  | Some token => negb (token =? AUTH_TOKEN)%string
  | None => true
  end.

(** [msg.get('type') == 'frame'] *)
Definition is_frame (msg : Message) : bool :=
  match m_type msg with
  | Some type => (type =? "frame")%string
  | None => false
  end.

(** [not frame_b64] *)
Definition no_frame (msg : Message) : bool :=
  match m_frameB64 msg with
  | Some frame_b64 => (frame_b64 =? "")%string
  | None => true
  end.

(** The response to a frame for which [infer_using_server] returned an
    error: a result with the special prediction when the error says that
    no face was found, an error otherwise. *)
Definition error_result (msg : Message) (error_msg : string) : Response :=
  if Py.contains "no face" (Py.lower error_msg) then
    {| r_type := "result"; r_id := m_id msg; r_ts := m_ts msg;
       r_prediction := Some "NO_FACE"; r_confidence := Some 0;
       r_error := Some error_msg; r_models := None |}
  else
    error_response error_msg.

(** One iteration of [async for raw_msg in ws]: the events of the
    iteration, and whether the loop goes on to the next message ([false]
    when an exception leaves the loop and the handler returns). *)
Definition handle_message (self : Server) (raw_msg : RawMessage)
  : list (Event Image) * bool :=
  match raw_msg with
  | InvalidJson => ([Send (error_response "invalid json")], true)
  | NotAnObject => ([], false)
  | Json msg =>
      if negb (AUTH_TOKEN =? "")%string && token_differs msg then
        ([Send (error_response "invalid token")], true)
      else if is_frame msg then
        match m_id msg with
        | NonStr => ([], false)
        | _ =>
            if no_frame msg then
              ([Send (error_response "no frame provided")], true)
            else
              match b64_to_bgr_img (match m_frameB64 msg with
                                    | Some frame_b64 => frame_b64
                                    | None => ""
                                    end) with
              | None =>
                  ([Send (error_response "failed to decode frame")], true)
              | Some img_bgr =>
                  let '(events, results) := infer_using_server self img_bgr in
                  match results with
                  | Error error_msg =>
                      ((events ++ [Send (error_result msg error_msg)])%list, true)
                  | Raise _ => (events, false)
                  | Ok results =>
                      let '(final_prediction, final_confidence) :=
                        final_verdict self results in
                      let resp :=
                        {| r_type := "result"; r_id := m_id msg;
                           r_ts := m_ts msg;
                           r_prediction := final_prediction;
                           r_confidence := final_confidence;
                           r_error := None;
                           r_models := Some results |} in
                      ((events ++ [Send resp])%list, true)
                  end
              end
        end
      else
        ([Send (error_response "unknown message type")], true)
  end.

(** [handler(ws)]: the events of a connection on which the messages
    [raw_msgs] arrive. *)
Fixpoint handler (self : Server) (raw_msgs : list RawMessage)
  : list (Event Image) :=
  match raw_msgs with
  | [] => []
  | raw_msg :: rest =>
      let '(events, open) := handle_message self raw_msg in
      if open then (events ++ handler self rest)%list else events
  end.

End NativeHost.

(** ** Vocabulary of the properties *)

(** The adjusted prediction of single-model mode for a raw probability. *)
Definition adjusted (self : Server) (p : Q) : string * Q * bool :=
  _apply_confidence_threshold self p (pred_label p) (pred_confidence p).

(** The vote of an item of a [results] dictionary. *)
Definition vote_of_item (r : string * ModelResult) : Vote :=
  vote_of (fst r) (snd r).

(** The entries of a [results] dictionary that vote for [label]. *)
Definition votes_for (label : string) (results : Results) : Results :=
  filter (fun r => (prediction (snd r) =? label)%string) results.

(** Every vote is FAKE or REAL. *)
Definition binary_votes (results : Results) : Prop :=
  Forall (fun r => prediction (snd r) = FAKE \/ prediction (snd r) = REAL) results.

(** [c] is the best confidence among the votes for [label]. *)
Definition best_confidence (label : string) (results : Results) (c : Q) : Prop :=
  (exists r, In r (votes_for label results) /\ confidence (snd r) == c) /\
  (forall r, In r (votes_for label results) -> confidence (snd r) <= c).

(** The rule texts of [_calculate_ensemble_verdict], by rule. *)
Definition rule_texts : list (nat * string) :=
  [ (1%nat, "Rule 1: All models predict FAKE");
    (2%nat, "Rule 2: All models predict REAL");
    (3%nat, "Rule 3: Counter-Override - Both sides >85%, majority wins (REAL)");
    (3%nat, "Rule 3: Override - FAKE model has >85% confidence");
    (3%nat, "Rule 3: Majority vote REAL (2 vs 1)");
    (4%nat, "Rule 4: Counter-Override - Both sides >85%, majority wins (FAKE)");
    (4%nat, "Rule 4: Override - REAL model has >85% confidence");
    (4%nat, "Rule 4: Majority vote FAKE (2 vs 1)");
    (5%nat, "Fallback: Simple average") ].

(** [m] is the mean of [l], the mean of the empty list being 0. *)
Definition mean_of (l : list Q) (m : Q) : Prop :=
  match l with
  | [] => m == 0
  | _ => m * Py.len l == Py.sum l
  end.

(** The idempotence that the specification asks of the threshold/boost rule
    at one input: applying the rule to its own output changes nothing. *)
Definition reapplication_is_noop (self : Server) (p : Q) (label : string) (c : Q)
  : Prop :=
  let '(l1, c1, w1) := _apply_confidence_threshold self p label c in
  let '(l2, c2, w2) := _apply_confidence_threshold self p l1 c1 in
  l2 = l1 /\ c2 == c1 /\ w2 = w1.

Section Vocabulary.

Variable Image : Type.
Variable extract_aligned_face : Image -> option Image.
Variable model_prob : string -> Image -> Q.

(** The raw entry of a model for a face: raw label, raw confidence. *)
Definition raw_entry (model_name : string) (face : Image) : ModelResult :=
  let p := model_prob model_name face in
  {| prob := p; prediction := pred_label p; confidence := pred_confidence p;
     original_prediction := None; original_confidence := None;
     was_converted := None |}.

Definition raw_results (self : Server) (face : Image) : Results :=
  map (fun model_name => (model_name, raw_entry model_name face)) (models self).

(** The entry of single-model mode: label and confidence after the
    threshold/boost rule. *)
Definition adjusted_entry (self : Server) (model_name : string) (face : Image)
  : ModelResult :=
  let p := model_prob model_name face in
  {| prob := p;
     prediction := fst (fst (adjusted self p));
     confidence := snd (fst (adjusted self p));
     original_prediction := Some (pred_label p);
     original_confidence := Some (pred_confidence p);
     was_converted := Some (snd (adjusted self p)) |}.

(** The frames that are scored, as frame number and face: the frames for
    which the aligner, when a face detector is loaded, returns a face. *)
Fixpoint scored_frames (self : Server) (frames_data : list (FrameData Image))
  : list (nat * Image) :=
  match frames_data with
  | [] => []
  | frame_data :: rest =>
      match aligned Image extract_aligned_face self (frame frame_data) with
      | Some face => (frame_number frame_data, face) :: scored_frames self rest
      | None => scored_frames self rest
      end
  end.

Definition scored_faces (self : Server) (frames_data : list (FrameData Image))
  : list Image :=
  map snd (scored_frames self frames_data).

(** The adjusted predictions of the scored frames, in single-model mode. *)
Definition adjusted_entries (self : Server) (model_name : string)
    (frames_data : list (FrameData Image)) : list ModelResult :=
  map (adjusted_entry self model_name) (scored_faces self frames_data).

(** The element of [frame_results] of a scored frame, in single-model mode
    and in ensemble mode. *)
Definition single_frame_result (self : Server) (model_name : string)
    (sf : nat * Image) : FrameResult :=
  {| fr_frame_number := fst sf;
     fr_models := [(model_name, adjusted_entry self model_name (snd sf))];
     fr_ENSEMBLE := None |}.

Definition ensemble_frame_result (self : Server) (sf : nat * Image)
    (ens : Ensemble) : FrameResult :=
  {| fr_frame_number := fst sf;
     fr_models := raw_results self (snd sf);
     fr_ENSEMBLE := Some ens |}.

(** The elements of [frame_results] of the scored frames [sfs], given their
    verdicts. *)
Definition ensemble_frame_results (self : Server) (sfs : list (nat * Image))
    (verdicts : list Ensemble) : list FrameResult :=
  map (fun x => ensemble_frame_result self (fst x) (snd x))
      (combine sfs verdicts).

(** The ensemble verdict of a scored face. *)
Definition frame_verdict (self : Server) (face : Image) : option Ensemble :=
  _calculate_ensemble_verdict (raw_results self face).

End Vocabulary.

(** [verdicts] are the ensemble verdicts of the scored frames [sfs], in
    order. *)
Definition verdicts_of {Image : Type} (model_prob : string -> Image -> Q)
    (self : Server) (sfs : list (nat * Image)) (verdicts : list Ensemble) : Prop :=
  Forall2 (fun sf v => frame_verdict Image model_prob self (snd sf) = Some v)
          sfs verdicts.

(** The [ENSEMBLE] entries of a list of frame results. *)
Definition ensembles (frs : list FrameResult) : list Ensemble :=
  flat_map (fun f => match fr_ENSEMBLE f with
                     | Some ens => [ens]
                     | None => []
                     end) frs.

(** Counting: [n + 1] when [b] holds. *)
Definition bump (b : bool) (n : nat) : nat := if b then S n else n.

Definition count {A : Type} (f : A -> bool) (l : list A) : nat :=
  List.length (filter f l).

Definition votes_fake (e : ModelResult) : bool := (prediction e =? FAKE)%string.
Definition votes_real (e : ModelResult) : bool := (prediction e =? REAL)%string.
Definition converted (e : ModelResult) : bool := get_flag (was_converted e).

(** The branch of the frame loop that counts a verdict as real: not
    suspicious and not FAKE. *)
Definition counted_real (v : Ensemble) : bool :=
  negb (get_flag (e_suspicious v)) && negb (e_prediction v =? FAKE)%string.

(** Whether a frame is scored. *)
Definition has_face {Image : Type} (extract_aligned_face : Image -> option Image)
    (self : Server) (frame_data : FrameData Image) : bool :=
  match aligned Image extract_aligned_face self (frame frame_data) with
  | Some _ => true
  | None => false
  end.

(** The three buckets of the per-frame ensemble verdicts of a video. *)
Definition in_suspicious_bucket (v : Ensemble) : bool := get_flag (e_suspicious v).
Definition in_fake_bucket (v : Ensemble) : bool :=
  negb (get_flag (e_suspicious v)) && (e_prediction v =? FAKE)%string.
Definition in_real_bucket (v : Ensemble) : bool :=
  negb (get_flag (e_suspicious v)) && (e_prediction v =? REAL)%string.

(** ** Example configurations *)

(** A server in single-model mode with the default threshold and boost. *)
Definition single_server : Server :=
  {| models := ["Custom"]; face_detector := true; landmark_predictor := true;
     FAKE_CONFIDENCE_THRESHOLD := default_FAKE_CONFIDENCE_THRESHOLD;
     REAL_CONFIDENCE_BOOST := default_REAL_CONFIDENCE_BOOST |}.

(** A server in ensemble mode with the three models of [_load_models]. *)
Definition ensemble_server : Server :=
  {| models := ["FaceForensics"; "SDv14"; "Chameleon"];
     face_detector := true; landmark_predictor := true;
     FAKE_CONFIDENCE_THRESHOLD := default_FAKE_CONFIDENCE_THRESHOLD;
     REAL_CONFIDENCE_BOOST := default_REAL_CONFIDENCE_BOOST |}.

(** An ensemble entry with a given label and confidence. *)
Definition entry_of (label : string) (c : Q) : ModelResult :=
  {| prob := if (label =? "FAKE")%string then c else 1 - c;
     prediction := label; confidence := c;
     original_prediction := None; original_confidence := None;
     was_converted := None |}.

(** The face that [infer_using_server] scores: the aligner's answer when both
    the face detector and the landmark predictor are loaded, the whole frame
    otherwise. *)
Definition served_face {Image : Type} (extract_aligned_face : Image -> option Image)
    (self : Server) (img_bgr : Image) : option Image :=
  if face_detector self && landmark_predictor self
  then extract_aligned_face img_bgr else Some img_bgr.

(** The same server with another threshold and boost. *)
Definition with_config (self : Server) (T B : Q) : Server :=
  {| models := models self; face_detector := face_detector self;
     landmark_predictor := landmark_predictor self;
     FAKE_CONFIDENCE_THRESHOLD := T; REAL_CONFIDENCE_BOOST := B |}.

(** A toy instance of the opaque capabilities: an image is the fake
    probability every model reports for it, or [None] when it shows no
    face. *)
Definition toy_extract (img : option Q) : option (option Q) :=
  match img with
  | Some p => Some (Some p)
  | None => None
  end.

Definition toy_prob (model_name : string) (face : option Q) : Q :=
  match face with
  | Some p => p
  | None => 0
  end.

(** Toy decoding of a frame payload: ["blank"] is a picture without a face,
    ["garbage"] does not decode, anything else shows a face that every model
    scores 0.90. *)
Definition toy_decode (frame_b64 : string) : option (option Q) :=
  if (frame_b64 =? "blank")%string then Some None
  else if (frame_b64 =? "garbage")%string then None
  else Some (Some (90 # 100)).

Definition frame_message (id payload : string) : Message :=
  {| m_token := None; m_type := Some "frame"; m_id := Str id;
     m_ts := Some 3; m_frameB64 := Some payload |}.

(** Toy frames of a video: the image of a frame is the probability the
    model reports, or [None] for a frame without a face. *)
Definition toy_frame (n : nat) (img : option Q) : FrameData (option Q) :=
  {| frame := img; frame_number := n |}.

(** Six frames scored 0.80 and four scored 0.40, with two frames without a
    face in between. *)
Definition scenario_frames : list (FrameData (option Q)) :=
  [ toy_frame 0 (Some (80 # 100)); toy_frame 1 (Some (40 # 100));
    toy_frame 2 None;
    toy_frame 3 (Some (80 # 100)); toy_frame 4 (Some (80 # 100));
    toy_frame 5 (Some (40 # 100)); toy_frame 6 (Some (80 # 100));
    toy_frame 7 None;
    toy_frame 8 (Some (40 # 100)); toy_frame 9 (Some (80 # 100));
    toy_frame 10 (Some (40 # 100)); toy_frame 11 (Some (80 # 100)) ].

(** Single-model mode with threshold 0.70 and no boost. *)
Definition scenario_server : Server := with_config single_server (70 # 100) 0.

(** ** Further parts of the source *)

(** *** Face boxes: the crop of [extract_aligned_face] and
    [detect_face_bbox_normalized] *)

(** A rectangle returned by the face detector, with the values of
    [left()], [top()], [right()] and [bottom()]. *)
Record Rect : Type := mkRect {
  rect_left : Z;
  rect_top : Z;
  rect_right : Z;
  rect_bottom : Z
}.

(** The bounds of the slice [rgb[new_top:new_bottom, new_left:new_right]]. *)
Record CropWindow : Type := mkCropWindow {
  new_left : Z;
  new_top : Z;
  new_right : Z;
  new_bottom : Z
}.

(** A slice bound [i] on an axis of length [n]: a negative bound counts from
    the end, and the result is clipped to [[0, n]]. *)
Definition slice_index (n i : Z) : Z :=
  if (i <? 0)%Z then Z.max 0 (i + n) else Z.min i n.

(** The length of [a[start:stop]] on an axis of length [n]. *)
Definition slice_len (n start stop : Z) : Z :=
  Z.max 0 (slice_index n stop - slice_index n start).

(** The part of the detected box that lies in an image of [width] columns
    and [height] rows: [left], [top], [right], [bottom] of the fallback. *)
Definition clamped_box (height width : Z) (face : Rect) : Rect :=
  {| rect_left := Z.max 0 (rect_left face);
     rect_top := Z.max 0 (rect_top face);
     rect_right := Z.min width (rect_right face);
     rect_bottom := Z.min height (rect_bottom face) |}.

(** The bounding-box fallback of [extract_aligned_face], up to the slice.
    [int(0.25 * m)] truncates towards zero; [//] is floor division. *)
Definition bbox_window (height width : Z) (face : Rect) : CropWindow :=
  let left := Z.max 0 (rect_left face) in
  let top := Z.max 0 (rect_top face) in
  let right := Z.min width (rect_right face) in
  let bottom := Z.min height (rect_bottom face) in
  let w := (right - left)%Z in
  let h := (bottom - top)%Z in
  let margin := Z.quot (Z.max w h) 4 in
  let cx := ((left + right) / 2)%Z in
  let cy := ((top + bottom) / 2)%Z in
  {| new_left := Z.max 0 (cx - (w / 2) - margin);
     new_top := Z.max 0 (cy - (h / 2) - margin);
     new_right := Z.min width (cx + (w / 2) + margin);
     new_bottom := Z.min height (cy + (h / 2) + margin) |}.

(** [crop.size] of the slice of an image with three channels. *)
Definition crop_size (height width : Z) (win : CropWindow) : Z :=
  (slice_len height (new_top win) (new_bottom win)
   * slice_len width (new_left win) (new_right win) * 3)%Z.

Section Aligner.

Variable Image : Type.

(** [(rgb.shape[0], rgb.shape[1])]: rows and columns. *)
Variable shape : Image -> Z * Z.

(** [self.face_detector(rgb, 0)] *)
Variable detect : Image -> list Rect.

(** [rect.width() * rect.height()] *)
Variable rect_area : Rect -> Z.

(** [get_keypts] followed by [_img_align_crop]; [None] when it raises. *)
Variable landmark_align : Image -> Rect -> option Image.

(** The slice, resized to the output resolution. *)
Variable crop_resize : Image -> CropWindow -> Image.

(** [max(faces, key=lambda rect: rect.width() * rect.height())] *)
Definition largest_face (faces : list Rect) : option Rect :=
  Py.max_key (fun rect => inject_Z (rect_area rect)) faces.

(** [extract_aligned_face(self, image, res)] *)
Definition extract_aligned_face (self : Server) (image : Image) : option Image :=
  if negb (face_detector self) then None
  else
    match largest_face (detect image) with
    | Some face =>
        match (if landmark_predictor self then landmark_align image face
               else None) with
        | Some cropped_face => Some cropped_face
        | None =>
            let '(height, width) := shape image in
            let win := bbox_window height width face in
            if (crop_size height width win =? 0)%Z then None
            else Some (crop_resize image win)
        end
    | None => None
    end.

(** [detect_face_bbox_normalized(img_bgr)] of [native_host/server.py]:
    [[x, y, width, height]], or [None]. *)
Definition detect_face_bbox_normalized (self : Server) (img_bgr : Image)
  : option (Q * Q * Q * Q) :=
  if negb (face_detector self) then None
  else
    match largest_face (detect img_bgr) with
    | None => None
    | Some face =>
        let '(h, w) := shape img_bgr in
        let x1 := Z.max 0 (rect_left face) in
        let y1 := Z.max 0 (rect_top face) in
        let x2 := Z.min (w - 1) (rect_right face) in
        let y2 := Z.min (h - 1) (rect_bottom face) in
        if ((x2 <=? x1) || (y2 <=? y1))%Z then None
        else
          let bx := inject_Z x1 / inject_Z w in
          let by_ := inject_Z y1 / inject_Z h in
          let bw := inject_Z (x2 - x1) / inject_Z w in
          let bh := inject_Z (y2 - y1) / inject_Z h in
          Some (bx, by_, bw, bh)
    end.

End Aligner.

(** *** Frame extraction and folders *)

(** What [cv2.VideoCapture] gives: whether the file opened, its frame rate
    [CAP_PROP_FPS], and the frames that [cap.read()] returns in turn. *)
Record Video (Image : Type) : Type := mkVideo {
  isOpened : bool;
  video_fps : Q;
  video_frames : list Image
}.

Arguments isOpened {Image} v.
Arguments video_fps {Image} v.
Arguments video_frames {Image} v.

(** [int(x)] on a float: truncation towards zero. *)
Definition py_int (x : Q) : Z := Z.quot (Qnum x) (Zpos (Qden x)).

(** [max(1, int(video_fps / fps)) if video_fps > 0 else 1]; dividing by
    [fps = 0] raises. *)
Definition frame_interval_of (video_fps : Q) (fps : Z) : Outcome nat :=
  if Py.ltb 0 video_fps then
    if (fps =? 0)%Z then Raise "ZeroDivisionError"
    else Ok (Z.to_nat (Z.max 1 (py_int (video_fps / inject_Z fps))))
  else Ok 1%nat.

(** A file of a folder: its name and what opening it gives. *)
Definition File (A : Type) : Type := (string * A)%type.

(** An element of [image_results] / [video_results]. *)
Inductive FileResult (A : Type) : Type :=
| FileOk (file : string) (result : A)
| FileError (file : string) (error : string).

Arguments FileOk {A} file result.
Arguments FileError {A} file error.

(** [results['summary']], without the processing time. *)
Record FolderSummary : Type := mkFolderSummary {
  images_processed : nat;
  images_failed : nat;
  videos_processed : nat;
  videos_failed : nat;
  fs_fake_count : nat;
  fs_real_count : nat;
  fs_suspicious_count : nat
}.

(** The dictionary that [process_folder] builds. *)
Record FolderResults : Type := mkFolderResults {
  total_files : nat;
  image_results : list (FileResult ImageResults);
  video_results : list (FileResult VideoResult);
  summary : FolderSummary
}.

(** [summary['images_processed'] += 1] and the like. *)
Definition add_image_processed (s : FolderSummary) : FolderSummary :=
  {| images_processed := S (images_processed s);
     images_failed := images_failed s;
     videos_processed := videos_processed s;
     videos_failed := videos_failed s;
     fs_fake_count := fs_fake_count s; fs_real_count := fs_real_count s;
     fs_suspicious_count := fs_suspicious_count s |}.

Definition add_image_failed (s : FolderSummary) : FolderSummary :=
  {| images_processed := images_processed s;
     images_failed := S (images_failed s);
     videos_processed := videos_processed s;
     videos_failed := videos_failed s;
     fs_fake_count := fs_fake_count s; fs_real_count := fs_real_count s;
     fs_suspicious_count := fs_suspicious_count s |}.

Definition add_video_processed (s : FolderSummary) : FolderSummary :=
  {| images_processed := images_processed s;
     images_failed := images_failed s;
     videos_processed := S (videos_processed s);
     videos_failed := videos_failed s;
     fs_fake_count := fs_fake_count s; fs_real_count := fs_real_count s;
     fs_suspicious_count := fs_suspicious_count s |}.

Definition add_video_failed (s : FolderSummary) : FolderSummary :=
  {| images_processed := images_processed s;
     images_failed := images_failed s;
     videos_processed := videos_processed s;
     videos_failed := S (videos_failed s);
     fs_fake_count := fs_fake_count s; fs_real_count := fs_real_count s;
     fs_suspicious_count := fs_suspicious_count s |}.

(** [if is_suspicious: suspicious_count += 1 elif verdict == 'FAKE':
    fake_count += 1 else: real_count += 1] *)
Definition add_verdict (is_suspicious : bool) (verdict : string)
    (s : FolderSummary) : FolderSummary :=
  {| images_processed := images_processed s;
     images_failed := images_failed s;
     videos_processed := videos_processed s;
     videos_failed := videos_failed s;
     fs_fake_count :=
       if is_suspicious then fs_fake_count s
       else if (verdict =? "FAKE")%string then S (fs_fake_count s)
            else fs_fake_count s;
     fs_real_count :=
       if is_suspicious then fs_real_count s
       else if (verdict =? "FAKE")%string then fs_real_count s
            else S (fs_real_count s);
     fs_suspicious_count :=
       if is_suspicious then S (fs_suspicious_count s)
       else fs_suspicious_count s |}.

Definition empty_summary : FolderSummary :=
  {| images_processed := 0; images_failed := 0; videos_processed := 0;
     videos_failed := 0; fs_fake_count := 0; fs_real_count := 0;
     fs_suspicious_count := 0 |}.

Section Files.

Variable Image : Type.
Variable extract_aligned_face : Image -> option Image.
Variable model_prob : string -> Image -> Q.

(** The [while True] loop of [extract_frames_from_video] over the frames
    that [cap.read()] returns. *)
Fixpoint read_frames (self : Server) (frame_interval : nat) (frames : list Image)
    (frame_count : nat) (frames_data : list (FrameData Image))
  : list (FrameData Image) :=
  match frames with
  | [] => frames_data
  | frame :: rest =>
      if (frame_count mod frame_interval =? 0)%nat then
        match aligned Image extract_aligned_face self frame with
        | None => read_frames self frame_interval rest (S frame_count) frames_data
        | Some face_aligned =>
            read_frames self frame_interval rest (S frame_count)
                        (frames_data
                           ++ [{| frame := frame;
                                  frame_number := frame_count |}])%list
        end
      else read_frames self frame_interval rest (S frame_count) frames_data
  end.

(** [extract_frames_from_video(self, video_path, fps)] *)
Definition extract_frames_from_video (self : Server) (cap : Video Image)
    (fps : Z) : Outcome (list (FrameData Image)) :=
  if negb (isOpened cap) then Error "Failed to open video file"
  else
    frame_interval <~ frame_interval_of (video_fps cap) fps ;;
    Ok (read_frames self frame_interval (video_frames cap) 0 []).

(** [process_video(self, video_path, fps)], from the file on. *)
Definition process_video_file (self : Server) (cap : Video Image) (fps : Z)
  : Outcome VideoResult :=
  frames_data <~ extract_frames_from_video self cap fps ;;
  process_video Image extract_aligned_face model_prob self frames_data.

(** One iteration of the loop over [image_files] in [process_folder].  An
    exception raised after [images_processed] was incremented leaves the
    increment in place. *)
Definition folder_image_step (self : Server)
    (acc : list (FileResult ImageResults) * FolderSummary)
    (img_file : File (option Image))
  : list (FileResult ImageResults) * FolderSummary :=
  let '(image_results, summary) := acc in
  let file := fst img_file in
  match process_image Image extract_aligned_face model_prob self (snd img_file) with
  | Ok img_result =>
      let summary := add_image_processed summary in
      let verdict :=
        match ENSEMBLE img_result with
        | Some ens => Ok (get_flag (e_suspicious ens), e_prediction ens)
        | None =>
            model_name <~ or_raise "IndexError" (Py.first (models self)) ;;
            entry <~ or_raise "KeyError"
                              (getitem (model_results img_result) model_name) ;;
            Ok (false, prediction entry)
        end in
      match verdict with
      | Ok (is_suspicious, verdict) =>
          ((image_results ++ [FileOk file img_result])%list,
           add_verdict is_suspicious verdict summary)
      | Error e | Raise e =>
          ((image_results ++ [FileError file e])%list,
           add_image_failed summary)
      end
  | Error error =>
      ((image_results ++ [FileError file error])%list, add_image_failed summary)
  | Raise e =>
      ((image_results ++ [FileError file e])%list, add_image_failed summary)
  end.

(** One iteration of the loop over [video_files]. *)
Definition folder_video_step (self : Server)
    (acc : list (FileResult VideoResult) * FolderSummary)
    (vid_file : File (Video Image))
  : list (FileResult VideoResult) * FolderSummary :=
  let '(video_results, summary) := acc in
  let file := fst vid_file in
  match process_video_file self (snd vid_file) 1 with
  | Ok vid_result =>
      let summary := add_video_processed summary in
      let verdict := video_verdict vid_result in
      ((video_results ++ [FileOk file vid_result])%list,
       add_verdict (verdict =? "SUSPICIOUS")%string verdict summary)
  | Error error =>
      ((video_results ++ [FileError file error])%list, add_video_failed summary)
  | Raise e =>
      ((video_results ++ [FileError file e])%list, add_video_failed summary)
  end.

(** [process_folder(self, folder_path)].  [exists_] and [is_dir] are the
    answers of the file system; [image_files] and [video_files] are the
    sorted lists of files with a supported extension. *)
Definition process_folder (self : Server) (exists_ is_dir : bool)
    (image_files : list (File (option Image)))
    (video_files : list (File (Video Image))) : Outcome FolderResults :=
  if negb exists_ then Error "Folder not found"
  else if negb is_dir then Error "Path is not a directory"
  else
    let total_files := (List.length image_files + List.length video_files)%nat in
    if (total_files =? 0)%nat then Error "No supported files found in folder"
    else
      let '(image_results, summary) :=
        fold_left (folder_image_step self) image_files ([], empty_summary) in
      let '(video_results, summary) :=
        fold_left (folder_video_step self) video_files ([], summary) in
      Ok {| total_files := total_files;
            image_results := image_results;
            video_results := video_results;
            summary := summary |}.

End Files.

(** *** Start-up: [_load_models] and the prompts of [native_host/server.py] *)

(** A weight file: absent, loadable, or present but rejected by
    [_load_detector]. *)
Inductive Weights : Type :=
| Missing
| Loadable
| Corrupt.

(** The loop over [model_weights.items()] of the ensemble branch. *)
Fixpoint load_ensemble (model_weights : list (string * Weights))
    (models : list string) : Outcome (list string) :=
  match model_weights with
  | [] => Ok models
  | (name, weight_path) :: rest =>
      match weight_path with
      | Missing => load_ensemble rest models
      | Loadable => load_ensemble rest (models ++ [name])%list
      | Corrupt => Raise "load error"
      end
  end.

(** The friendly name of a single model, from the stem of its weight file. *)
Definition model_display_name (weight_name : string) : string :=
  if Py.contains "FaceForensic" weight_name then "FaceForensics"
  else if Py.contains "sdv14" weight_name || Py.contains "SDv14" weight_name
       then "SDv14"
  else if Py.contains "chameleon" weight_name
          || Py.contains "Chameleon" weight_name
       then "Chameleon"
  else "Custom".

(** [_load_models(self, ensemble, weights_dir, single_weights)]: the keys of
    [self.models] afterwards.  [ff], [sd] and [ch] are the three weight files
    of the ensemble; [single_weights] is the stem of the single weight file
    and its state, when one is given. *)
Definition _load_models (ensemble : bool) (ff sd ch : Weights)
    (single_weights : option (string * Weights)) : Outcome (list string) :=
  if ensemble then
    models <~ load_ensemble [("FaceForensics", ff); ("SDv14", sd);
                             ("Chameleon", ch)] [] ;;
    match models with
    | [] => Raise "RuntimeError"
    | _ => Ok models
    end
  else
    match single_weights with
    | None => Raise "ValueError"
    | Some (weight_name, weight_path) =>
        match weight_path with
        | Loadable => Ok [model_display_name weight_name]
        | _ => Raise "load error"
        end
    end.

(** What the operator does at a prompt: a line, given here after
    [.strip()], or Ctrl-C. *)
Inductive Typed : Type :=
| Line (user_input : string)
| KeyboardInterrupt.

Section Prompts.

(** [float(user_input)]; [None] when it raises [ValueError] or gives a value
    that is not a finite number (which no comparison of the loop accepts). *)
Variable parse_float : string -> option Q.

(** One of the two [while True] prompts for a percentage: the value chosen
    and the input left for the next prompt.  Running out of input raises
    [EOFError]. *)
Fixpoint ask_percentage (default : Q) (inputs : list Typed)
  : Outcome Q * list Typed :=
  match inputs with
  | [] => (Raise "EOFError", [])
  | KeyboardInterrupt :: rest => (Ok default, rest)
  | Line user_input :: rest =>
      if (user_input =? "")%string then (Ok default, rest)
      else
        match parse_float user_input with
        | Some value =>
            if Py.leb 0 value && Py.leb value 100 then (Ok (value / 100), rest)
            else ask_percentage default rest
        | None => ask_percentage default rest
        end
  end.

(** The two prompts in turn, and the override of the server attributes. *)
Definition configure (self : Server) (inputs : list Typed) : Outcome Server :=
  let '(threshold, rest) := ask_percentage (70 # 100) inputs in
  FAKE_THRESHOLD <~ threshold ;;
  let '(boost, rest) := ask_percentage (25 # 100) rest in
  REAL_BOOST <~ boost ;;
  Ok (with_config self FAKE_THRESHOLD REAL_BOOST).

End Prompts.

(** *** The caller of the streaming endpoint, [backend/app/videos/tasks.py] *)

(** [apply_confidence_transformations(prediction, confidence)] *)
Definition apply_confidence_transformations (prediction : string) (confidence : Q)
  : string * Q :=
  if (prediction =? "NO_FACE")%string then (prediction, 0)
  else if Py.ltb 1 confidence then (prediction, confidence / 100)
  else (prediction, confidence).

(** *** Vocabulary of the further properties *)

(** The responses of a trace, in order. *)
Fixpoint sends {Image : Type} (events : list (Event Image)) : list Response :=
  match events with
  | [] => []
  | Send resp :: rest => resp :: sends rest
  | _ :: rest => sends rest
  end.

(** A message at which the handler stops: JSON that is not an object, or an
    accepted frame message whose id cannot be sliced. *)
Definition closes (AUTH_TOKEN : string) (raw_msg : RawMessage) : bool :=
  match raw_msg with
  | InvalidJson => false
  | NotAnObject => true
  | Json msg =>
      negb (negb (AUTH_TOKEN =? "")%string && token_differs AUTH_TOKEN msg)
      && is_frame msg
      && match m_id msg with
         | NonStr => true
         | _ => false
         end
  end.

(** An entry whose label and confidence are the raw ones of its
    probability. *)
Definition raw_consistent (entry : ModelResult) : Prop :=
  prediction entry = pred_label (prob entry) /\
  confidence entry = pred_confidence (prob entry).

(** A toy video at two frames per second: sampled once per second, frames
    0, 2 and 4 are looked at, and frame 2 shows no face. *)
Definition toy_video : Video (option Q) :=
  {| isOpened := true; video_fps := 2;
     video_frames := [Some (80 # 100); Some (30 # 100); None;
                      Some (90 # 100); Some (40 # 100); Some (70 # 100)] |}.

(** A toy folder: an image that loads, one that does not, and one without a
    face; the toy video and a file that does not open. *)
Definition toy_images : list (File (option (option Q))) :=
  [("a.jpg", Some (Some (80 # 100))); ("b.jpg", None); ("c.png", Some None)].

Definition toy_videos : list (File (Video (option Q))) :=
  [("v.mp4", toy_video);
   ("w.mp4", {| isOpened := false; video_fps := 0; video_frames := [] |})].

(** The number of verdicts counted in a folder summary. *)
Definition summary_total (s : FolderSummary) : nat :=
  (fs_fake_count s + fs_real_count s + fs_suspicious_count s)%nat.

(** A toy classifier whose answers are clipped to [[0,1]]. *)
Definition toy_unit_prob (model_name : string) (face : option Q) : Q :=
  match face with
  | Some p => Qmax 0 (Qmin p 1)
  | None => 0
  end.

(** Whether an event is a call of the aligner or of a classifier. *)
Definition is_work {Image : Type} (e : Event Image) : bool :=
  match e with
  | Send _ => false
  | _ => true
  end.

(** A response that carries the verdict on [face]: the ensemble verdict of
    the raw entries when several models are loaded, the adjusted entry of
    the model when there is one. *)
Definition answers_face {Image : Type} (model_prob : string -> Image -> Q)
    (self : Server) (face : Image) (resp : Response) : Prop :=
  (exists ens,
      (1 < List.length (models self))%nat /\
      frame_verdict Image model_prob self face = Some ens /\
      r_models resp = Some {| model_results := raw_results Image model_prob self face;
                              ENSEMBLE := Some ens |} /\
      r_prediction resp = Some (e_prediction ens) /\
      r_confidence resp = Some (e_confidence ens)) \/
  (exists name,
      models self = [name] /\
      r_models resp
      = Some {| model_results :=
                  [(name, adjusted_entry Image model_prob self name face)];
                ENSEMBLE := None |} /\
      r_prediction resp
      = Some (prediction (adjusted_entry Image model_prob self name face)) /\
      r_confidence resp
      = Some (confidence (adjusted_entry Image model_prob self name face))).

(** The payload of a frame message, as passed to the decoder. *)
Definition payload (msg : Message) : string :=
  match m_frameB64 msg with
  | Some frame_b64 => frame_b64
  | None => ""
  end.

(** A frame message whose id is a number. *)
Definition numbered_frame (payload : string) : Message :=
  {| m_token := None; m_type := Some "frame"; m_id := NonStr;
     m_ts := Some 3; m_frameB64 := Some payload |}.

(** The ensemble models whose weight file can be loaded, in the order of
    [model_weights]. *)
Definition loadable_models (ff sd ch : Weights) : list string :=
  map fst (filter (fun nw => match snd nw with
                             | Loadable => true
                             | _ => false
                             end)
                  [("FaceForensics", ff); ("SDv14", sd); ("Chameleon", ch)]).

(** A toy [float]: two numerals are understood. *)
Definition toy_float (user_input : string) : option Q :=
  if (user_input =? "80")%string then Some 80
  else if (user_input =? "150")%string then Some 150
  else None.

(** *** The public upload endpoint, [backend/app/public/routes.py] *)

(** An entry of [frame_results]. *)
Record PublicFrame : Type := mkPublicFrame {
  pf_prediction : string;
  pf_confidence : Q;
  pf_frame_number : nat
}.

(** An entry of [predictions]. *)
Record PublicPrediction : Type := mkPublicPrediction {
  pp_label : string;
  pp_confidence : Q
}.

(** The [results] of the final message. *)
Record PublicResults : Type := mkPublicResults {
  pr_verdict : string;
  pr_confidence : Q;
  pr_total_frames : nat;
  pr_fake_count : nat;
  pr_real_count : nat;
  pr_no_face_count : Z;
  pr_frame_results : list PublicFrame
}.

(** The last server-sent event of an upload; the progress events before it
    are display data and are left out. *)
Inductive SseMessage : Type :=
| SseError (message : string)
| SseComplete (results : PublicResults).

(** The variables of the frame loop. *)
Record UploadState : Type := mkUploadState {
  us_predictions : list PublicPrediction;
  us_frame_results : list PublicFrame;
  us_frame_count : nat;
  us_analyzed_count : nat
}.

Definition labelled (label : string) (p : PublicPrediction) : bool :=
  (pp_label p =? label)%string.

Section PublicUpload.

Variable Image : Type.
Variable extract_aligned_face : Image -> option Image.
Variable model_prob : string -> Image -> Q.
Variable b64_to_bgr_img : string -> option Image.
Variable AUTH_TOKEN : string.

(** [cv2.imencode] followed by the base64 data URL; [None] when the encoder
    reports no success. *)
Variable encode_frame : Image -> option string.

(** Whether the connection opened for the n-th analysed frame works. *)
Variable connects : nat -> bool.

(** The frame id, which depends on the clock. *)
Variable frame_id_of : nat -> string.

(** [round(x, 1)] *)
Variable round1 : Q -> Q.

(** [send_frame_to_native_host(ws_url, frame, frame_id)]: one connection per
    frame, on which the frame is the only message; the result is the first
    response of the handler, and [None] on any exception, such as a failed
    connection or a connection closed without a response. *)
Definition send_frame_to_native_host (self : Server) (analyzed_count : nat)
    (frame : Image) (frame_id : string) : option Response :=
  match encode_frame frame with
  | None => None
  | Some data_url =>
      let message :=
        {| m_token := None; m_type := Some "frame"; m_id := Str frame_id;
           m_ts := Some 0; m_frameB64 := Some data_url |} in
      if connects analyzed_count then
        Py.first (sends (handler Image extract_aligned_face model_prob
                                 b64_to_bgr_img AUTH_TOKEN self [Json message]))
      else None
  end.

(** One iteration of the [while True] loop of [process_video], for a frame
    that was read.  A response without the key [prediction] is skipped. *)
Definition upload_step (self : Server) (frame_interval : nat)
    (st : UploadState) (frame : Image) : UploadState :=
  if (us_frame_count st mod frame_interval =? 0)%nat then
    let analyzed_count := S (us_analyzed_count st) in
    let frame_id := frame_id_of analyzed_count in
    let result := send_frame_to_native_host self analyzed_count frame frame_id in
    let skipped :=
      {| us_predictions := us_predictions st;
         us_frame_results := us_frame_results st;
         us_frame_count := S (us_frame_count st);
         us_analyzed_count := analyzed_count |} in
    match result with
    | Some resp =>
        match r_prediction resp with
        | Some prediction =>
            let confidence := match r_confidence resp with
                              | Some c => c
                              | None => 0
                              end in
            let '(prediction, confidence) :=
              apply_confidence_transformations prediction confidence in
            let frame_results :=
              (us_frame_results st
               ++ [{| pf_prediction := prediction; pf_confidence := confidence;
                      pf_frame_number := analyzed_count |}])%list in
            let predictions :=
              if negb (prediction =? "NO_FACE")%string then
                (us_predictions st
                 ++ [{| pp_label := Py.lower prediction;
                        pp_confidence := confidence |}])%list
              else us_predictions st in
            {| us_predictions := predictions;
               us_frame_results := frame_results;
               us_frame_count := S (us_frame_count st);
               us_analyzed_count := analyzed_count |}
        | None => skipped
        end
    | None => skipped
    end
  else
    {| us_predictions := us_predictions st;
       us_frame_results := us_frame_results st;
       us_frame_count := S (us_frame_count st);
       us_analyzed_count := us_analyzed_count st |}.

(** [sum(l) / len(l) if l else 0.0] *)
Definition average (l : list Q) : Q :=
  match l with
  | [] => 0
  | _ => Py.sum l / Py.len l
  end.

(** The final verdict, from [predictions]. *)
Definition upload_verdict (st : UploadState) : PublicResults :=
  let predictions := us_predictions st in
  let analyzed_count := us_analyzed_count st in
  match predictions with
  | [] =>
      {| pr_verdict := "NO_FACE"; pr_confidence := 0;
         pr_total_frames := analyzed_count;
         pr_fake_count := 0; pr_real_count := 0;
         pr_no_face_count := Z.of_nat analyzed_count;
         pr_frame_results := us_frame_results st |}
  | _ =>
      let fake_count := count (labelled "fake") predictions in
      let real_count := count (labelled "real") predictions in
      let no_face_count :=
        (Z.of_nat analyzed_count - Z.of_nat (List.length predictions))%Z in
      let '(verdict, confidence) :=
        if (real_count <? fake_count)%nat then
          (FAKE, average (map pp_confidence
                              (filter (labelled "fake") predictions)))
        else
          (REAL, average (map pp_confidence
                              (filter (labelled "real") predictions))) in
      {| pr_verdict := verdict; pr_confidence := round1 (confidence * 100);
         pr_total_frames := analyzed_count;
         pr_fake_count := fake_count; pr_real_count := real_count;
         pr_no_face_count := no_face_count;
         pr_frame_results := us_frame_results st |}
  end.

(** The generator [process_video] of [analyze_video], on the uploaded file. *)
Definition analyze_video (self : Server) (cap : Video Image) : SseMessage :=
  if negb (isOpened cap) then SseError "Failed to open video file"
  else
    let fps := video_fps cap in
    let frame_interval := Z.to_nat (Z.max 1 (py_int fps)) in
    let st :=
      fold_left (upload_step self frame_interval) (video_frames cap)
                {| us_predictions := []; us_frame_results := [];
                   us_frame_count := 0; us_analyzed_count := 0 |} in
    SseComplete (upload_verdict st).

End PublicUpload.

(** The frames of a list that the upload loop samples. *)
Fixpoint sampled {A : Type} (frame_interval frame_count : nat) (frames : list A)
  : list A :=
  match frames with
  | [] => []
  | frame :: rest =>
      if (frame_count mod frame_interval =? 0)%nat
      then frame :: sampled frame_interval (S frame_count) rest
      else sampled frame_interval (S frame_count) rest
  end.

Definition shows (label : string) (f : PublicFrame) : bool :=
  (pf_prediction f =? label)%string.

(** Toy encoding of a frame for the toy decoder. *)
Definition toy_encode (img : option Q) : option string :=
  match img with
  | Some p => Some "face"
  | None => Some "blank"
  end.

(** The entry of [predictions] that a frame result with a face gives. *)
Definition to_prediction (f : PublicFrame) : PublicPrediction :=
  {| pp_label := Py.lower (pf_prediction f); pp_confidence := pf_confidence f |}.

Definition with_face (f : PublicFrame) : bool := negb (shows "NO_FACE" f).

(** What the upload loop maintains: [predictions] are the frame results with
    a face, every frame result is FAKE, REAL or NO_FACE, and there is at most
    one frame result per analysed frame. *)
Definition upload_invariant (st : UploadState) : Prop :=
  us_predictions st = map to_prediction (filter with_face (us_frame_results st)) /\
  Forall (fun f => pf_prediction f = FAKE \/ pf_prediction f = REAL \/
                   pf_prediction f = "NO_FACE")
         (us_frame_results st) /\
  (List.length (us_frame_results st) <= us_analyzed_count st)%nat.

(** *** The upload task, [backend/app/videos/tasks.py] *)

(** A [FrameResult] row added to the database session; the bounding box is
    display data and is left out. *)
Record FrameRow : Type := mkFrameRow {
  row_timestamp : Q;
  row_frame_number : nat;
  row_prediction : string;
  row_confidence : Q
}.

Section UploadTask.

Variable Image : Type.
Variable extract_aligned_face : Image -> option Image.
Variable model_prob : string -> Image -> Q.
Variable b64_to_bgr_img : string -> option Image.
Variable AUTH_TOKEN : string.
Variable encode_frame : Image -> option string.
Variable connects : nat -> bool.
Variable frame_id_of : nat -> string.

(** [send_frame_to_server(ws_url, frame, frame_id)]: the same body as
    [send_frame_to_native_host] of the public endpoint. *)
Definition send_frame_to_server (self : Server) (processed_count : nat)
    (frame : Image) (frame_id : string) : option Response :=
  send_frame_to_native_host Image extract_aligned_face model_prob b64_to_bgr_img
                            AUTH_TOKEN encode_frame connects self processed_count
                            frame frame_id.

(** The [while cap.isOpened()] loop of [process_video_sync] on the frames
    that remain to be read: the rows added to the session, and the final
    [processed_count] or the exception that leaves the loop. *)
Fixpoint sync_loop (self : Server) (fps : Q) (total_frames : Z)
    (frame_interval : nat) (frames : list Image) (rows : list FrameRow)
    (frame_count processed_count : nat) : list FrameRow * Outcome nat :=
  match frames with
  | [] => (rows, Ok processed_count)
  | frame :: rest =>
      if (frame_count mod frame_interval =? 0)%nat then
        if Qeq_bool fps 0 then (rows, Raise "ZeroDivisionError")
        else
          let timestamp := count_Q frame_count / fps in
          let frame_id := frame_id_of processed_count in
          let result := send_frame_to_server self processed_count frame frame_id in
          let '(prediction, confidence) :=
            match result with
            | Some resp =>
                match r_prediction resp with
                | Some prediction =>
                    let confidence := match r_confidence resp with
                                      | Some c => c
                                      | None => 0
                                      end in
                    let '(prediction, confidence) :=
                      apply_confidence_transformations prediction confidence in
                    (prediction, confidence * 100)
                | None => (REAL, 50)
                end
            | None => (REAL, 50)
            end in
          let rows :=
            (rows ++ [{| row_timestamp := timestamp;
                         row_frame_number := processed_count;
                         row_prediction := prediction;
                         row_confidence := confidence |}])%list in
          let processed_count := S processed_count in
          if (total_frames =? 0)%Z then (rows, Raise "ZeroDivisionError")
          else sync_loop self fps total_frames frame_interval rest rows
                         (S frame_count) processed_count
      else
        sync_loop self fps total_frames frame_interval rest rows
                  (S frame_count) processed_count
  end.

(** [process_video_sync(video_id)], from the opening of the video on:
    [total_frames] is the frame count that the container reports and
    [target_fps] the configured [UPLOAD_FPS]. *)
Definition process_video_sync (self : Server) (cap : Video Image)
    (total_frames target_fps : Z) : list FrameRow * Outcome nat :=
  let fps := video_fps cap in
  if (target_fps =? 0)%Z then ([], Raise "ZeroDivisionError")
  else
    let frame_interval :=
      Z.to_nat (Z.max 1 (py_int (fps / inject_Z target_fps))) in
    if isOpened cap then
      sync_loop self fps total_frames frame_interval (video_frames cap) [] 0 0
    else ([], Ok 0%nat).

End UploadTask.

(** A row as the upload task stores it for an answered or unanswered frame. *)
Definition stored_row_ok (row : FrameRow) : Prop :=
  (row_prediction row = "NO_FACE" /\ row_confidence row == 0) \/
  ((row_prediction row = FAKE \/ row_prediction row = REAL) /\
   row_confidence row <= 100).

(** The raw entry of a model that reports the probability [p]. *)
Definition entry_at (p : Q) : ModelResult :=
  {| prob := p; prediction := pred_label p; confidence := pred_confidence p;
     original_prediction := None; original_confidence := None;
     was_converted := None |}.

(** The probabilities of three models for which the rules 1 to 4 give FAKE:
    all three vote FAKE; or two do, and the REAL vote is not above 0.85 or a
    FAKE vote is; or one does, above 0.85, and no REAL vote is above 0.85. *)
Definition three_votes_fake (ps : list Q) : Prop :=
  let num_fake := count (Py.leb (1 # 2)) ps in
  let strong_fake := count (Py.ltb (85 # 100)) ps in
  let strong_real := count (fun p => Py.ltb (85 # 100) (1 - p)) ps in
  num_fake = 3%nat \/
  (num_fake = 2%nat /\ (strong_real = 0%nat \/ (1 <= strong_fake)%nat)) \/
  (num_fake = 1%nat /\ strong_fake = 1%nat /\ strong_real = 0%nat).

(** * Properties *)

(** ** Comparisons, minimum and maximum *)

Lemma ltb_lt (x y : Q) : Py.ltb x y = true <-> x < y.
Proof.
  unfold Py.ltb. rewrite negb_true_iff. split; intro H.
  - apply Qnot_le_lt. intro Hle. apply Qle_bool_iff in Hle. congruence.
  - destruct (Qle_bool y x) eqn:E; [|reflexivity].
    apply Qle_bool_iff in E. exfalso. apply (Qlt_not_le _ _ H E).
Qed.

Lemma ltb_ge (x y : Q) : Py.ltb x y = false <-> y <= x.
Proof.
  unfold Py.ltb. rewrite negb_false_iff. apply Qle_bool_iff.
Qed.

Lemma leb_le (x y : Q) : Py.leb x y = true <-> x <= y.
Proof. apply Qle_bool_iff. Qed.

Lemma leb_gt (x y : Q) : Py.leb x y = false <-> y < x.
Proof.
  unfold Py.leb. split; intro H.
  - apply Qnot_le_lt. intro Hle. apply Qle_bool_iff in Hle. congruence.
  - destruct (Qle_bool x y) eqn:E; [|reflexivity].
    apply Qle_bool_iff in E. exfalso. apply (Qlt_not_le _ _ H E).
Qed.

(** Case analysis on a comparison of the source, leaving the order fact in
    the context. *)
Ltac cmp_cases :=
  match goal with
  | |- context [Py.ltb ?x ?y] =>
      let E := fresh "Hcmp" in
      destruct (Py.ltb x y) eqn:E;
      [apply ltb_lt in E | apply ltb_ge in E]
  | |- context [Py.leb ?x ?y] =>
      let E := fresh "Hcmp" in
      destruct (Py.leb x y) eqn:E;
      [apply leb_le in E | apply leb_gt in E]
  end.

Lemma pred_label_binary (p : Q) : pred_label p = FAKE \/ pred_label p = REAL.
Proof. unfold pred_label. destruct (Py.leb (1 # 2) p); auto. Qed.

Lemma pred_label_fake (p : Q) : pred_label p = FAKE <-> 1 # 2 <= p.
Proof.
  unfold pred_label. cmp_cases; split; intro H; try reflexivity; try assumption.
  - discriminate H.
  - exfalso. apply (Qlt_not_le _ _ Hcmp H).
Qed.

Lemma pred_label_real (p : Q) : pred_label p = REAL <-> p < 1 # 2.
Proof.
  unfold pred_label. cmp_cases; split; intro H;
    try reflexivity; try assumption; try discriminate H.
  exfalso. apply (Qlt_not_le _ _ H Hcmp).
Qed.

Lemma pred_confidence_max (p : Q) : pred_confidence p == Qmax p (1 - p).
Proof.
  unfold pred_confidence. cmp_cases.
  - symmetry. apply Q.max_l. lra.
  - symmetry. apply Q.max_r. lra.
Qed.

(** ** The threshold/boost rule of single-model mode *)

Lemma apply_threshold_convert (self : Server) (p c : Q) :
  c < FAKE_CONFIDENCE_THRESHOLD self ->
  _apply_confidence_threshold self p FAKE c
  = (REAL, Qmin (c + REAL_CONFIDENCE_BOOST self) 1, true).
Proof.
  intro H. unfold _apply_confidence_threshold, FAKE. simpl.
  apply ltb_lt in H. rewrite H. reflexivity.
Qed.

Lemma apply_threshold_real (self : Server) (p c : Q) :
  _apply_confidence_threshold self p REAL c
  = (REAL, Qmin (c + REAL_CONFIDENCE_BOOST self) 1, false).
Proof. reflexivity. Qed.

Lemma apply_threshold_keep (self : Server) (p c : Q) :
  FAKE_CONFIDENCE_THRESHOLD self <= c ->
  _apply_confidence_threshold self p FAKE c = (FAKE, c, false).
Proof.
  intro H. unfold _apply_confidence_threshold, FAKE. simpl.
  apply ltb_ge in H. rewrite H. reflexivity.
Qed.

(** The three cases of the rule, for an arbitrary label. *)
Lemma apply_threshold_cases (self : Server) (p : Q) (label : string) (c : Q) :
  (label = FAKE /\ c < FAKE_CONFIDENCE_THRESHOLD self /\
   _apply_confidence_threshold self p label c
   = (REAL, Qmin (c + REAL_CONFIDENCE_BOOST self) 1, true)) \/
  (label = REAL /\
   _apply_confidence_threshold self p label c
   = (REAL, Qmin (c + REAL_CONFIDENCE_BOOST self) 1, false)) \/
  (label <> REAL /\ (label = FAKE -> FAKE_CONFIDENCE_THRESHOLD self <= c) /\
   _apply_confidence_threshold self p label c = (label, c, false)).
Proof.
  unfold _apply_confidence_threshold.
  destruct (String.eqb_spec label "FAKE") as [Hf | Hf].
  - subst label. simpl. cmp_cases.
    + left. auto.
    + right. right. repeat split; auto. discriminate.
  - simpl. destruct (String.eqb_spec label "REAL") as [Hr | Hr].
    + right. left. auto.
    + right. right. repeat split; auto. intro H. contradiction.
Qed.

(** C2. For a raw probability [p] (label FAKE iff [p >= 0.5], confidence
    [max(p, 1-p)]), the adjusted prediction of single-model mode is: label
    REAL with confidence [min(c + B, 1)] and [was_converted = true] when the
    raw label is FAKE and the raw confidence [c] is below the threshold [T];
    label REAL with confidence [min(c + B, 1)] and [was_converted = false]
    when the raw label is REAL; the raw label and confidence with
    [was_converted = false] when the raw label is FAKE and [c >= T].  With
    [T = 0.70] and [B = 0.25], the raw probability 0.60 gives REAL with
    confidence 0.85, converted.  (The case analysis holds for every [p], in
    particular for those in [[0,1]].) *)
Theorem threshold_boost_rule :
  (forall (self : Server) (p : Q),
      let T := FAKE_CONFIDENCE_THRESHOLD self in
      let B := REAL_CONFIDENCE_BOOST self in
      let c := pred_confidence p in
      (pred_label p = FAKE <-> 1 # 2 <= p) /\
      (pred_label p = REAL <-> p < 1 # 2) /\
      c == Qmax p (1 - p) /\
      (pred_label p = FAKE -> c < T ->
       adjusted self p = (REAL, Qmin (c + B) 1, true)) /\
      (pred_label p = REAL ->
       adjusted self p = (REAL, Qmin (c + B) 1, false)) /\
      (pred_label p = FAKE -> T <= c ->
       adjusted self p = (FAKE, c, false))) /\
  (forall self : Server,
      FAKE_CONFIDENCE_THRESHOLD self == 70 # 100 ->
      REAL_CONFIDENCE_BOOST self == 25 # 100 ->
      fst (fst (adjusted self (60 # 100))) = REAL /\
      snd (fst (adjusted self (60 # 100))) == 85 # 100 /\
      snd (adjusted self (60 # 100)) = true).
Proof.
  split.
  - intros self p T B c. unfold adjusted. fold c.
    split; [apply pred_label_fake|].
    split; [apply pred_label_real|].
    split; [apply pred_confidence_max|].
    split; [|split].
    + intros Hl Hc. rewrite Hl. apply apply_threshold_convert. exact Hc.
    + intros Hl. rewrite Hl. apply apply_threshold_real.
    + intros Hl Hc. rewrite Hl. apply apply_threshold_keep. exact Hc.
  - intros self HT HB.
    assert (Hl : pred_label (60 # 100) = FAKE) by reflexivity.
    assert (Hc : pred_confidence (60 # 100) < FAKE_CONFIDENCE_THRESHOLD self).
    { rewrite HT. reflexivity. }
    unfold adjusted. rewrite Hl, (apply_threshold_convert self _ _ Hc). simpl.
    repeat split. rewrite HB. reflexivity.
Qed.

Lemma threshold_boost_rule_witness :
  adjusted single_server (60 # 100)
  = (REAL, Qmin (pred_confidence (60 # 100) + (25 # 100)) 1, true) /\
  snd (fst (adjusted single_server (60 # 100))) == 85 # 100.
Proof.
  split.
  - apply (proj1 threshold_boost_rule single_server (60 # 100)).
    + reflexivity.
    + reflexivity.
  - apply (proj2 threshold_boost_rule single_server); reflexivity.
Defined.

(** A REAL prediction of confidence 0.70 (raw probability 0.30) comes out
    with confidence 0.95; applying the rule to that output gives confidence
    1.0, so the second application is not a no-op. *)
Lemma reapplication_not_noop :
  ~ reapplication_is_noop single_server (30 # 100) REAL (70 # 100).
Proof.
  unfold reapplication_is_noop. vm_compute.
  intros [_ [H _]]. discriminate H.
Qed.

(** A converted prediction: FAKE 0.60 becomes (REAL, 0.85, converted), and
    applying the rule to that output gives (REAL, 1.0, not converted). *)
Lemma reapplication_of_converted :
  _apply_confidence_threshold single_server (60 # 100) FAKE (60 # 100)
  = (REAL, Qmin ((60 # 100) + (25 # 100)) 1, true) /\
  _apply_confidence_threshold single_server (60 # 100) REAL
                              (Qmin ((60 # 100) + (25 # 100)) 1)
  = (REAL, Qmin (Qmin ((60 # 100) + (25 # 100)) 1 + (25 # 100)) 1, false) /\
  Qmin ((60 # 100) + (25 # 100)) 1 == 85 # 100 /\
  Qmin (Qmin ((60 # 100) + (25 # 100)) 1 + (25 # 100)) 1 == 1.
Proof. repeat split. Qed.

(** C4, as amended.  Applying the threshold/boost rule to its own output
    keeps the label and never converts ([was_converted] is false on the
    second application, so a converted REAL is not converted again); the
    confidence is kept when the output label is not REAL, and is boosted
    once more, to [min(confidence + B, 1)], when the output label is REAL. *)
Theorem reapplication_keeps_label
    (self : Server) (p : Q) (label : string) (c : Q)
    (l1 : string) (c1 : Q) (w1 : bool) :
  _apply_confidence_threshold self p label c = (l1, c1, w1) ->
  _apply_confidence_threshold self p l1 c1
  = (l1,
     if (l1 =? REAL)%string then Qmin (c1 + REAL_CONFIDENCE_BOOST self) 1 else c1,
     false).
Proof.
  intro H.
  destruct (apply_threshold_cases self p label c)
    as [[_ [_ E]] | [[_ E] | [Hr [_ E]]]];
    rewrite E in H; inversion H; subst; clear H.
  - apply apply_threshold_real.
  - apply apply_threshold_real.
  - apply String.eqb_neq in Hr. rewrite Hr. exact E.
Qed.

Lemma reapplication_keeps_label_witness :
  _apply_confidence_threshold single_server (60 # 100) REAL
                              (Qmin ((60 # 100) + (25 # 100)) 1)
  = (REAL, Qmin (Qmin ((60 # 100) + (25 # 100)) 1 + (25 # 100)) 1, false).
Proof.
  apply (reapplication_keeps_label single_server (60 # 100) FAKE (60 # 100)
                                   REAL (Qmin ((60 # 100) + (25 # 100)) 1) true).
  reflexivity.
Defined.

(** ** Single-model and ensemble entries *)

Section Entries.

Variable Image : Type.
Variable extract_aligned_face : Image -> option Image.
Variable model_prob : string -> Image -> Q.

Lemma score_model_single (self : Server) (model_name : string) (face : Image) :
  score_model Image model_prob self true model_name face
  = adjusted_entry Image model_prob self model_name face.
Proof.
  unfold score_model, adjusted_entry, adjusted.
  destruct (_apply_confidence_threshold self _ _ _) as [[l c] w].
  reflexivity.
Qed.

Lemma score_model_raw (self : Server) (model_name : string) (face : Image) :
  score_model Image model_prob self false model_name face
  = raw_entry Image model_prob model_name face.
Proof. reflexivity. Qed.

Lemma one_model (self : Server) :
  List.length (models self) = 1%nat -> exists name, models self = [name].
Proof.
  destruct (models self) as [|name [|? ?]]; simpl; intro H;
    try discriminate H.
  exists name. reflexivity.
Qed.

(** In single-model mode [process_image] returns the adjusted entry of the
    model, and no [ENSEMBLE] key. *)
Lemma process_image_single (self : Server) (img face : Image) (name : string) :
  models self = [name] ->
  aligned Image extract_aligned_face self img = Some face ->
  process_image Image extract_aligned_face model_prob self (Some img)
  = Ok {| model_results :=
            [(name, adjusted_entry Image model_prob self name face)];
          ENSEMBLE := None |}.
Proof.
  intros Hm Ha. unfold process_image. rewrite Ha, Hm.
  cbn [List.length map Nat.eqb Nat.ltb Nat.leb].
  rewrite score_model_single. reflexivity.
Qed.

End Entries.

Lemma adjusted_never_low_fake (self : Server) (p : Q) :
  (fst (fst (adjusted self p)) = FAKE ->
   FAKE_CONFIDENCE_THRESHOLD self <= snd (fst (adjusted self p))) /\
  (pred_label p = FAKE -> pred_confidence p < FAKE_CONFIDENCE_THRESHOLD self ->
   fst (fst (adjusted self p)) = REAL /\ snd (adjusted self p) = true).
Proof.
  unfold adjusted.
  destruct (apply_threshold_cases self p (pred_label p) (pred_confidence p))
    as [[Hl [Hc E]] | [[Hl E] | [Hr [Hc E]]]]; rewrite E; simpl; split.
  - intro H. discriminate H.
  - auto.
  - intro H. discriminate H.
  - intro H. rewrite Hl in H. discriminate H.
  - auto.
  - intros Hl Hlt. exfalso. apply (Qlt_not_le _ _ Hlt). auto.
Qed.

(** C10. In single-model mode no adjusted prediction is FAKE with a
    confidence below the threshold [T]: a FAKE output has confidence at least
    [T], and a raw prediction that is FAKE with confidence below [T] comes
    out REAL (and marked converted).  This holds for the rule applied to any
    raw probability, and for every entry that [process_image] returns when
    one model is loaded. *)
Theorem no_fake_below_threshold :
  (forall (self : Server) (p : Q),
      (fst (fst (adjusted self p)) = FAKE ->
       FAKE_CONFIDENCE_THRESHOLD self <= snd (fst (adjusted self p))) /\
      (pred_label p = FAKE ->
       pred_confidence p < FAKE_CONFIDENCE_THRESHOLD self ->
       fst (fst (adjusted self p)) = REAL /\ snd (adjusted self p) = true)) /\
  (forall (Image : Type) (extract_aligned_face : Image -> option Image)
          (model_prob : string -> Image -> Q)
          (self : Server) (img : option Image) (results : ImageResults),
      List.length (models self) = 1%nat ->
      process_image Image extract_aligned_face model_prob self img = Ok results ->
      model_results results <> [] /\
      forall name entry, In (name, entry) (model_results results) ->
        (prediction entry = FAKE ->
         FAKE_CONFIDENCE_THRESHOLD self <= confidence entry) /\
        (pred_label (prob entry) = FAKE ->
         pred_confidence (prob entry) < FAKE_CONFIDENCE_THRESHOLD self ->
         prediction entry = REAL /\ was_converted entry = Some true)).
Proof.
  split; [exact adjusted_never_low_fake|].
  intros Image extract_aligned_face model_prob self img results Hlen Hrun.
  destruct (one_model self Hlen) as [name Hm].
  destruct img as [img|]; [|discriminate Hrun].
  destruct (aligned Image extract_aligned_face self img) as [face|] eqn:Ha.
  - rewrite (process_image_single Image extract_aligned_face model_prob
               self img face name Hm Ha) in Hrun.
    inversion Hrun; subst; clear Hrun. simpl. split; [discriminate|].
    intros n entry [Hin | []]. inversion Hin; subst; clear Hin. simpl.
    destruct (adjusted_never_low_fake self (model_prob n face)) as [H1 H2].
    split; [exact H1|].
    intros Hl Hc. destruct (H2 Hl Hc) as [H3 H4]. rewrite H4. auto.
  - unfold process_image in Hrun. rewrite Ha in Hrun. discriminate Hrun.
Qed.

Lemma no_fake_below_threshold_witness :
  fst (fst (adjusted single_server (60 # 100))) = REAL /\
  snd (adjusted single_server (60 # 100)) = true.
Proof.
  apply (proj1 no_fake_below_threshold single_server (60 # 100)).
  - reflexivity.
  - reflexivity.
Defined.

(** ** Ensemble voting *)

Lemma max_key_from_in {A : Type} (key : A -> Q) (l : list A) :
  forall best, In (Py.max_key_from key best l) (best :: l).
Proof.
  induction l as [|x l IH]; intro best; simpl.
  - left. reflexivity.
  - destruct (IH (if Py.ltb (key best) (key x) then x else best)) as [H | H].
    + destruct (Py.ltb (key best) (key x)); rewrite <- H; auto.
    + right. right. exact H.
Qed.

Lemma max_key_from_upper {A : Type} (key : A -> Q) (l : list A) :
  forall best x, In x (best :: l) -> key x <= key (Py.max_key_from key best l).
Proof.
  induction l as [|y l IH]; intros best x Hin; simpl.
  - destruct Hin as [<- | []]. apply Qle_refl.
  - assert (Hb : key best <= key (if Py.ltb (key best) (key y) then y else best)
                 /\ key y <= key (if Py.ltb (key best) (key y) then y else best)).
    { cmp_cases; split; try apply Qle_refl; try assumption.
      apply Qlt_le_weak. assumption. }
    destruct Hb as [Hb Hy].
    destruct Hin as [<- | [<- | Hin]].
    + eapply Qle_trans; [exact Hb|]. apply IH. left. reflexivity.
    + eapply Qle_trans; [exact Hy|]. apply IH. left. reflexivity.
    + apply IH. right. exact Hin.
Qed.

(** [max(l, key=k)] returns an element of [l] whose key bounds all keys. *)
Lemma max_key_spec {A : Type} (key : A -> Q) (l : list A) :
  l <> [] ->
  exists best, Py.max_key key l = Some best /\ In best l /\
               forall x, In x l -> key x <= key best.
Proof.
  destruct l as [|a l]; [congruence|]. intros _.
  exists (Py.max_key_from key a l). repeat split.
  - apply max_key_from_in.
  - apply max_key_from_upper.
Qed.

(** The first loop sorts the entries into the FAKE votes and the others,
    keeping their order. *)
Lemma collect_votes_filter (items : Results) :
  forall fake_predictions real_predictions,
    collect_votes items fake_predictions real_predictions
    = ((fake_predictions ++ map vote_of_item (votes_for FAKE items))%list,
       (real_predictions
          ++ map vote_of_item
               (filter (fun r => negb (prediction (snd r) =? FAKE)%string) items))%list).
Proof.
  induction items as [|[name r] items IH]; intros fk rl; simpl.
  - rewrite !app_nil_r. reflexivity.
  - unfold FAKE. destruct (prediction r =? "FAKE")%string; simpl;
      rewrite IH, <- app_assoc; reflexivity.
Qed.

(** Among binary votes, the votes that are not FAKE are the REAL votes. *)
Lemma binary_not_fake (results : Results) :
  binary_votes results ->
  filter (fun r => negb (prediction (snd r) =? FAKE)%string) results
  = votes_for REAL results.
Proof.
  intro H. unfold votes_for. apply filter_ext_in. intros r Hin.
  unfold binary_votes in H. rewrite Forall_forall in H.
  destruct (H r Hin) as [E | E]; rewrite E; reflexivity.
Qed.

Lemma add_suspicious_flag_spec (u : Ensemble) :
  e_prob (_add_suspicious_flag u) = e_prob u /\
  e_prediction (_add_suspicious_flag u) = e_prediction u /\
  e_confidence (_add_suspicious_flag u) = e_confidence u /\
  e_rule (_add_suspicious_flag u) = e_rule u /\
  e_suspicious (_add_suspicious_flag u)
  = Some (Py.leb (50 # 100) (e_confidence u) && Py.leb (e_confidence u) (65 # 100)).
Proof.
  unfold _add_suspicious_flag.
  destruct (Py.leb (50 # 100) (e_confidence u) && Py.leb (e_confidence u) (65 # 100));
    simpl; auto.
Qed.

Ltac split_ifs :=
  repeat match goal with
         | |- context [if ?c then _ else _] => destruct c eqn:?
         | H : context [if ?c then _ else _] |- _ => destruct c eqn:?
         | H : context [match ?o with Some _ => _ | None => _ end] |- _ =>
             destruct o eqn:?
         end.

(** Every verdict is the flagged form of a verdict chosen by one of the five
    rules, and is labelled FAKE or REAL. *)
Lemma ensemble_verdict_shape (results : Results) (v : Ensemble) :
  _calculate_ensemble_verdict results = Some v ->
  exists u, v = _add_suspicious_flag u /\
            In (e_rule u) (map snd rule_texts) /\
            (e_prediction u = FAKE \/ e_prediction u = REAL).
Proof.
  unfold _calculate_ensemble_verdict.
  destruct (collect_votes results [] []) as [fk rl].
  intro H. split_ifs; try discriminate H; inversion H; subst; clear H;
    eexists; (split; [reflexivity|]); simpl; split; auto 12.
Qed.

(** A verdict is produced for every non-empty dictionary. *)
Lemma ensemble_verdict_total (results : Results) :
  results <> [] -> exists v, _calculate_ensemble_verdict results = Some v.
Proof.
  destruct results as [|r results]; [congruence|]. intros _.
  unfold _calculate_ensemble_verdict.
  destruct (collect_votes (r :: results) [] []) as [fk rl].
  destruct fk as [|f1 fk]; destruct rl as [|r1 rl]; simpl;
    split_ifs; try (eexists; reflexivity);
    exfalso; rewrite ?andb_false_r in *; congruence.
Qed.

(** C8. Whichever of the five rules (rule 1, rule 2, rule 3, rule 4, the
    fallback average) selects the verdict, the suspicious flag is set after
    the selection, and it is true exactly when the confidence [c] of the
    selected verdict satisfies [0.50 <= c <= 0.65], both bounds included, and
    false otherwise.  Every non-empty dictionary of votes has a verdict. *)
Theorem suspicious_flag_iff :
  (forall (results : Results) (v : Ensemble),
      _calculate_ensemble_verdict results = Some v ->
      (exists rule, In (rule, e_rule v) rule_texts) /\
      (e_suspicious v = Some true <->
       50 # 100 <= e_confidence v /\ e_confidence v <= 65 # 100) /\
      (e_suspicious v = Some false <->
       ~ (50 # 100 <= e_confidence v /\ e_confidence v <= 65 # 100))) /\
  (forall results : Results,
      results <> [] -> exists v, _calculate_ensemble_verdict results = Some v).
Proof.
  split; [|exact ensemble_verdict_total].
  intros results v H.
  destruct (ensemble_verdict_shape results v H) as [u [-> [Hrule _]]].
  destruct (add_suspicious_flag_spec u) as [_ [_ [Hc [Hr Hs]]]].
  rewrite Hc, Hr, Hs. split.
  - apply in_map_iff in Hrule. destruct Hrule as [[n t] [E Hin]].
    simpl in E. subst t. exists n. exact Hin.
  - assert (Hb : Py.leb (50 # 100) (e_confidence u)
                 && Py.leb (e_confidence u) (65 # 100) = true
                 <-> 50 # 100 <= e_confidence u /\ e_confidence u <= 65 # 100).
    { rewrite andb_true_iff, !leb_le. reflexivity. }
    destruct (Py.leb (50 # 100) (e_confidence u)
              && Py.leb (e_confidence u) (65 # 100)); split; split; intro H1.
    + apply Hb. reflexivity.
    + reflexivity.
    + discriminate H1.
    + exfalso. apply H1. apply Hb. reflexivity.
    + discriminate H1.
    + apply Hb in H1. discriminate H1.
    + intro H2. apply Hb in H2. discriminate H2.
    + reflexivity.
Qed.

Lemma suspicious_flag_iff_witness :
  e_suspicious
    {| e_prob := 40 # 100; e_prediction := REAL; e_confidence := 60 # 100;
       e_rule := "Rule 2: All models predict REAL"; e_suspicious := Some true |}
  = Some true <->
  50 # 100 <= 60 # 100 /\ 60 # 100 <= 65 # 100.
Proof.
  apply (proj1 suspicious_flag_iff
               [("FaceForensics", entry_of REAL (60 # 100));
                ("SDv14", entry_of REAL (55 # 100));
                ("Chameleon", entry_of REAL (52 # 100))]
               {| e_prob := 40 # 100; e_prediction := REAL;
                  e_confidence := 60 # 100;
                  e_rule := "Rule 2: All models predict REAL";
                  e_suspicious := Some true |}).
  reflexivity.
Defined.

(** The lone vote and the best vote of the other side, as the 2-against-1
    rules see them. *)
Lemma lone_and_best (lone_votes majority_votes : Results)
    (f : string * ModelResult) (c : Q) :
  List.length lone_votes = 1%nat ->
  List.length majority_votes = 2%nat ->
  In f lone_votes ->
  (exists r, In r majority_votes /\ confidence (snd r) == c) ->
  (forall r, In r majority_votes -> confidence (snd r) <= c) ->
  Py.first (map vote_of_item lone_votes) = Some (vote_of_item f) /\
  exists best,
    Py.max_key v_confidence (map vote_of_item majority_votes) = Some best /\
    v_confidence best == c.
Proof.
  intros Hl Hm Hf [r0 [Hr0 Hc0]] Hub. split.
  - destruct lone_votes as [|f0 [|? ?]]; try discriminate Hl.
    destruct Hf as [<- | []]. reflexivity.
  - destruct (max_key_spec v_confidence (map vote_of_item majority_votes))
      as [best [Hbest [Hin Hmax]]].
    { destruct majority_votes; [discriminate Hm | discriminate]. }
    exists best. split; [exact Hbest|].
    apply in_map_iff in Hin. destruct Hin as [r [<- Hr]].
    apply Qle_antisym.
    + apply (Hub r Hr).
    + rewrite <- Hc0.
      apply (Hmax (vote_of_item r0)). apply in_map. exact Hr0.
Qed.

Lemma rule3_verdict (results : Results) (f : string * ModelResult) (c : Q) :
  binary_votes results ->
  List.length (votes_for FAKE results) = 1%nat ->
  List.length (votes_for REAL results) = 2%nat ->
  In f (votes_for FAKE results) ->
  best_confidence REAL results c ->
  exists v, _calculate_ensemble_verdict results = Some v /\
    (85 # 100 < confidence (snd f) -> 85 # 100 < c ->
     e_prediction v = REAL /\ e_confidence v == c) /\
    (85 # 100 < confidence (snd f) -> c <= 85 # 100 ->
     e_prediction v = FAKE /\ e_confidence v == confidence (snd f)) /\
    (confidence (snd f) <= 85 # 100 ->
     e_prediction v = REAL /\ e_confidence v == c).
Proof.
  intros Hbin Hnf Hnr Hf [Hex Hub].
  destruct (lone_and_best _ _ f c Hnf Hnr Hf Hex Hub)
    as [Hfirst [best [Hbest Hc]]].
  unfold _calculate_ensemble_verdict.
  rewrite collect_votes_filter, (binary_not_fake results Hbin). simpl app.
  rewrite !length_map, Hnf, Hnr, Hfirst, Hbest.
  cbn [Nat.eqb andb].
  change (v_confidence (vote_of_item f)) with (confidence (snd f)).
  eexists. split; [reflexivity|].
  destruct (add_suspicious_flag_spec
              (if Py.ltb (85 # 100) (confidence (snd f))
               then if Py.ltb (85 # 100) (v_confidence best)
                    then unflagged (v_prob best) "REAL" (v_confidence best)
                           "Rule 3: Counter-Override - Both sides >85%, majority wins (REAL)"
                    else unflagged (v_prob (vote_of_item f)) "FAKE"
                           (confidence (snd f))
                           "Rule 3: Override - FAKE model has >85% confidence"
               else unflagged (v_prob best) "REAL" (v_confidence best)
                      "Rule 3: Majority vote REAL (2 vs 1)"))
    as [_ [-> [-> _]]].
  repeat cmp_cases; simpl; repeat split; intros;
    try reflexivity; try assumption; try (exfalso; lra).
Qed.

Lemma rule4_verdict (results : Results) (f : string * ModelResult) (c : Q) :
  binary_votes results ->
  List.length (votes_for REAL results) = 1%nat ->
  List.length (votes_for FAKE results) = 2%nat ->
  In f (votes_for REAL results) ->
  best_confidence FAKE results c ->
  exists v, _calculate_ensemble_verdict results = Some v /\
    (85 # 100 < confidence (snd f) -> 85 # 100 < c ->
     e_prediction v = FAKE /\ e_confidence v == c) /\
    (85 # 100 < confidence (snd f) -> c <= 85 # 100 ->
     e_prediction v = REAL /\ e_confidence v == confidence (snd f)) /\
    (confidence (snd f) <= 85 # 100 ->
     e_prediction v = FAKE /\ e_confidence v == c).
Proof.
  intros Hbin Hnr Hnf Hf [Hex Hub].
  destruct (lone_and_best _ _ f c Hnr Hnf Hf Hex Hub)
    as [Hfirst [best [Hbest Hc]]].
  unfold _calculate_ensemble_verdict.
  rewrite collect_votes_filter, (binary_not_fake results Hbin). simpl app.
  rewrite !length_map, Hnf, Hnr, Hfirst, Hbest.
  cbn [Nat.eqb andb].
  change (v_confidence (vote_of_item f)) with (confidence (snd f)).
  eexists. split; [reflexivity|].
  destruct (add_suspicious_flag_spec
              (if Py.ltb (85 # 100) (confidence (snd f))
               then if Py.ltb (85 # 100) (v_confidence best)
                    then unflagged (v_prob best) "FAKE" (v_confidence best)
                           "Rule 4: Counter-Override - Both sides >85%, majority wins (FAKE)"
                    else unflagged (v_prob (vote_of_item f)) "REAL"
                           (confidence (snd f))
                           "Rule 4: Override - REAL model has >85% confidence"
               else unflagged (v_prob best) "FAKE" (v_confidence best)
                      "Rule 4: Majority vote FAKE (2 vs 1)"))
    as [_ [-> [-> _]]].
  repeat cmp_cases; simpl; repeat split; intros;
    try reflexivity; try assumption; try (exfalso; lra).
Qed.

(** C1. For three binary votes with exactly 1 FAKE vote and 2 REAL votes,
    where [f] is the lone FAKE vote and [c] the best confidence among the
    REAL votes: if the confidence of [f] is above 0.85 and [c] is above 0.85
    the verdict is REAL with confidence [c] (counter-override); if the
    confidence of [f] is above 0.85 and [c <= 0.85] the verdict is FAKE with
    the confidence of [f] (override); otherwise the verdict is REAL with
    confidence [c] (majority).  With 2 FAKE votes and 1 REAL vote the same
    holds with FAKE and REAL exchanged.  The votes
    [(FAKE,0.90), (REAL,0.60), (REAL,0.55)] give FAKE with confidence 0.90,
    not suspicious. *)
Theorem two_against_one_rules :
  (forall (results : Results) (f : string * ModelResult) (c : Q),
      binary_votes results ->
      List.length (votes_for FAKE results) = 1%nat ->
      List.length (votes_for REAL results) = 2%nat ->
      In f (votes_for FAKE results) ->
      best_confidence REAL results c ->
      exists v, _calculate_ensemble_verdict results = Some v /\
        (85 # 100 < confidence (snd f) -> 85 # 100 < c ->
         e_prediction v = REAL /\ e_confidence v == c) /\
        (85 # 100 < confidence (snd f) -> c <= 85 # 100 ->
         e_prediction v = FAKE /\ e_confidence v == confidence (snd f)) /\
        (confidence (snd f) <= 85 # 100 ->
         e_prediction v = REAL /\ e_confidence v == c)) /\
  (forall (results : Results) (f : string * ModelResult) (c : Q),
      binary_votes results ->
      List.length (votes_for REAL results) = 1%nat ->
      List.length (votes_for FAKE results) = 2%nat ->
      In f (votes_for REAL results) ->
      best_confidence FAKE results c ->
      exists v, _calculate_ensemble_verdict results = Some v /\
        (85 # 100 < confidence (snd f) -> 85 # 100 < c ->
         e_prediction v = FAKE /\ e_confidence v == c) /\
        (85 # 100 < confidence (snd f) -> c <= 85 # 100 ->
         e_prediction v = REAL /\ e_confidence v == confidence (snd f)) /\
        (confidence (snd f) <= 85 # 100 ->
         e_prediction v = FAKE /\ e_confidence v == c)) /\
  (forall n1 n2 n3 : string,
      exists v,
        _calculate_ensemble_verdict
          [(n1, entry_of FAKE (90 # 100)); (n2, entry_of REAL (60 # 100));
           (n3, entry_of REAL (55 # 100))] = Some v /\
        e_prediction v = FAKE /\ e_confidence v == 90 # 100 /\
        e_suspicious v = Some false).
Proof.
  split; [exact rule3_verdict|].
  split; [exact rule4_verdict|].
  intros n1 n2 n3. eexists. split; [reflexivity|].
  simpl. repeat split; reflexivity.
Qed.

Lemma two_against_one_rules_witness :
  exists v,
    _calculate_ensemble_verdict
      [("FaceForensics", entry_of FAKE (90 # 100));
       ("SDv14", entry_of REAL (60 # 100));
       ("Chameleon", entry_of REAL (55 # 100))] = Some v /\
    (85 # 100 < 90 # 100 -> 85 # 100 < 60 # 100 ->
     e_prediction v = REAL /\ e_confidence v == 60 # 100) /\
    (85 # 100 < 90 # 100 -> 60 # 100 <= 85 # 100 ->
     e_prediction v = FAKE /\ e_confidence v == 90 # 100) /\
    (90 # 100 <= 85 # 100 ->
     e_prediction v = REAL /\ e_confidence v == 60 # 100).
Proof.
  apply (proj1 two_against_one_rules
               [("FaceForensics", entry_of FAKE (90 # 100));
                ("SDv14", entry_of REAL (60 # 100));
                ("Chameleon", entry_of REAL (55 # 100))]
               ("FaceForensics", entry_of FAKE (90 # 100)) (60 # 100)).
  - unfold binary_votes.
    repeat (apply Forall_cons; [simpl; auto|]). apply Forall_nil.
  - reflexivity.
  - reflexivity.
  - simpl. left. reflexivity.
  - split.
    + exists ("SDv14", entry_of REAL (60 # 100)). split.
      * simpl. left. reflexivity.
      * reflexivity.
    + simpl. intros r [<- | [<- | []]]; simpl.
      * apply Qle_refl.
      * discriminate.
Defined.

(** ** Raw votes in ensemble mode *)

Section RawVotes.

Variable Image : Type.
Variable extract_aligned_face : Image -> option Image.
Variable model_prob : string -> Image -> Q.

Lemma several_models (self : Server) :
  (1 < List.length (models self))%nat ->
  (List.length (models self) =? 1)%nat = false /\
  (1 <? List.length (models self))%nat = true /\
  models self <> [].
Proof.
  intro H. repeat split.
  - apply Nat.eqb_neq. lia.
  - apply Nat.ltb_lt. exact H.
  - intro E. rewrite E in H. simpl in H. lia.
Qed.

Lemma frame_verdict_total (self : Server) (face : Image) :
  models self <> [] ->
  exists ens, frame_verdict Image model_prob self face = Some ens.
Proof.
  intro H. apply ensemble_verdict_total. unfold raw_results.
  destruct (models self); [congruence | discriminate].
Qed.

Lemma process_image_ensemble (self : Server) (img face : Image) (ens : Ensemble) :
  (1 < List.length (models self))%nat ->
  aligned Image extract_aligned_face self img = Some face ->
  frame_verdict Image model_prob self face = Some ens ->
  process_image Image extract_aligned_face model_prob self (Some img)
  = Ok {| model_results := raw_results Image model_prob self face;
          ENSEMBLE := Some ens |}.
Proof.
  intros Hn Ha Hv. destruct (several_models self Hn) as [E1 [E2 _]].
  unfold process_image. rewrite Ha, E1, E2.
  change (map _ (models self)) with (raw_results Image model_prob self face).
  unfold frame_verdict in Hv. rewrite Hv. reflexivity.
Qed.

Lemma run_models_ensemble (self : Server) (face : Image) (ens : Ensemble) :
  (1 < List.length (models self))%nat ->
  frame_verdict Image model_prob self face = Some ens ->
  run_models Image model_prob self face
  = (map (fun model_name => Infer model_name face) (models self),
     Ok {| model_results := raw_results Image model_prob self face;
           ENSEMBLE := Some ens |}).
Proof.
  intros Hn Hv. destruct (several_models self Hn) as [E1 [E2 Hne]].
  unfold run_models. destruct (models self) as [|m ms] eqn:Hm; [congruence|].
  rewrite E1, E2.
  assert (Hr : map (fun model_name =>
                      (model_name,
                       score_model Image model_prob self false model_name face))
                   (m :: ms)
               = raw_results Image model_prob self face).
  { unfold raw_results. rewrite Hm. reflexivity. }
  rewrite Hr. unfold frame_verdict in Hv. rewrite Hv. reflexivity.
Qed.

Lemma run_models_single (self : Server) (face : Image) (name : string) :
  models self = [name] ->
  run_models Image model_prob self face
  = ([Infer name face],
     Ok {| model_results :=
             [(name, adjusted_entry Image model_prob self name face)];
           ENSEMBLE := None |}).
Proof.
  intro Hm. unfold run_models. rewrite Hm.
  cbn [List.length map Nat.eqb Nat.ltb Nat.leb].
  rewrite score_model_single. reflexivity.
Qed.

Lemma infer_using_server_face (self : Server) (img face : Image) :
  served_face extract_aligned_face self img = Some face ->
  snd (infer_using_server Image extract_aligned_face model_prob self img)
  = snd (run_models Image model_prob self face).
Proof.
  unfold served_face, infer_using_server.
  destruct (face_detector self && landmark_predictor self).
  - intros ->. destruct (run_models Image model_prob self face). reflexivity.
  - intro H. inversion H. reflexivity.
Qed.

End RawVotes.

(** C3. When more than one model is loaded, the threshold conversion and
    the confidence boost are not applied: [process_image] and
    [infer_using_server] return, for each model, the raw label (FAKE iff
    [prob >= 0.5]) and the raw confidence [max(p, 1-p)], the ensemble verdict
    is computed from these raw entries, and the result does not depend on the
    threshold and boost of the server.  With exactly one model loaded the
    entry is the one adjusted by the threshold/boost rule. *)
Theorem ensemble_uses_raw_votes
    (Image : Type) (extract_aligned_face : Image -> option Image)
    (model_prob : string -> Image -> Q) (self : Server) (img face : Image) :
  ((1 < List.length (models self))%nat ->
   (forall name entry,
       In (name, entry) (raw_results Image model_prob self face) ->
       In name (models self) /\
       (prediction entry = FAKE <-> 1 # 2 <= model_prob name face) /\
       (prediction entry = REAL <-> model_prob name face < 1 # 2) /\
       confidence entry == Qmax (model_prob name face) (1 - model_prob name face)) /\
   exists ens,
     _calculate_ensemble_verdict (raw_results Image model_prob self face) = Some ens /\
     (aligned Image extract_aligned_face self img = Some face ->
      forall T B,
        process_image Image extract_aligned_face model_prob
                      (with_config self T B) (Some img)
        = Ok {| model_results := raw_results Image model_prob self face;
                ENSEMBLE := Some ens |}) /\
     (served_face extract_aligned_face self img = Some face ->
      forall T B,
        snd (infer_using_server Image extract_aligned_face model_prob
                                (with_config self T B) img)
        = Ok {| model_results := raw_results Image model_prob self face;
                ENSEMBLE := Some ens |})) /\
  (forall name,
      models self = [name] ->
      (aligned Image extract_aligned_face self img = Some face ->
       process_image Image extract_aligned_face model_prob self (Some img)
       = Ok {| model_results :=
                 [(name, adjusted_entry Image model_prob self name face)];
               ENSEMBLE := None |}) /\
      (served_face extract_aligned_face self img = Some face ->
       snd (infer_using_server Image extract_aligned_face model_prob self img)
       = Ok {| model_results :=
                 [(name, adjusted_entry Image model_prob self name face)];
               ENSEMBLE := None |})).
Proof.
  split.
  - intro Hn. split.
    + intros name entry Hin. unfold raw_results in Hin.
      apply in_map_iff in Hin. destruct Hin as [n [E Hin]].
      inversion E; subst; clear E. split; [exact Hin|].
      unfold raw_entry. simpl.
      split; [apply pred_label_fake|].
      split; [apply pred_label_real | apply pred_confidence_max].
    + destruct (several_models self Hn) as [_ [_ Hne]].
      destruct (frame_verdict_total Image model_prob self face Hne) as [ens Hv].
      exists ens. split; [exact Hv|]. split.
      * intros Ha T B.
        apply (process_image_ensemble Image extract_aligned_face model_prob
                 (with_config self T B) img face ens Hn Ha Hv).
      * intros Hs T B.
        rewrite (infer_using_server_face Image extract_aligned_face model_prob
                   (with_config self T B) img face Hs).
        rewrite (run_models_ensemble Image model_prob
                   (with_config self T B) face ens Hn Hv).
        reflexivity.
  - intros name Hm. split.
    + intro Ha. apply process_image_single; assumption.
    + intro Hs.
      rewrite (infer_using_server_face Image extract_aligned_face model_prob
                 self img face Hs).
      rewrite (run_models_single Image model_prob self face name Hm).
      reflexivity.
Qed.

Lemma ensemble_uses_raw_votes_witness :
  exists ens,
    process_image (option Q) toy_extract toy_prob
                  (with_config ensemble_server (70 # 100) (25 # 100))
                  (Some (Some (60 # 100)))
    = Ok {| model_results :=
              raw_results (option Q) toy_prob ensemble_server (Some (60 # 100));
            ENSEMBLE := Some ens |}.
Proof.
  destruct (proj1 (ensemble_uses_raw_votes
                     (option Q) toy_extract toy_prob ensemble_server
                     (Some (60 # 100)) (Some (60 # 100))))
    as [_ [ens [_ [H _]]]].
  - simpl. lia.
  - exists ens. apply H. reflexivity.
Defined.

(** ** The streaming handler *)

Section Streaming.

Variable Image : Type.
Variable extract_aligned_face : Image -> option Image.
Variable model_prob : string -> Image -> Q.
Variable b64_to_bgr_img : string -> option Image.
Variable AUTH_TOKEN : string.

(** [run_models] calls the classifiers and nothing else. *)
Lemma run_models_events (self : Server) (face : Image) (e : Event Image) :
  In e (fst (run_models Image model_prob self face)) ->
  exists name, e = Infer name face.
Proof.
  unfold run_models. destruct (models self) as [|m ms]; [intros []|].
  assert (H : forall names : list string,
             In e (map (fun model_name => Infer model_name face) names) ->
             exists name, e = Infer name face).
  { intros names Hin. apply in_map_iff in Hin.
    destruct Hin as [n [<- _]]. exists n. reflexivity. }
  destruct (1 <? List.length (m :: ms))%nat;
    [destruct (_calculate_ensemble_verdict _)|]; apply H.
Qed.

(** The aligner reports no face only on the guarded path, which returns at
    once. *)
Lemma infer_align_none (self : Server) (img img0 : Image) :
  In (Align img0 None)
     (fst (infer_using_server Image extract_aligned_face model_prob self img)) ->
  img0 = img /\
  face_detector self && landmark_predictor self = true /\
  extract_aligned_face img = None /\
  infer_using_server Image extract_aligned_face model_prob self img
  = ([Align img None], Error "No face detected").
Proof.
  unfold infer_using_server.
  destruct (face_detector self && landmark_predictor self).
  - destruct (extract_aligned_face img) as [face|].
    + destruct (run_models Image model_prob self face) as [calls results] eqn:E.
      simpl. intros [H | H]; [discriminate H|].
      assert (Hin : In (Align img0 None)
                       (fst (run_models Image model_prob self face)))
        by (rewrite E; exact H).
      destruct (run_models_events self face _ Hin) as [n Hn]. discriminate Hn.
    + simpl. intros [H | []]. inversion H. auto.
  - intro H. destruct (run_models_events self img _ H) as [n Hn].
    discriminate Hn.
Qed.

Lemma infer_no_face (self : Server) (img : Image) :
  face_detector self = true ->
  landmark_predictor self = true ->
  extract_aligned_face img = None ->
  infer_using_server Image extract_aligned_face model_prob self img
  = ([Align img None], Error "No face detected").
Proof.
  intros Hd Hl He. unfold infer_using_server. rewrite Hd, Hl, He. reflexivity.
Qed.

(** Without the face detector or without the landmark predictor the aligner
    is not consulted: the whole frame is classified. *)
Lemma infer_unguarded (self : Server) (img : Image) :
  face_detector self && landmark_predictor self = false ->
  infer_using_server Image extract_aligned_face model_prob self img
  = run_models Image model_prob self img.
Proof. intro H. unfold infer_using_server. rewrite H. reflexivity. Qed.

Lemma no_face_error_result (msg : Message) :
  error_result msg "No face detected"
  = {| r_type := "result"; r_id := m_id msg; r_ts := m_ts msg;
       r_prediction := Some "NO_FACE"; r_confidence := Some 0;
       r_error := Some "No face detected"; r_models := None |}.
Proof. reflexivity. Qed.

(** A message during which the aligner reports no face is answered by the
    special result, and the loop goes on. *)
Lemma handle_message_no_face (self : Server) (raw_msg : RawMessage) (img : Image) :
  In (Align img None)
     (fst (handle_message Image extract_aligned_face model_prob b64_to_bgr_img
                          AUTH_TOKEN self raw_msg)) ->
  exists msg,
    raw_msg = Json msg /\
    handle_message Image extract_aligned_face model_prob b64_to_bgr_img
                   AUTH_TOKEN self raw_msg
    = ([Align img None; Send (error_result msg "No face detected")], true).
Proof.
  destruct raw_msg as [| |msg]; simpl.
  - intros [H | []]. discriminate H.
  - intros [].
  - intro H. exists msg. split; [reflexivity|]. revert H.
    destruct (negb (AUTH_TOKEN =? "")%string && token_differs AUTH_TOKEN msg);
      [simpl; intros [H | []]; discriminate H|].
    destruct (is_frame msg); [|simpl; intros [H | []]; discriminate H].
    assert (Hbody :
      forall r : list (Event Image) * bool,
        r = (if no_frame msg
             then ([Send (error_response "no frame provided")], true)
             else
               match b64_to_bgr_img (match m_frameB64 msg with
                                     | Some frame_b64 => frame_b64
                                     | None => ""
                                     end) with
               | None => ([Send (error_response "failed to decode frame")], true)
               | Some img_bgr =>
                   let '(events, results) :=
                     infer_using_server Image extract_aligned_face model_prob
                                        self img_bgr in
                   match results with
                   | Error error_msg =>
                       ((events ++ [Send (error_result msg error_msg)])%list, true)
                   | Raise _ => (events, false)
                   | Ok results =>
                       let '(final_prediction, final_confidence) :=
                         final_verdict self results in
                       ((events
                           ++ [Send {| r_type := "result"; r_id := m_id msg;
                                       r_ts := m_ts msg;
                                       r_prediction := final_prediction;
                                       r_confidence := final_confidence;
                                       r_error := None;
                                       r_models := Some results |}])%list, true)
                   end
               end) ->
        In (Align img None) (fst r) ->
        r = ([Align img None; Send (error_result msg "No face detected")], true)).
    { intros r ->.
      destruct (no_frame msg); [simpl; intros [H | []]; discriminate H|].
      destruct (b64_to_bgr_img _) as [img_bgr|];
        [|simpl; intros [H | []]; discriminate H].
      destruct (infer_using_server Image extract_aligned_face model_prob
                                   self img_bgr) as [events results] eqn:E.
      intro Hin.
      assert (Hev : In (Align img None) events).
      { destruct results as [res|error_msg|exc]; simpl in Hin.
        - destruct (final_verdict self res). simpl in Hin.
          apply in_app_or in Hin. destruct Hin as [Hin | [Hin | []]];
            [exact Hin | discriminate Hin].
        - apply in_app_or in Hin. destruct Hin as [Hin | [Hin | []]];
            [exact Hin | discriminate Hin].
        - exact Hin. }
      assert (Hev' : In (Align img None)
                        (fst (infer_using_server Image extract_aligned_face
                                                 model_prob self img_bgr)))
        by (rewrite E; exact Hev).
      destruct (infer_align_none self img_bgr img Hev') as [-> [_ [_ E']]].
      rewrite E' in E. inversion E; subst. reflexivity. }
    destruct (m_id msg); try (apply Hbody; reflexivity).
    intros [].
Qed.

End Streaming.

(** When the token is accepted, the message is a frame with a usable id and
    a payload that decodes, and both the face detector and the landmark
    predictor are loaded, a frame without a face is answered by the special
    result. *)
Lemma no_face_frame_answered
    (Image : Type) (extract_aligned_face : Image -> option Image)
    (model_prob : string -> Image -> Q)
    (b64_to_bgr_img : string -> option Image) (AUTH_TOKEN : string)
    (self : Server) (msg : Message) (frame_b64 : string) (img : Image) :
  negb (AUTH_TOKEN =? "")%string && token_differs AUTH_TOKEN msg = false ->
  is_frame msg = true ->
  m_id msg <> NonStr ->
  m_frameB64 msg = Some frame_b64 ->
  frame_b64 <> "" ->
  b64_to_bgr_img frame_b64 = Some img ->
  face_detector self = true ->
  landmark_predictor self = true ->
  extract_aligned_face img = None ->
  handle_message Image extract_aligned_face model_prob b64_to_bgr_img
                 AUTH_TOKEN self (Json msg)
  = ([Align img None; Send (error_result msg "No face detected")], true).
Proof.
  intros Htok Hty Hid Hb64 Hne Hdec Hd Hl He.
  unfold handle_message. rewrite Htok, Hty.
  unfold no_frame. rewrite Hb64.
  apply String.eqb_neq in Hne. rewrite Hne, Hdec.
  rewrite (infer_no_face Image extract_aligned_face model_prob self img Hd Hl He).
  destruct (m_id msg); try reflexivity. congruence.
Qed.

(** C9. In the streaming handler, a frame on which the face aligner reports
    no face is answered by a message of type "result" with prediction
    "NO_FACE" (carrying the id and timestamp of the request), not by an error
    message; no classifier is run for that frame; and the loop goes on, so
    that the following messages are handled as on a connection of their
    own. *)
Theorem no_face_frame_gets_result
    (Image : Type) (extract_aligned_face : Image -> option Image)
    (model_prob : string -> Image -> Q)
    (b64_to_bgr_img : string -> option Image) (AUTH_TOKEN : string)
    (self : Server) (raw_msg : RawMessage) (img : Image) :
  In (Align img None)
     (fst (handle_message Image extract_aligned_face model_prob b64_to_bgr_img
                          AUTH_TOKEN self raw_msg)) ->
  exists msg resp,
    raw_msg = Json msg /\
    fst (handle_message Image extract_aligned_face model_prob b64_to_bgr_img
                        AUTH_TOKEN self raw_msg)
    = [Align img None; Send resp] /\
    r_type resp = "result" /\
    r_prediction resp = Some "NO_FACE" /\
    r_confidence resp = Some 0 /\
    r_id resp = m_id msg /\
    r_ts resp = m_ts msg /\
    r_models resp = None /\
    (forall name face,
        ~ In (Infer name face)
             (fst (handle_message Image extract_aligned_face model_prob
                                  b64_to_bgr_img AUTH_TOKEN self raw_msg))) /\
    (forall rest,
        handler Image extract_aligned_face model_prob b64_to_bgr_img
                AUTH_TOKEN self (raw_msg :: rest)
        = Align img None :: Send resp
            :: handler Image extract_aligned_face model_prob b64_to_bgr_img
                       AUTH_TOKEN self rest).
Proof.
  intro H.
  destruct (handle_message_no_face Image extract_aligned_face model_prob
              b64_to_bgr_img AUTH_TOKEN self raw_msg img H) as [msg [-> E]].
  exists msg, (error_result msg "No face detected").
  rewrite no_face_error_result. cbn [handler]. rewrite E. simpl.
  repeat split; try reflexivity.
  intros name face [Hin | [Hin | []]]; discriminate Hin.
Qed.

Lemma no_face_frame_gets_result_witness :
  exists resp,
    handler (option Q) toy_extract toy_prob toy_decode "" ensemble_server
            [Json (frame_message "frame-1" "blank"); InvalidJson]
    = [Align None None; Send resp; Send (error_response "invalid json")] /\
    r_type resp = "result" /\
    r_prediction resp = Some "NO_FACE".
Proof.
  destruct (no_face_frame_gets_result
              (option Q) toy_extract toy_prob toy_decode "" ensemble_server
              (Json (frame_message "frame-1" "blank")) None)
    as [msg [resp [_ [_ [Ht [Hp [_ [_ [_ [_ [_ Hnext]]]]]]]]]]].
  - simpl. left. reflexivity.
  - exists resp. split; [|split; assumption].
    rewrite Hnext. reflexivity.
Defined.

(** ** The video aggregator *)

Lemma mean_or_zero_mean (l : list Q) : mean_of l (Py.mean_or_zero l).
Proof.
  destruct l as [|x l]; [reflexivity|].
  unfold mean_of, Py.mean_or_zero, Py.np_mean.
  set (s := Py.sum (x :: l)). set (n := Py.len (x :: l)).
  assert (Hn : ~ n == 0).
  { unfold n, Py.len. simpl List.length. intro H.
    assert (H1 : (0 < Z.of_nat (S (List.length l)))%Z) by lia.
    assert (H2 : 0 < inject_Z (Z.of_nat (S (List.length l)))).
    { change 0 with (inject_Z 0). rewrite <- Zlt_Qlt. exact H1. }
    rewrite H in H2. apply (Qlt_irrefl 0 H2). }
  field. exact Hn.
Qed.

(** The mean of a non-empty list of equal values is that value. *)
Lemma mean_of_constant (l : list Q) (c m : Q) :
  l <> [] ->
  (forall x, In x l -> x == c) ->
  mean_of l m ->
  m == c.
Proof.
  intros Hne Hall Hm.
  assert (Hsum : Py.sum l == c * Py.len l).
  { clear Hne Hm. induction l as [|x l IH].
    - unfold Py.len. simpl. ring.
    - assert (Hx : x == c) by (apply Hall; left; reflexivity).
      assert (IH' : Py.sum l == c * Py.len l).
      { apply IH. intros y Hy. apply Hall. right. exact Hy. }
      unfold Py.len in *. cbn [Py.sum List.length].
      rewrite Nat2Z.inj_succ, <- Z.add_1_r, inject_Z_plus, IH', Hx.
      change (inject_Z 1) with 1. ring. }
  destruct l as [|x l]; [congruence|].
  unfold mean_of in Hm. rewrite Hsum in Hm.
  assert (Hn : 0 < Py.len (x :: l)).
  { unfold Py.len. change 0 with (inject_Z 0). rewrite <- Zlt_Qlt.
    simpl List.length. lia. }
  apply (Qmult_inj_r m c (Py.len (x :: l))); [|exact Hm].
  intro H. rewrite H in Hn. apply (Qlt_irrefl 0 Hn).
Qed.

Section Video.

Variable Image : Type.
Variable extract_aligned_face : Image -> option Image.
Variable model_prob : string -> Image -> Q.

Lemma scored_frames_skip (self : Server) (fd : FrameData Image)
    (rest : list (FrameData Image)) :
  aligned Image extract_aligned_face self (frame fd) = None ->
  scored_frames Image extract_aligned_face self (fd :: rest)
  = scored_frames Image extract_aligned_face self rest.
Proof. intro H. simpl. rewrite H. reflexivity. Qed.

Lemma scored_frames_keep (self : Server) (fd : FrameData Image)
    (rest : list (FrameData Image)) (face : Image) :
  aligned Image extract_aligned_face self (frame fd) = Some face ->
  scored_frames Image extract_aligned_face self (fd :: rest)
  = (frame_number fd, face) :: scored_frames Image extract_aligned_face self rest.
Proof. intro H. simpl. rewrite H. reflexivity. Qed.

(** A frame without a face leaves the state of the frame loop unchanged. *)
Lemma video_step_no_face (self : Server) (st : VideoState) (fd : FrameData Image) :
  aligned Image extract_aligned_face self (frame fd) = None ->
  video_step Image extract_aligned_face model_prob self st fd = Ok st.
Proof. intro H. unfold video_step. rewrite H. reflexivity. Qed.

Lemma video_step_single (self : Server) (name : string) (st : VideoState)
    (fd : FrameData Image) (face : Image) :
  models self = [name] ->
  aligned Image extract_aligned_face self (frame fd) = Some face ->
  let e := adjusted_entry Image model_prob self name face in
  video_step Image extract_aligned_face model_prob self st fd
  = Ok {| frame_results :=
            (frame_results st
               ++ [single_frame_result Image model_prob self name
                                       (frame_number fd, face)])%list;
          fake_count := bump (votes_fake e) (fake_count st);
          real_count := bump (negb (votes_fake e)) (real_count st);
          suspicious_count := suspicious_count st;
          converted_count := bump (converted e) (converted_count st) |}.
Proof.
  intros Hm Ha e. unfold video_step. rewrite Ha, Hm.
  cbn [List.length Nat.eqb Nat.ltb Nat.leb score_models app andb].
  rewrite score_model_single. fold e.
  cbn [Py.first hd_error or_raise bind getitem].
  rewrite String.eqb_refl. cbn [or_raise bind].
  unfold single_frame_result, votes_fake, converted.
  fold e. cbn [fst snd]. unfold FAKE.
  destruct (prediction e =? "FAKE")%string;
    destruct (get_flag (was_converted e)); reflexivity.
Qed.

Lemma video_loop_single (self : Server) (name : string) :
  models self = [name] ->
  forall (frames_data : list (FrameData Image)) (st : VideoState),
    let es := adjusted_entries Image extract_aligned_face model_prob self name
                               frames_data in
    video_loop Image extract_aligned_face model_prob self st frames_data
    = Ok {| frame_results :=
              (frame_results st
                 ++ map (single_frame_result Image model_prob self name)
                        (scored_frames Image extract_aligned_face self
                                       frames_data))%list;
            fake_count := (fake_count st + count votes_fake es)%nat;
            real_count :=
              (real_count st + count (fun e => negb (votes_fake e)) es)%nat;
            suspicious_count := suspicious_count st;
            converted_count := (converted_count st + count converted es)%nat |}.
Proof.
  intro Hm. unfold adjusted_entries, scored_faces, count.
  induction frames_data as [|fd rest IH]; intro st.
  - destruct st. simpl. rewrite app_nil_r, !Nat.add_0_r. reflexivity.
  - cbn [video_loop].
    destruct (aligned Image extract_aligned_face self (frame fd)) as [face|] eqn:Ha.
    + rewrite (video_step_single self name st fd face Hm Ha).
      rewrite (scored_frames_keep self fd rest face Ha).
      cbn [bind]. rewrite IH. cbn [frame_results fake_count real_count
                                   suspicious_count converted_count map snd filter].
      rewrite <- app_assoc. cbn [app].
      f_equal. f_equal.
      * unfold bump. destruct (votes_fake _); simpl; lia.
      * unfold bump. destruct (votes_fake _); simpl; lia.
      * unfold bump. destruct (converted _); simpl; lia.
    + rewrite (video_step_no_face self st fd Ha).
      rewrite (scored_frames_skip self fd rest Ha).
      cbn [bind]. apply IH.
Qed.

Lemma adjusted_entry_binary (self : Server) (name : string) (face : Image) :
  prediction (adjusted_entry Image model_prob self name face) = FAKE \/
  prediction (adjusted_entry Image model_prob self name face) = REAL.
Proof.
  unfold adjusted_entry, adjusted. cbn [prediction].
  destruct (apply_threshold_cases self (model_prob name face)
              (pred_label (model_prob name face))
              (pred_confidence (model_prob name face)))
    as [[_ [_ E]] | [[_ E] | [_ [_ E]]]]; rewrite E; cbn [fst snd]; auto.
  apply pred_label_binary.
Qed.

Lemma binary_count_real (es : list ModelResult) :
  (forall e, In e es -> prediction e = FAKE \/ prediction e = REAL) ->
  count (fun e => negb (votes_fake e)) es = count votes_real es.
Proof.
  intro H. unfold count. f_equal. apply filter_ext_in. intros e He.
  unfold votes_fake, votes_real. destruct (H e He) as [E | E]; rewrite E; reflexivity.
Qed.

Lemma count_partition {A : Type} (f : A -> bool) (l : list A) :
  (count f l + count (fun x => negb (f x)) l)%nat = List.length l.
Proof.
  unfold count. induction l as [|x l IH]; [reflexivity|].
  simpl. destruct (f x); simpl; lia.
Qed.

Lemma confidences_of_single (self : Server) (name label : string)
    (sfs : list (nat * Image)) :
  confidences_of label name
                 (map (single_frame_result Image model_prob self name) sfs)
  = Ok (map confidence
            (filter (fun e => (prediction e =? label)%string)
                    (map (adjusted_entry Image model_prob self name)
                         (map snd sfs)))).
Proof.
  induction sfs as [|sf sfs IH]; [reflexivity|].
  cbn [map confidences_of single_frame_result fr_models getitem].
  rewrite String.eqb_refl. cbn [or_raise bind]. rewrite IH. cbn [bind filter].
  destruct (prediction _ =? label)%string; reflexivity.
Qed.

(** The result of [process_video] in single-model mode, field by field. *)
Lemma process_video_single (self : Server) (name : string)
    (frames_data : list (FrameData Image)) :
  models self = [name] ->
  scored_frames Image extract_aligned_face self frames_data <> [] ->
  let es := adjusted_entries Image extract_aligned_face model_prob self name
                             frames_data in
  exists vr,
    process_video Image extract_aligned_face model_prob self frames_data = Ok vr /\
    total_frames_analyzed vr = List.length es /\
    fake_frames vr = count votes_fake es /\
    real_frames vr = count (fun e => negb (votes_fake e)) es /\
    suspicious_frames vr = None /\
    converted_frames vr = Some (count converted es) /\
    video_verdict vr
    = (if (real_frames vr <? fake_frames vr)%nat then FAKE else REAL) /\
    video_confidence vr
    = Py.mean_or_zero
        (map confidence
             (filter (fun e => (prediction e =? video_verdict vr)%string) es)).
Proof.
  intros Hm Hne es.
  unfold process_video.
  destruct frames_data as [|fd rest]; [exfalso; apply Hne; reflexivity|].
  rewrite (video_loop_single self name Hm (fd :: rest) initial_state).
  fold es. cbn [bind initial_state frame_results fake_count real_count
                suspicious_count converted_count app Nat.add].
  assert (Hlen : List.length
                   (map (single_frame_result Image model_prob self name)
                        (scored_frames Image extract_aligned_face self (fd :: rest)))
                 = List.length es).
  { unfold es, adjusted_entries, scored_faces. rewrite !length_map. reflexivity. }
  assert (Hconf : forall label,
             confidences_of label name
               (map (single_frame_result Image model_prob self name)
                    (scored_frames Image extract_aligned_face self (fd :: rest)))
             = Ok (map confidence
                       (filter (fun e => (prediction e =? label)%string) es))).
  { intro label. apply confidences_of_single. }
  destruct (map (single_frame_result Image model_prob self name)
                (scored_frames Image extract_aligned_face self (fd :: rest)))
    as [|fr frs] eqn:Hfrs.
  { exfalso. apply Hne. apply map_eq_nil in Hfrs. exact Hfrs. }
  rewrite Hm. cbn [List.length Nat.eqb Py.first hd_error or_raise bind].
  rewrite !Hconf.
  destruct (count (fun e => negb (votes_fake e)) es <? count votes_fake es)%nat eqn:Hcmp;
    cbn [bind]; eexists; (split; [reflexivity|]);
    cbn [total_frames_analyzed fake_frames real_frames suspicious_frames
         converted_frames video_verdict video_confidence];
    rewrite Hcmp; repeat split; try reflexivity; exact Hlen.
Qed.

End Video.

(** C6. In single-model mode, for a video with at least one scored frame,
    the video verdict is FAKE iff [fake_count > real_count] and REAL
    otherwise (in particular on a tie), the two counts being the numbers of
    scored frames whose adjusted label is FAKE and REAL; the video confidence
    is the mean of the adjusted confidences of the scored frames whose label
    is the winning one.  When 6 scored frames are FAKE with confidence 0.8
    and 4 are REAL with confidence 0.6, the verdict is FAKE with confidence
    0.8, [fake_frames = 6] and [real_frames = 4]. *)
Theorem video_verdict_single_model
    (Image : Type) (extract_aligned_face : Image -> option Image)
    (model_prob : string -> Image -> Q) (self : Server) (name : string)
    (frames_data : list (FrameData Image)) :
  models self = [name] ->
  scored_frames Image extract_aligned_face self frames_data <> [] ->
  let es := adjusted_entries Image extract_aligned_face model_prob self name
                             frames_data in
  exists vr,
    process_video Image extract_aligned_face model_prob self frames_data = Ok vr /\
    fake_frames vr = count votes_fake es /\
    real_frames vr = count votes_real es /\
    (video_verdict vr = FAKE <-> (real_frames vr < fake_frames vr)%nat) /\
    (video_verdict vr = REAL <-> (fake_frames vr <= real_frames vr)%nat) /\
    mean_of (map confidence
                 (filter (fun e => (prediction e =? video_verdict vr)%string) es))
            (video_confidence vr) /\
    (count votes_fake es = 6%nat ->
     count votes_real es = 4%nat ->
     (forall e, In e es -> votes_fake e = true -> confidence e == 80 # 100) ->
     (forall e, In e es -> votes_real e = true -> confidence e == 60 # 100) ->
     video_verdict vr = FAKE /\ video_confidence vr == 80 # 100 /\
     fake_frames vr = 6%nat /\ real_frames vr = 4%nat).
Proof.
  intros Hm Hne es.
  destruct (process_video_single Image extract_aligned_face model_prob
              self name frames_data Hm Hne)
    as [vr [Hrun [_ [Hf [Hr [_ [_ [Hv Hc]]]]]]]].
  fold es in Hf, Hr, Hc.
  assert (Hbin : forall e, In e es -> prediction e = FAKE \/ prediction e = REAL).
  { intros e He. unfold es, adjusted_entries in He. apply in_map_iff in He.
    destruct He as [face [<- _]]. apply adjusted_entry_binary. }
  rewrite (binary_count_real es Hbin) in Hr.
  assert (Hmean : mean_of
                    (map confidence
                         (filter (fun e => (prediction e =? video_verdict vr)%string) es))
                    (video_confidence vr)).
  { rewrite Hc. apply mean_or_zero_mean. }
  assert (Hfake : video_verdict vr = FAKE <-> (real_frames vr < fake_frames vr)%nat).
  { rewrite Hv. destruct (real_frames vr <? fake_frames vr)%nat eqn:E.
    - apply Nat.ltb_lt in E. split; auto.
    - apply Nat.ltb_ge in E. split; [discriminate | intro; exfalso; lia]. }
  assert (Hreal : video_verdict vr = REAL <-> (fake_frames vr <= real_frames vr)%nat).
  { rewrite Hv. destruct (real_frames vr <? fake_frames vr)%nat eqn:E.
    - apply Nat.ltb_lt in E. split; [discriminate | intro; exfalso; lia].
    - apply Nat.ltb_ge in E. split; auto. }
  exists vr.
  split; [exact Hrun|]. split; [exact Hf|]. split; [exact Hr|].
  split; [exact Hfake|]. split; [exact Hreal|]. split; [exact Hmean|].
  intros H6 H4 Hc8 Hc6.
  assert (Hvf : video_verdict vr = FAKE) by (apply Hfake; lia).
  split; [exact Hvf|]. split; [|lia].
  rewrite Hvf in Hmean.
  apply (mean_of_constant _ (80 # 100) _) in Hmean; [exact Hmean | |].
  - intro E. apply map_eq_nil in E.
    assert (Hz : count votes_fake es = 0%nat).
    { unfold count, votes_fake. rewrite E. reflexivity. }
    lia.
  - intros x Hx. apply in_map_iff in Hx. destruct Hx as [e [<- He]].
    apply filter_In in He. destruct He as [He Hp]. auto.
Qed.

Lemma video_verdict_single_model_witness :
  exists vr,
    process_video (option Q) toy_extract toy_prob scenario_server scenario_frames
    = Ok vr /\
    video_verdict vr = FAKE /\ video_confidence vr == 80 # 100 /\
    fake_frames vr = 6%nat /\ real_frames vr = 4%nat.
Proof.
  destruct (video_verdict_single_model
              (option Q) toy_extract toy_prob scenario_server "Custom"
              scenario_frames)
    as [vr [Hrun [_ [_ [_ [_ [_ Hex]]]]]]].
  - reflexivity.
  - discriminate.
  - exists vr. split; [exact Hrun|]. apply Hex.
    + reflexivity.
    + reflexivity.
    + intros e He Hv. vm_compute in He.
      repeat (destruct He as [<- | He];
              [first [reflexivity | discriminate Hv]|]).
      destruct He.
    + intros e He Hv. vm_compute in He.
      repeat (destruct He as [<- | He];
              [first [reflexivity | discriminate Hv]|]).
      destruct He.
Defined.

Section VideoEnsemble.

Variable Image : Type.
Variable extract_aligned_face : Image -> option Image.
Variable model_prob : string -> Image -> Q.

Lemma score_models_raw (self : Server) (face : Image) (names : list string) :
  forall (acc : Results) (converted_count : nat),
    score_models Image model_prob self false face names acc converted_count
    = ((acc ++ map (fun model_name =>
                      (model_name, raw_entry Image model_prob model_name face))
                   names)%list,
       converted_count).
Proof.
  induction names as [|n names IH]; intros acc cc.
  - simpl. rewrite app_nil_r. reflexivity.
  - cbn [score_models andb map]. rewrite IH, <- app_assoc. reflexivity.
Qed.

Lemma video_step_ensemble (self : Server) (st : VideoState)
    (fd : FrameData Image) (face : Image) (ens : Ensemble) :
  (1 < List.length (models self))%nat ->
  aligned Image extract_aligned_face self (frame fd) = Some face ->
  frame_verdict Image model_prob self face = Some ens ->
  video_step Image extract_aligned_face model_prob self st fd
  = Ok {| frame_results :=
            (frame_results st
               ++ [ensemble_frame_result Image model_prob self
                                         (frame_number fd, face) ens])%list;
          fake_count := bump (in_fake_bucket ens) (fake_count st);
          real_count := bump (counted_real ens) (real_count st);
          suspicious_count := bump (in_suspicious_bucket ens) (suspicious_count st);
          converted_count := converted_count st |}.
Proof.
  intros Hn Ha Hv. destruct (several_models self Hn) as [E1 [E2 _]].
  unfold video_step. rewrite Ha, E1, E2, score_models_raw. cbn [app].
  change (map _ (models self)) with (raw_results Image model_prob self face).
  unfold frame_verdict in Hv. rewrite Hv. cbn [or_raise bind].
  unfold in_fake_bucket, counted_real, in_suspicious_bucket,
    ensemble_frame_result, FAKE.
  cbn [fst snd].
  destruct (get_flag (e_suspicious ens));
    destruct (e_prediction ens =? "FAKE")%string; reflexivity.
Qed.

Lemma video_loop_ensemble (self : Server) :
  (1 < List.length (models self))%nat ->
  forall (frames_data : list (FrameData Image)) (st : VideoState),
  exists verdicts,
    verdicts_of model_prob self
                (scored_frames Image extract_aligned_face self frames_data)
                verdicts /\
    video_loop Image extract_aligned_face model_prob self st frames_data
    = Ok {| frame_results :=
              (frame_results st
                 ++ ensemble_frame_results Image model_prob self
                      (scored_frames Image extract_aligned_face self frames_data)
                      verdicts)%list;
            fake_count := (fake_count st + count in_fake_bucket verdicts)%nat;
            real_count := (real_count st + count counted_real verdicts)%nat;
            suspicious_count :=
              (suspicious_count st + count in_suspicious_bucket verdicts)%nat;
            converted_count := converted_count st |}.
Proof.
  intro Hn. destruct (several_models self Hn) as [_ [_ Hne]].
  unfold verdicts_of, ensemble_frame_results, count.
  induction frames_data as [|fd rest IH]; intro st.
  - exists []. split; [constructor|].
    destruct st. simpl. rewrite app_nil_r, !Nat.add_0_r. reflexivity.
  - cbn [video_loop].
    destruct (aligned Image extract_aligned_face self (frame fd)) as [face|] eqn:Ha.
    + destruct (frame_verdict_total Image model_prob self face Hne) as [ens Hv].
      rewrite (video_step_ensemble self st fd face ens Hn Ha Hv).
      rewrite (scored_frames_keep Image extract_aligned_face self fd rest face Ha).
      cbn [bind].
      destruct (IH {| frame_results :=
                        (frame_results st
                           ++ [ensemble_frame_result Image model_prob self
                                 (frame_number fd, face) ens])%list;
                      fake_count := bump (in_fake_bucket ens) (fake_count st);
                      real_count := bump (counted_real ens) (real_count st);
                      suspicious_count :=
                        bump (in_suspicious_bucket ens) (suspicious_count st);
                      converted_count := converted_count st |})
        as [verdicts [Hvs Hloop]].
      exists (ens :: verdicts). split.
      * constructor; [exact Hv | exact Hvs].
      * rewrite Hloop.
        cbn [frame_results fake_count real_count suspicious_count
             converted_count combine map filter fst snd].
        rewrite <- app_assoc. cbn [app].
        f_equal. f_equal.
        -- unfold bump. destruct (in_fake_bucket ens); simpl; lia.
        -- unfold bump. destruct (counted_real ens); simpl; lia.
        -- unfold bump. destruct (in_suspicious_bucket ens); simpl; lia.
    + rewrite (video_step_no_face Image extract_aligned_face model_prob self st fd Ha).
      rewrite (scored_frames_skip Image extract_aligned_face self fd rest Ha).
      cbn [bind]. apply IH.
Qed.

Lemma ensemble_buckets_spec (frs : list FrameResult) :
  forall fake_confidences real_confidences suspicious_confidences,
    ensemble_buckets frs fake_confidences real_confidences suspicious_confidences
    = ((fake_confidences
          ++ map e_confidence (filter in_fake_bucket (ensembles frs)))%list,
       (real_confidences
          ++ map e_confidence (filter counted_real (ensembles frs)))%list,
       (suspicious_confidences
          ++ map e_confidence (filter in_suspicious_bucket (ensembles frs)))%list).
Proof.
  unfold ensembles.
  induction frs as [|f frs IH]; intros fk rl su.
  - simpl. rewrite !app_nil_r. reflexivity.
  - cbn [ensemble_buckets flat_map].
    destruct (fr_ENSEMBLE f) as [ens|]; [|apply IH].
    cbn [app filter]. unfold in_fake_bucket, counted_real, in_suspicious_bucket, FAKE.
    destruct (get_flag (e_suspicious ens));
      [|destruct (e_prediction ens =? "FAKE")%string];
      rewrite IH; cbn [negb andb map]; rewrite <- ?app_assoc; reflexivity.
Qed.

Lemma ensembles_of_results (self : Server) (sfs : list (nat * Image))
    (verdicts : list Ensemble) :
  List.length sfs = List.length verdicts ->
  ensembles (ensemble_frame_results Image model_prob self sfs verdicts) = verdicts /\
  List.length (ensemble_frame_results Image model_prob self sfs verdicts) = List.length sfs.
Proof.
  unfold ensembles, ensemble_frame_results.
  revert verdicts. induction sfs as [|sf sfs IH]; intros [|v vs] H;
    try discriminate H; [split; reflexivity|].
  injection H as H. destruct (IH vs H) as [IH1 IH2].
  cbn [combine map flat_map ensemble_frame_result fr_ENSEMBLE app snd List.length].
  rewrite IH1, IH2. split; reflexivity.
Qed.

Lemma verdicts_binary (self : Server) (sfs : list (nat * Image))
    (verdicts : list Ensemble) :
  verdicts_of model_prob self sfs verdicts ->
  List.length sfs = List.length verdicts /\
  forall v, In v verdicts -> e_prediction v = FAKE \/ e_prediction v = REAL.
Proof.
  unfold verdicts_of. induction 1 as [|sf v sfs vs Hv _ [IH1 IH2]].
  - split; [reflexivity | intros v []].
  - split; [simpl; congruence|].
    intros w [<- | Hw]; [|apply IH2; exact Hw].
    destruct (ensemble_verdict_shape _ _ Hv) as [u [-> [_ Hb]]].
    destruct (add_suspicious_flag_spec u) as [_ [-> _]]. exact Hb.
Qed.

Lemma counted_real_bucket (verdicts : list Ensemble) :
  (forall v, In v verdicts -> e_prediction v = FAKE \/ e_prediction v = REAL) ->
  filter counted_real verdicts = filter in_real_bucket verdicts.
Proof.
  intro H. apply filter_ext_in. intros v Hv.
  unfold counted_real, in_real_bucket.
  destruct (H v Hv) as [E | E]; rewrite E; reflexivity.
Qed.

End VideoEnsemble.

(** The result of [process_video] in ensemble mode. *)
Lemma process_video_ensemble
    (Image : Type) (extract_aligned_face : Image -> option Image)
    (model_prob : string -> Image -> Q) (self : Server)
    (frames_data : list (FrameData Image)) :
  (1 < List.length (models self))%nat ->
  scored_frames Image extract_aligned_face self frames_data <> [] ->
  exists verdicts vr,
    verdicts_of model_prob self
                (scored_frames Image extract_aligned_face self frames_data)
                verdicts /\
    process_video Image extract_aligned_face model_prob self frames_data = Ok vr /\
    let s := count in_suspicious_bucket verdicts in
    let f := count in_fake_bucket verdicts in
    let r := count in_real_bucket verdicts in
    total_frames_analyzed vr
    = List.length (scored_frames Image extract_aligned_face self frames_data) /\
    suspicious_frames vr = Some s /\
    fake_frames vr = f /\
    real_frames vr = r /\
    ((f < s)%nat /\ (r < s)%nat ->
     video_verdict vr = SUSPICIOUS /\
     mean_of (map e_confidence (filter in_suspicious_bucket verdicts))
             (video_confidence vr)) /\
    (~ ((f < s)%nat /\ (r < s)%nat) -> (r < f)%nat ->
     video_verdict vr = FAKE /\
     mean_of (map e_confidence (filter in_fake_bucket verdicts))
             (video_confidence vr)) /\
    (~ ((f < s)%nat /\ (r < s)%nat) -> (f <= r)%nat ->
     video_verdict vr = REAL /\
     mean_of (map e_confidence (filter in_real_bucket verdicts))
             (video_confidence vr)).
Proof.
  intros Hn Hne.
  destruct (several_models self Hn) as [E1 _].
  destruct frames_data as [|fd rest]; [exfalso; apply Hne; reflexivity|].
  destruct (video_loop_ensemble Image extract_aligned_face model_prob self Hn
              (fd :: rest) initial_state) as [verdicts [Hvs Hloop]].
  destruct (verdicts_binary Image model_prob self _ _ Hvs) as [Hlen Hbin].
  destruct (ensembles_of_results Image model_prob self _ _ Hlen) as [He1 He2].
  exists verdicts.
  unfold process_video. rewrite Hloop.
  cbn [bind initial_state frame_results fake_count real_count suspicious_count
       converted_count app Nat.add].
  destruct (ensemble_frame_results Image model_prob self
              (scored_frames Image extract_aligned_face self (fd :: rest))
              verdicts) as [|fr frs] eqn:Hfrs.
  { exfalso. apply Hne. apply length_zero_iff_nil. rewrite <- He2. reflexivity. }
  rewrite E1, ensemble_buckets_spec, He1.
  cbn [app]. unfold count.
  rewrite (counted_real_bucket verdicts Hbin).
  set (s := List.length (filter in_suspicious_bucket verdicts)).
  set (f := List.length (filter in_fake_bucket verdicts)).
  set (r := List.length (filter in_real_bucket verdicts)).
  destruct ((f <? s)%nat && (r <? s)%nat) eqn:Hs;
    [|destruct (r <? f)%nat eqn:Hf];
    eexists; (split; [exact Hvs|]); (split; [reflexivity|]);
    cbn [suspicious_frames fake_frames real_frames video_verdict video_confidence
         total_frames_analyzed];
    (split; [exact He2|]);
    (split; [reflexivity|]); (split; [reflexivity|]); (split; [reflexivity|]).
  - apply andb_true_iff in Hs. destruct Hs as [Hs1 Hs2].
    apply Nat.ltb_lt in Hs1, Hs2.
    split; [intros _; split; [reflexivity | apply mean_or_zero_mean]|].
    split; intros Hno; exfalso; apply Hno; split; assumption.
  - apply andb_false_iff in Hs. apply Nat.ltb_lt in Hf.
    split; [intros [H1 H2]; exfalso;
            destruct Hs as [Hs | Hs]; apply Nat.ltb_ge in Hs; lia|].
    split; [intros _ _; split; [reflexivity | apply mean_or_zero_mean]|].
    intros _ Hle. exfalso. lia.
  - apply andb_false_iff in Hs. apply Nat.ltb_ge in Hf.
    split; [intros [H1 H2]; exfalso;
            destruct Hs as [Hs | Hs]; apply Nat.ltb_ge in Hs; lia|].
    split; [intros _ Hlt; exfalso; lia|].
    intros _ _. split; [reflexivity | apply mean_or_zero_mean].
Qed.

(** C5. In ensemble mode, for a video with at least one scored frame, let
    [s], [f] and [r] be the numbers of per-frame ensemble verdicts that are
    flagged suspicious, that are FAKE and not flagged, and that are REAL and
    not flagged.  These are the counts the result reports.  The video verdict
    is SUSPICIOUS if [s > f] and [s > r]; otherwise FAKE if [f > r];
    otherwise REAL.  The video confidence is the mean of the confidences of
    the verdicts in the winning bucket, where the mean of an empty bucket
    is 0. *)
Theorem video_verdict_ensemble
    (Image : Type) (extract_aligned_face : Image -> option Image)
    (model_prob : string -> Image -> Q) (self : Server)
    (frames_data : list (FrameData Image)) :
  (1 < List.length (models self))%nat ->
  scored_frames Image extract_aligned_face self frames_data <> [] ->
  exists verdicts vr,
    verdicts_of model_prob self
                (scored_frames Image extract_aligned_face self frames_data)
                verdicts /\
    process_video Image extract_aligned_face model_prob self frames_data = Ok vr /\
    let s := count in_suspicious_bucket verdicts in
    let f := count in_fake_bucket verdicts in
    let r := count in_real_bucket verdicts in
    suspicious_frames vr = Some s /\
    fake_frames vr = f /\
    real_frames vr = r /\
    ((f < s)%nat /\ (r < s)%nat ->
     video_verdict vr = SUSPICIOUS /\
     mean_of (map e_confidence (filter in_suspicious_bucket verdicts))
             (video_confidence vr)) /\
    (~ ((f < s)%nat /\ (r < s)%nat) -> (r < f)%nat ->
     video_verdict vr = FAKE /\
     mean_of (map e_confidence (filter in_fake_bucket verdicts))
             (video_confidence vr)) /\
    (~ ((f < s)%nat /\ (r < s)%nat) -> (f <= r)%nat ->
     video_verdict vr = REAL /\
     mean_of (map e_confidence (filter in_real_bucket verdicts))
             (video_confidence vr)).
Proof.
  intros Hn Hne.
  destruct (process_video_ensemble Image extract_aligned_face model_prob self
              frames_data Hn Hne)
    as [verdicts [vr [Hvs [Hrun [_ H]]]]].
  exists verdicts, vr. split; [exact Hvs|]. split; [exact Hrun|]. exact H.
Qed.

Lemma video_verdict_ensemble_witness :
  exists verdicts vr,
    verdicts_of toy_prob ensemble_server
                (scored_frames (option Q) toy_extract ensemble_server scenario_frames)
                verdicts /\
    process_video (option Q) toy_extract toy_prob ensemble_server scenario_frames
    = Ok vr /\
    suspicious_frames vr = Some (count in_suspicious_bucket verdicts) /\
    video_verdict vr = FAKE /\ video_confidence vr == 80 # 100.
Proof.
  destruct (video_verdict_ensemble
              (option Q) toy_extract toy_prob ensemble_server scenario_frames)
    as [verdicts [vr [Hvs [Hrun [Hs _]]]]].
  - simpl. lia.
  - discriminate.
  - exists verdicts, vr. split; [exact Hvs|]. split; [exact Hrun|].
    split; [exact Hs|].
    vm_compute in Hrun. injection Hrun as <-. split; reflexivity.
Defined.

(** ** Frame counts *)

Section FrameCounts.

Variable Image : Type.
Variable extract_aligned_face : Image -> option Image.
Variable model_prob : string -> Image -> Q.

Lemma scored_frames_length (self : Server) (frames_data : list (FrameData Image)) :
  List.length (scored_frames Image extract_aligned_face self frames_data)
  = count (has_face extract_aligned_face self) frames_data.
Proof.
  unfold count, has_face. induction frames_data as [|fd rest IH]; [reflexivity|].
  simpl. destruct (aligned Image extract_aligned_face self (frame fd));
    simpl; rewrite IH; reflexivity.
Qed.

Lemma scored_frames_remove (self : Server) (fd : FrameData Image)
    (before after : list (FrameData Image)) :
  aligned Image extract_aligned_face self (frame fd) = None ->
  scored_frames Image extract_aligned_face self (before ++ fd :: after)
  = scored_frames Image extract_aligned_face self (before ++ after).
Proof.
  intro Ha. induction before as [|b before IH]; simpl.
  - rewrite Ha. reflexivity.
  - rewrite IH. reflexivity.
Qed.

(** Without a scored frame the loop does nothing. *)
Lemma video_loop_no_scored (self : Server) (frames_data : list (FrameData Image)) :
  scored_frames Image extract_aligned_face self frames_data = [] ->
  forall st,
    video_loop Image extract_aligned_face model_prob self st frames_data = Ok st.
Proof.
  induction frames_data as [|fd rest IH]; intros Hs st; [reflexivity|].
  simpl in Hs. cbn [video_loop].
  destruct (aligned Image extract_aligned_face self (frame fd)) eqn:Ha;
    [discriminate Hs|].
  rewrite (video_step_no_face Image extract_aligned_face model_prob self st fd Ha).
  cbn [bind]. apply IH. exact Hs.
Qed.

Lemma process_video_ok_scored (self : Server)
    (frames_data : list (FrameData Image)) (vr : VideoResult) :
  process_video Image extract_aligned_face model_prob self frames_data = Ok vr ->
  scored_frames Image extract_aligned_face self frames_data <> [].
Proof.
  intros Hrun Hs. unfold process_video in Hrun.
  destruct frames_data as [|fd rest]; [discriminate Hrun|].
  rewrite (video_loop_no_scored self (fd :: rest) Hs) in Hrun.
  simpl in Hrun. discriminate Hrun.
Qed.

(** A frame without a face can be removed from the video. *)
Lemma video_loop_remove (self : Server) (fd : FrameData Image)
    (after : list (FrameData Image)) :
  aligned Image extract_aligned_face self (frame fd) = None ->
  forall (before : list (FrameData Image)) (st : VideoState),
    video_loop Image extract_aligned_face model_prob self st (before ++ fd :: after)
    = video_loop Image extract_aligned_face model_prob self st (before ++ after).
Proof.
  intro Ha. induction before as [|b before IH]; intro st.
  - cbn [app video_loop].
    rewrite (video_step_no_face Image extract_aligned_face model_prob self st fd Ha).
    reflexivity.
  - cbn [app video_loop].
    destruct (video_step Image extract_aligned_face model_prob self st b);
      cbn [bind]; [apply IH | reflexivity | reflexivity].
Qed.

Lemma process_video_same_loop (self : Server)
    (frames1 frames2 : list (FrameData Image)) :
  frames1 <> [] -> frames2 <> [] ->
  video_loop Image extract_aligned_face model_prob self initial_state frames1
  = video_loop Image extract_aligned_face model_prob self initial_state frames2 ->
  process_video Image extract_aligned_face model_prob self frames1
  = process_video Image extract_aligned_face model_prob self frames2.
Proof.
  intros H1 H2 H. unfold process_video.
  destruct frames1 as [|f1 frames1]; [congruence|].
  destruct frames2 as [|f2 frames2]; [congruence|].
  rewrite H. reflexivity.
Qed.

(** Every binary verdict falls in exactly one bucket. *)
Lemma bucket_partition (verdicts : list Ensemble) :
  (forall v, In v verdicts -> e_prediction v = FAKE \/ e_prediction v = REAL) ->
  (count in_fake_bucket verdicts + count in_real_bucket verdicts
   + count in_suspicious_bucket verdicts)%nat
  = List.length verdicts.
Proof.
  unfold count. induction verdicts as [|v vs IH]; intro H; [reflexivity|].
  assert (IH' := IH (fun w Hw => H w (or_intror Hw))).
  cbn [filter List.length].
  unfold in_fake_bucket, in_real_bucket, in_suspicious_bucket in *.
  destruct (get_flag (e_suspicious v));
    destruct (H v (or_introl eq_refl)) as [E | E]; rewrite E;
    cbn [negb andb String.eqb Ascii.eqb Bool.eqb FAKE REAL List.length]; lia.
Qed.

End FrameCounts.

(** C7. For every video that [process_video] processes, the frame counts of
    the result add up to [total_frames_analyzed]: [fake_frames + real_frames]
    in single-model mode, [fake_frames + real_frames + suspicious_frames] in
    ensemble mode.  [total_frames_analyzed] is the number of frames for which
    the face aligner returned a face, and a frame for which it returned
    [None] is left out of everything: the result is that of the video without
    the frame. *)
Theorem frame_counts_sum
    (Image : Type) (extract_aligned_face : Image -> option Image)
    (model_prob : string -> Image -> Q) (self : Server)
    (frames_data : list (FrameData Image)) (vr : VideoResult) :
  process_video Image extract_aligned_face model_prob self frames_data = Ok vr ->
  (List.length (models self) = 1%nat ->
   suspicious_frames vr = None /\
   (fake_frames vr + real_frames vr)%nat = total_frames_analyzed vr /\
   total_frames_analyzed vr
   = count (has_face extract_aligned_face self) frames_data) /\
  ((1 < List.length (models self))%nat ->
   (exists s, suspicious_frames vr = Some s /\
              (fake_frames vr + real_frames vr + s)%nat = total_frames_analyzed vr) /\
   total_frames_analyzed vr
   = count (has_face extract_aligned_face self) frames_data) /\
  (forall before fd after,
      frames_data = (before ++ fd :: after)%list ->
      has_face extract_aligned_face self fd = false ->
      process_video Image extract_aligned_face model_prob self (before ++ after)
      = Ok vr).
Proof.
  intro Hrun.
  assert (Hne := process_video_ok_scored Image extract_aligned_face model_prob
                   self frames_data vr Hrun).
  split; [|split].
  - intro H1. destruct (one_model self H1) as [name Hm].
    destruct (process_video_single Image extract_aligned_face model_prob
                self name frames_data Hm Hne)
      as [vr' [Hrun' [Ht [Hf [Hr [Hs _]]]]]].
    rewrite Hrun in Hrun'. injection Hrun' as <-.
    split; [exact Hs|]. rewrite Hf, Hr, Ht, count_partition.
    split; [reflexivity|].
    unfold adjusted_entries, scored_faces. rewrite !length_map.
    apply scored_frames_length.
  - intro Hn.
    destruct (process_video_ensemble Image extract_aligned_face model_prob
                self frames_data Hn Hne)
      as [verdicts [vr' [Hvs [Hrun' [Ht [Hs [Hf [Hr _]]]]]]]].
    rewrite Hrun in Hrun'. injection Hrun' as <-.
    destruct (verdicts_binary Image model_prob self _ _ Hvs) as [Hlen Hbin].
    split.
    + eexists. split; [exact Hs|].
      rewrite Hf, Hr, Ht, Hlen. apply bucket_partition. exact Hbin.
    + rewrite Ht. apply scored_frames_length.
  - intros before fd after -> Hfd.
    assert (Ha : aligned Image extract_aligned_face self (frame fd) = None).
    { unfold has_face in Hfd.
      destruct (aligned Image extract_aligned_face self (frame fd));
        [discriminate Hfd | reflexivity]. }
    rewrite <- Hrun. apply process_video_same_loop.
    + intro E. apply Hne.
      rewrite (scored_frames_remove Image extract_aligned_face self fd
                 before after Ha), E.
      reflexivity.
    + intro E. destruct before; discriminate E.
    + symmetry. apply video_loop_remove. exact Ha.
Qed.

Lemma frame_counts_sum_witness :
  exists vr,
    process_video (option Q) toy_extract toy_prob scenario_server scenario_frames
    = Ok vr /\
    suspicious_frames vr = None /\
    (fake_frames vr + real_frames vr)%nat = total_frames_analyzed vr /\
    total_frames_analyzed vr = 10%nat.
Proof.
  destruct (process_video (option Q) toy_extract toy_prob scenario_server
                          scenario_frames) as [vr| |] eqn:Hrun;
    try (vm_compute in Hrun; discriminate Hrun).
  exists vr. split; [reflexivity|].
  destruct (proj1 (frame_counts_sum (option Q) toy_extract toy_prob
                                    scenario_server scenario_frames vr Hrun))
    as [Hs [Hsum Ht]].
  - reflexivity.
  - split; [exact Hs|]. split; [exact Hsum|]. rewrite Ht. reflexivity.
Defined.

(** * Further properties *)

(** ** Face boxes *)

Lemma slice_len_inside (n start stop : Z) :
  (0 <= start)%Z -> (0 <= stop <= n)%Z ->
  slice_len n start stop = Z.max 0 (stop - Z.min start n).
Proof.
  intros Hs Ht. unfold slice_len, slice_index.
  destruct (stop <? 0)%Z eqn:E1; [apply Z.ltb_lt in E1; lia|].
  destruct (start <? 0)%Z eqn:E2; [apply Z.ltb_lt in E2; lia|].
  f_equal. lia.
Qed.

(** The window of the bounding-box fallback, for a box that meets the
    image in [w] columns and [h] rows. *)
Lemma bbox_window_bounds (height width : Z) (face : Rect) :
  let box := clamped_box height width face in
  let win := bbox_window height width face in
  let w := (rect_right box - rect_left box)%Z in
  let h := (rect_bottom box - rect_top box)%Z in
  let margin := Z.quot (Z.max w h) 4 in
  (1 <= w)%Z -> (1 <= h)%Z ->
  (0 <= margin)%Z /\
  new_left win = Z.max 0 (rect_left box - margin) /\
  new_top win = Z.max 0 (rect_top box - margin) /\
  new_right win = Z.min width (rect_left box + 2 * (w / 2) + margin) /\
  new_bottom win = Z.min height (rect_top box + 2 * (h / 2) + margin).
Proof.
  unfold clamped_box, bbox_window. cbn [rect_left rect_top rect_right rect_bottom
    new_left new_top new_right new_bottom].
  set (left := Z.max 0 (rect_left face)).
  set (top := Z.max 0 (rect_top face)).
  set (right := Z.min width (rect_right face)).
  set (bottom := Z.min height (rect_bottom face)).
  intros Hw Hh.
  assert (Hcx : ((left + right) / 2 = left + (right - left) / 2)%Z).
  { replace (left + right)%Z with ((right - left) + left * 2)%Z by ring.
    rewrite Z.div_add by lia. ring. }
  assert (Hcy : ((top + bottom) / 2 = top + (bottom - top) / 2)%Z).
  { replace (top + bottom)%Z with ((bottom - top) + top * 2)%Z by ring.
    rewrite Z.div_add by lia. ring. }
  rewrite Hcx, Hcy.
  split.
  { apply Z.quot_pos; lia. }
  repeat split; f_equal; ring.
Qed.

(** X1. In the bounding-box fallback of [extract_aligned_face], for a
    detected box that meets the image in [w >= 1] columns and [h >= 1] rows,
    the crop window lies inside the image and starts at or before the box;
    it reaches the end of the box up to one pixel, and covers the whole box
    as soon as [max(w, h) >= 4] (the margin is then at least one pixel). *)
Theorem bbox_window_covers_box (height width : Z) (face : Rect) :
  let box := clamped_box height width face in
  let win := bbox_window height width face in
  let w := (rect_right box - rect_left box)%Z in
  let h := (rect_bottom box - rect_top box)%Z in
  (1 <= w)%Z -> (1 <= h)%Z ->
  (0 <= new_left win <= rect_left box)%Z /\
  (0 <= new_top win <= rect_top box)%Z /\
  (rect_right box - 1 <= new_right win <= width)%Z /\
  (rect_bottom box - 1 <= new_bottom win <= height)%Z /\
  (4 <= Z.max w h ->
   rect_right box <= new_right win /\ rect_bottom box <= new_bottom win)%Z.
Proof.
  intros box win w h Hw Hh.
  destruct (bbox_window_bounds height width face Hw Hh)
    as [Hm [Hl [Ht [Hr Hb]]]].
  fold box win w h in Hm, Hl, Ht, Hr, Hb.
  assert (Hbox : (0 <= rect_left box /\ 0 <= rect_top box /\
                  rect_right box <= width /\ rect_bottom box <= height)%Z).
  { unfold box, clamped_box. cbn. lia. }
  assert (Hw2 : (w - 1 <= 2 * (w / 2) <= w)%Z).
  { pose proof (Z.div_mod w 2). pose proof (Z.mod_pos_bound w 2). lia. }
  assert (Hh2 : (h - 1 <= 2 * (h / 2) <= h)%Z).
  { pose proof (Z.div_mod h 2). pose proof (Z.mod_pos_bound h 2). lia. }
  assert (Hq1 : (4 <= Z.max w h -> 1 <= Z.quot (Z.max w h) 4)%Z).
  { intro H4. apply Z.quot_le_lower_bound; lia. }
  rewrite Hl, Ht, Hr, Hb.
  set (m := Z.quot (Z.max w h) 4) in *.
  unfold w, h in *. clearbody m.
  split; [lia|]. split; [lia|]. split; [lia|]. split; [lia|].
  intro H4. specialize (Hq1 H4). lia.
Qed.

Lemma bbox_window_covers_box_witness :
  (0 <= new_left (bbox_window 480 640 (mkRect 600 100 700 200)) <= 600)%Z /\
  (640 <= new_right (bbox_window 480 640 (mkRect 600 100 700 200)))%Z.
Proof.
  destruct (bbox_window_covers_box 480 640 (mkRect 600 100 700 200))
    as [Hl [_ [_ [_ H4]]]].
  - vm_compute. discriminate.
  - vm_compute. discriminate.
  - split; [exact Hl|]. apply H4. vm_compute. discriminate.
Defined.

(** The crop of a box that meets the image is empty exactly when the box is
    one pixel wide or high and at most three pixels long. *)
Lemma bbox_crop_empty_iff (height width : Z) (face : Rect) :
  let box := clamped_box height width face in
  let w := (rect_right box - rect_left box)%Z in
  let h := (rect_bottom box - rect_top box)%Z in
  (1 <= w)%Z -> (1 <= h)%Z ->
  (crop_size height width (bbox_window height width face) = 0%Z <->
   (Z.max w h <= 3)%Z /\ (w = 1 \/ h = 1)%Z).
Proof.
  intros box w h Hw Hh.
  destruct (bbox_window_bounds height width face Hw Hh)
    as [Hm [Hl [Ht [Hr Hb]]]].
  fold box w h in Hm, Hl, Ht, Hr, Hb.
  assert (Hbox : (0 <= rect_left box /\ 0 <= rect_top box /\
                  rect_right box <= width /\ rect_bottom box <= height)%Z).
  { unfold box, clamped_box. cbn. lia. }
  assert (Hw2 : (w - 1 <= 2 * (w / 2) <= w /\ (w = 1 -> w / 2 = 0) /\
                 (2 <= w -> 1 <= w / 2))%Z).
  { pose proof (Z.div_mod w 2). pose proof (Z.mod_pos_bound w 2). lia. }
  assert (Hh2 : (h - 1 <= 2 * (h / 2) <= h /\ (h = 1 -> h / 2 = 0) /\
                 (2 <= h -> 1 <= h / 2))%Z).
  { pose proof (Z.div_mod h 2). pose proof (Z.mod_pos_bound h 2). lia. }
  assert (Hq : (Z.max w h <= 3 -> Z.quot (Z.max w h) 4 = 0)%Z).
  { intro H3. apply Z.quot_small. lia. }
  assert (Hq1 : (4 <= Z.max w h -> 1 <= Z.quot (Z.max w h) 4)%Z).
  { intro H4. apply Z.quot_le_lower_bound; lia. }
  unfold crop_size.
  rewrite !slice_len_inside by (rewrite ?Hl, ?Ht, ?Hr, ?Hb; unfold w, h in *; lia).
  rewrite Hl, Ht, Hr, Hb.
  set (m := Z.quot (Z.max w h) 4) in *.
  unfold w, h in *.
  split.
  - intro H0. apply Z.mul_eq_0 in H0. destruct H0 as [H0 | H0]; [|lia].
    apply Z.mul_eq_0 in H0.
    destruct (Z_le_gt_dec 4 (Z.max (rect_right box - rect_left box)
                                   (rect_bottom box - rect_top box))) as [H4 | H3].
    + specialize (Hq1 H4). exfalso. destruct H0 as [H0 | H0]; lia.
    + assert (Hm0 : m = 0%Z) by (apply Hq; lia).
      split; [lia|]. destruct H0 as [H0 | H0]; lia.
  - intros [H3 H1]. assert (Hm0 : m = 0%Z) by (apply Hq; lia).
    destruct H1 as [H1 | H1].
    + assert (E : (Z.max 0
                     (Z.min width (rect_left box
                                   + 2 * ((rect_right box - rect_left box) / 2) + m)
                      - Z.min (Z.max 0 (rect_left box - m)) width) = 0)%Z) by lia.
      rewrite E. ring.
    + assert (E : (Z.max 0
                     (Z.min height (rect_top box
                                    + 2 * ((rect_bottom box - rect_top box) / 2) + m)
                      - Z.min (Z.max 0 (rect_top box - m)) height) = 0)%Z) by lia.
      rewrite E. ring.
Qed.

(** X2. When the face detector is loaded, landmark alignment is not
    available for the largest detected box (no landmark predictor, or the
    alignment raised), and that box meets the image in [w >= 1] columns and
    [h >= 1] rows, [extract_aligned_face] returns [None] exactly when the box
    is one pixel wide or high and at most three pixels long; every other box
    yields a face. *)
Theorem extract_aligned_face_none_iff
    (Image : Type) (shape : Image -> Z * Z) (detect : Image -> list Rect)
    (rect_area : Rect -> Z) (landmark_align : Image -> Rect -> option Image)
    (crop_resize : Image -> CropWindow -> Image)
    (self : Server) (image : Image) (face : Rect) :
  let box := clamped_box (fst (shape image)) (snd (shape image)) face in
  let w := (rect_right box - rect_left box)%Z in
  let h := (rect_bottom box - rect_top box)%Z in
  face_detector self = true ->
  largest_face rect_area (detect image) = Some face ->
  (if landmark_predictor self then landmark_align image face else None) = None ->
  (1 <= w)%Z -> (1 <= h)%Z ->
  (extract_aligned_face Image shape detect rect_area landmark_align crop_resize
                        self image = None
   <-> (Z.max w h <= 3)%Z /\ (w = 1 \/ h = 1)%Z).
Proof.
  intros box w h Hd Hface Hl Hw Hh.
  unfold extract_aligned_face. rewrite Hd, Hface, Hl. cbn [negb].
  unfold box, w, h in *. destruct (shape image) as [height width].
  cbn [fst snd] in *.
  pose proof (bbox_crop_empty_iff height width face Hw Hh) as Hiff.
  destruct (crop_size height width (bbox_window height width face) =? 0)%Z eqn:E.
  - apply Z.eqb_eq in E. split; [intros _; apply Hiff; exact E | reflexivity].
  - apply Z.eqb_neq in E. split; [discriminate|].
    intro H. exfalso. apply E. apply Hiff. exact H.
Qed.

Lemma extract_aligned_face_none_iff_witness :
  extract_aligned_face (Z * Z) (fun image => image)
                       (fun _ => [mkRect 10 10 11 13]) (fun _ => 8%Z)
                       (fun _ _ => None) (fun image _ => image)
                       single_server (480, 640)%Z = None
  <-> (Z.max 1 3 <= 3)%Z /\ (1 = 1 \/ 3 = 1)%Z.
Proof.
  apply (extract_aligned_face_none_iff
           (Z * Z) (fun image => image) (fun _ => [mkRect 10 10 11 13])
           (fun _ => 8%Z) (fun _ _ => None) (fun image _ => image)
           single_server (480, 640)%Z (mkRect 10 10 11 13)).
  - reflexivity.
  - reflexivity.
  - reflexivity.
  - vm_compute. discriminate.
  - vm_compute. discriminate.
Defined.

Lemma unit_fraction (a b : Z) :
  (0 <= a)%Z -> (a < b)%Z ->
  0 <= inject_Z a / inject_Z b /\ inject_Z a / inject_Z b < 1.
Proof.
  intros Ha Hb.
  assert (Hpos : 0 < inject_Z b).
  { change 0 with (inject_Z 0). rewrite <- Zlt_Qlt. lia. }
  split.
  - apply Qle_shift_div_l; [exact Hpos|].
    rewrite Qmult_0_l. change 0 with (inject_Z 0). rewrite <- Zle_Qle. exact Ha.
  - apply Qlt_shift_div_r; [exact Hpos|].
    rewrite Qmult_1_l. rewrite <- Zlt_Qlt. exact Hb.
Qed.

(** X3. Whenever [detect_face_bbox_normalized] returns a box
    [[x, y, width, height]], the box lies in the unit square and is not
    empty: [0 <= x], [0 < width], [x + width < 1], and the same
    vertically.  (The image then has at least two rows and columns, so no
    division by zero occurs.) *)
Theorem bbox_normalized_in_unit_square
    (Image : Type) (shape : Image -> Z * Z) (detect : Image -> list Rect)
    (rect_area : Rect -> Z) (self : Server) (img_bgr : Image)
    (bx by_ bw bh : Q) :
  detect_face_bbox_normalized Image shape detect rect_area self img_bgr
  = Some (bx, by_, bw, bh) ->
  (2 <= fst (shape img_bgr))%Z /\ (2 <= snd (shape img_bgr))%Z /\
  0 <= bx /\ 0 < bw /\ bx + bw < 1 /\
  0 <= by_ /\ 0 < bh /\ by_ + bh < 1.
Proof.
  unfold detect_face_bbox_normalized.
  destruct (negb (face_detector self)); [discriminate|].
  destruct (largest_face rect_area (detect img_bgr)) as [face|]; [|discriminate].
  destruct (shape img_bgr) as [h w]. cbn [fst snd].
  set (x1 := Z.max 0 (rect_left face)).
  set (y1 := Z.max 0 (rect_top face)).
  set (x2 := Z.min (w - 1) (rect_right face)).
  set (y2 := Z.min (h - 1) (rect_bottom face)).
  destruct ((x2 <=? x1) || (y2 <=? y1))%Z eqn:E; [discriminate|].
  apply orb_false_iff in E. destruct E as [Ex Ey].
  apply Z.leb_gt in Ex, Ey.
  intro H. inversion H; subst; clear H.
  assert (Hx : (0 <= x1 /\ x2 <= w - 1)%Z) by (unfold x1, x2; lia).
  assert (Hy : (0 <= y1 /\ y2 <= h - 1)%Z) by (unfold y1, y2; lia).
  clearbody x1 y1 x2 y2.
  assert (Hw : 0 < inject_Z w).
  { change 0 with (inject_Z 0). rewrite <- Zlt_Qlt. lia. }
  assert (Hh : 0 < inject_Z h).
  { change 0 with (inject_Z 0). rewrite <- Zlt_Qlt. lia. }
  assert (Hsumx : inject_Z x1 / inject_Z w + inject_Z (x2 - x1) / inject_Z w
                  == inject_Z x2 / inject_Z w).
  { unfold Z.sub. rewrite inject_Z_plus, inject_Z_opp. field.
    intro E. rewrite E in Hw. apply (Qlt_irrefl 0 Hw). }
  assert (Hsumy : inject_Z y1 / inject_Z h + inject_Z (y2 - y1) / inject_Z h
                  == inject_Z y2 / inject_Z h).
  { unfold Z.sub. rewrite inject_Z_plus, inject_Z_opp. field.
    intro E. rewrite E in Hh. apply (Qlt_irrefl 0 Hh). }
  split; [lia|]. split; [lia|].
  split; [apply unit_fraction; lia|].
  split.
  { apply Qlt_shift_div_l; [exact Hw|]. rewrite Qmult_0_l.
    change 0 with (inject_Z 0). rewrite <- Zlt_Qlt. lia. }
  split; [rewrite Hsumx; apply unit_fraction; lia|].
  split; [apply unit_fraction; lia|].
  split.
  { apply Qlt_shift_div_l; [exact Hh|]. rewrite Qmult_0_l.
    change 0 with (inject_Z 0). rewrite <- Zlt_Qlt. lia. }
  rewrite Hsumy. apply unit_fraction; lia.
Qed.

Lemma bbox_normalized_in_unit_square_witness :
  0 <= 10 # 640 /\ 0 < 90 # 640 /\ (10 # 640) + (90 # 640) < 1.
Proof.
  destruct (bbox_normalized_in_unit_square
              (Z * Z) (fun image => image) (fun _ => [mkRect 10 20 100 200])
              (fun _ => 1%Z) single_server (480, 640)%Z
              (inject_Z 10 / inject_Z 640) (inject_Z 20 / inject_Z 480)
              (inject_Z (100 - 10) / inject_Z 640)
              (inject_Z (200 - 20) / inject_Z 480))
    as [_ [_ [H1 [H2 [H3 _]]]]].
  - reflexivity.
  - split; [exact H1 | split; [exact H2 | exact H3]].
Defined.

(** ** More on the ensemble rules *)

Lemma votes_partition (results : Results) :
  (List.length (votes_for FAKE results)
   + List.length (filter (fun r => negb (prediction (snd r) =? FAKE)%string) results))%nat
  = List.length results.
Proof.
  unfold votes_for. induction results as [|r results IH]; [reflexivity|].
  simpl. destruct (prediction (snd r) =? FAKE)%string; simpl; lia.
Qed.

Lemma best_of_votes (votes : Results) (c : Q) :
  votes <> [] ->
  (exists r, In r votes /\ confidence (snd r) == c) ->
  (forall r, In r votes -> confidence (snd r) <= c) ->
  exists best,
    Py.max_key v_confidence (map vote_of_item votes) = Some best /\
    v_confidence best == c.
Proof.
  intros Hne [r0 [Hr0 Hc0]] Hub.
  destruct (max_key_spec v_confidence (map vote_of_item votes))
    as [best [Hbest [Hin Hmax]]].
  { destruct votes; [congruence | discriminate]. }
  exists best. split; [exact Hbest|].
  apply in_map_iff in Hin. destruct Hin as [r [<- Hr]].
  apply Qle_antisym.
  - apply (Hub r Hr).
  - rewrite <- Hc0. apply (Hmax (vote_of_item r0)). apply in_map. exact Hr0.
Qed.

(** X4. When all three models vote FAKE the verdict is FAKE (rule 1), and
    when all three vote REAL it is REAL (rule 2); in both cases the
    confidence is the best confidence among the three votes. *)
Theorem unanimous_verdict (results : Results) (c : Q) :
  binary_votes results ->
  List.length results = 3%nat ->
  (List.length (votes_for FAKE results) = 3%nat ->
   best_confidence FAKE results c ->
   exists v, _calculate_ensemble_verdict results = Some v /\
             e_prediction v = FAKE /\ e_confidence v == c /\
             e_rule v = "Rule 1: All models predict FAKE") /\
  (List.length (votes_for REAL results) = 3%nat ->
   best_confidence REAL results c ->
   exists v, _calculate_ensemble_verdict results = Some v /\
             e_prediction v = REAL /\ e_confidence v == c /\
             e_rule v = "Rule 2: All models predict REAL").
Proof.
  intros Hbin Hlen.
  pose proof (votes_partition results) as Hpart.
  rewrite (binary_not_fake results Hbin), Hlen in Hpart.
  split; intros Hn [Hex Hub].
  - destruct (best_of_votes (votes_for FAKE results) c) as [best [Hbest Hc]];
      [intro E; rewrite E in Hn; discriminate Hn | exact Hex | exact Hub |].
    unfold _calculate_ensemble_verdict.
    rewrite collect_votes_filter, (binary_not_fake results Hbin). simpl app.
    rewrite !length_map, Hn.
    replace (List.length (votes_for REAL results)) with 0%nat by lia.
    cbn [Nat.eqb andb]. rewrite Hbest.
    eexists. split; [reflexivity|].
    destruct (add_suspicious_flag_spec
                (unflagged (v_prob best) "FAKE" (v_confidence best)
                           "Rule 1: All models predict FAKE"))
      as [_ [-> [-> [-> _]]]].
    simpl. repeat split; try reflexivity. exact Hc.
  - destruct (best_of_votes (votes_for REAL results) c) as [best [Hbest Hc]];
      [intro E; rewrite E in Hn; discriminate Hn | exact Hex | exact Hub |].
    unfold _calculate_ensemble_verdict.
    rewrite collect_votes_filter, (binary_not_fake results Hbin). simpl app.
    rewrite !length_map, Hn.
    replace (List.length (votes_for FAKE results)) with 0%nat by lia.
    cbn [Nat.eqb andb]. rewrite Hbest.
    eexists. split; [reflexivity|].
    destruct (add_suspicious_flag_spec
                (unflagged (v_prob best) "REAL" (v_confidence best)
                           "Rule 2: All models predict REAL"))
      as [_ [-> [-> [-> _]]]].
    simpl. repeat split; try reflexivity. exact Hc.
Qed.

Lemma unanimous_verdict_witness :
  exists v,
    _calculate_ensemble_verdict
      [("FaceForensics", entry_of REAL (60 # 100));
       ("SDv14", entry_of REAL (95 # 100));
       ("Chameleon", entry_of REAL (70 # 100))] = Some v /\
    e_prediction v = REAL /\ e_confidence v == 95 # 100 /\
    e_rule v = "Rule 2: All models predict REAL".
Proof.
  apply (proj2 (unanimous_verdict
                  [("FaceForensics", entry_of REAL (60 # 100));
                   ("SDv14", entry_of REAL (95 # 100));
                   ("Chameleon", entry_of REAL (70 # 100))] (95 # 100)
                  ltac:(unfold binary_votes;
                        repeat (apply Forall_cons; [simpl; auto|]);
                        apply Forall_nil)
                  eq_refl)).
  - reflexivity.
  - split.
    + exists ("SDv14", entry_of REAL (95 # 100)). split.
      * simpl. right. left. reflexivity.
      * reflexivity.
    + simpl. intros r [<- | [<- | [<- | []]]]; simpl; discriminate.
Defined.

(** Where the values of a verdict come from: one of the entries (rules 1
    to 4), or the mean of the probabilities (fallback). *)
Lemma ensemble_verdict_source (results : Results) (v : Ensemble) :
  _calculate_ensemble_verdict results = Some v ->
  (List.length results = 3%nat /\
   e_rule v <> "Fallback: Simple average" /\
   exists r, In r results /\
             e_prob v = prob (snd r) /\
             e_confidence v = confidence (snd r) /\
             ((e_prediction v = FAKE /\ prediction (snd r) = FAKE) \/
              (e_prediction v = REAL /\ prediction (snd r) <> FAKE))) \/
  (List.length results <> 3%nat /\
   e_rule v = "Fallback: Simple average" /\
   Py.np_mean (map (fun r => prob (snd r)) results) = Some (e_prob v) /\
   e_prediction v = pred_label (e_prob v) /\
   e_confidence v = pred_confidence (e_prob v)).
Proof.
  unfold _calculate_ensemble_verdict.
  rewrite collect_votes_filter. simpl app.
  pose proof (votes_partition results) as Hpart.
  rewrite !length_map.
  set (fk := votes_for FAKE results) in *.
  set (rl := filter (fun r => negb (prediction (snd r) =? FAKE)%string) results) in *.
  assert (Hfk : forall b, In b (map vote_of_item fk) ->
                  exists r, In r results /\ v_prob b = prob (snd r) /\
                            v_confidence b = confidence (snd r) /\
                            prediction (snd r) = FAKE).
  { intros b Hb. apply in_map_iff in Hb. destruct Hb as [r [<- Hr]].
    apply filter_In in Hr. destruct Hr as [Hr Hp]. apply String.eqb_eq in Hp.
    exists r. auto. }
  assert (Hrl : forall b, In b (map vote_of_item rl) ->
                  exists r, In r results /\ v_prob b = prob (snd r) /\
                            v_confidence b = confidence (snd r) /\
                            prediction (snd r) <> FAKE).
  { intros b Hb. apply in_map_iff in Hb. destruct Hb as [r [<- Hr]].
    apply filter_In in Hr. destruct Hr as [Hr Hp].
    apply negb_true_iff, String.eqb_neq in Hp. exists r. auto. }
  assert (Hmax : forall l b, Py.max_key v_confidence l = Some b -> In b l).
  { intros l b. destruct l as [|a l]; [discriminate|].
    intro H. inversion H. apply max_key_from_in. }
  assert (Hfirst : forall (l : list Vote) b, Py.first l = Some b -> In b l).
  { intros l b. destruct l as [|a l]; [discriminate|].
    intro H. inversion H. left. reflexivity. }
  destruct ((List.length fk =? 3) && (List.length rl =? 0))%nat eqn:C1.
  { apply andb_true_iff in C1. destruct C1 as [C1 C1'].
    apply Nat.eqb_eq in C1, C1'.
    destruct (Py.max_key v_confidence (map vote_of_item fk)) as [b|] eqn:Hb;
      [|discriminate].
    intro H. inversion H; subst; clear H. left.
    destruct (Hfk b (Hmax _ _ Hb)) as [r [Hr [Hp [Hc Hl]]]].
    destruct (add_suspicious_flag_spec
                (unflagged (v_prob b) "FAKE" (v_confidence b)
                           "Rule 1: All models predict FAKE"))
      as [-> [-> [-> [-> _]]]].
    split; [lia|]. split; [discriminate|]. exists r. simpl. auto 10. }
  destruct ((List.length fk =? 0) && (List.length rl =? 3))%nat eqn:C2.
  { apply andb_true_iff in C2. destruct C2 as [C2 C2'].
    apply Nat.eqb_eq in C2, C2'.
    destruct (Py.max_key v_confidence (map vote_of_item rl)) as [b|] eqn:Hb;
      [|discriminate].
    intro H. inversion H; subst; clear H. left.
    destruct (Hrl b (Hmax _ _ Hb)) as [r [Hr [Hp [Hc Hl]]]].
    destruct (add_suspicious_flag_spec
                (unflagged (v_prob b) "REAL" (v_confidence b)
                           "Rule 2: All models predict REAL"))
      as [-> [-> [-> [-> _]]]].
    split; [lia|]. split; [discriminate|]. exists r. simpl. auto 10. }
  destruct ((List.length fk =? 1) && (List.length rl =? 2))%nat eqn:C3.
  { apply andb_true_iff in C3. destruct C3 as [C3 C3'].
    apply Nat.eqb_eq in C3, C3'.
    destruct (Py.first (map vote_of_item fk)) as [f|] eqn:Hf; [|discriminate].
    destruct (Py.max_key v_confidence (map vote_of_item rl)) as [b|] eqn:Hb;
      [|discriminate].
    intro H. inversion H; subst; clear H. left.
    destruct (Hfk f (Hfirst _ _ Hf)) as [rf [Hrf [Hpf [Hcf Hlf]]]].
    destruct (Hrl b (Hmax _ _ Hb)) as [r [Hr [Hp [Hc Hl]]]].
    split; [lia|].
    destruct (Py.ltb (85 # 100) (v_confidence f));
      [destruct (Py.ltb (85 # 100) (v_confidence b))|];
      match goal with
      | |- context [_add_suspicious_flag ?u] =>
          destruct (add_suspicious_flag_spec u) as [-> [-> [-> [-> _]]]]
      end;
      (split; [discriminate|]); simpl;
      [exists r | exists rf | exists r]; auto 10. }
  destruct ((List.length fk =? 2) && (List.length rl =? 1))%nat eqn:C4.
  { apply andb_true_iff in C4. destruct C4 as [C4 C4'].
    apply Nat.eqb_eq in C4, C4'.
    destruct (Py.first (map vote_of_item rl)) as [f|] eqn:Hf; [|discriminate].
    destruct (Py.max_key v_confidence (map vote_of_item fk)) as [b|] eqn:Hb;
      [|discriminate].
    intro H. inversion H; subst; clear H. left.
    destruct (Hrl f (Hfirst _ _ Hf)) as [rf [Hrf [Hpf [Hcf Hlf]]]].
    destruct (Hfk b (Hmax _ _ Hb)) as [r [Hr [Hp [Hc Hl]]]].
    split; [lia|].
    destruct (Py.ltb (85 # 100) (v_confidence f));
      [destruct (Py.ltb (85 # 100) (v_confidence b))|];
      match goal with
      | |- context [_add_suspicious_flag ?u] =>
          destruct (add_suspicious_flag_spec u) as [-> [-> [-> [-> _]]]]
      end;
      (split; [discriminate|]); simpl;
      [exists r | exists rf | exists r]; auto 10. }
  destruct (Py.np_mean (map (fun r => prob (snd r)) results)) as [avg|];
    [|discriminate].
  intro H. inversion H; subst; clear H. right.
  match goal with
  | |- context [_add_suspicious_flag ?u] =>
      destruct (add_suspicious_flag_spec u) as [-> [-> [-> [-> _]]]]
  end.
  simpl. split.
  { apply andb_false_iff in C1, C2, C3, C4.
    rewrite !Nat.eqb_neq in C1, C2, C3, C4. lia. }
  repeat split.
Qed.

Lemma np_mean_mean (l : list Q) (m : Q) :
  Py.np_mean l = Some m -> mean_of l m /\ l <> [].
Proof.
  intro H. split.
  - pose proof (mean_or_zero_mean l) as Hm.
    unfold Py.mean_or_zero in Hm. rewrite H in Hm. exact Hm.
  - intro E. rewrite E in H. discriminate H.
Qed.

Lemma len_pos {A : Type} (l : list A) : l <> [] -> 0 < Py.len l.
Proof.
  intro H. unfold Py.len. change 0 with (inject_Z 0). rewrite <- Zlt_Qlt.
  destruct l; [congruence | simpl List.length; lia].
Qed.

Lemma sum_bounds (l : list Q) (lo hi : Q) :
  (forall x, In x l -> lo <= x /\ x <= hi) ->
  lo * Py.len l <= Py.sum l /\ Py.sum l <= hi * Py.len l.
Proof.
  induction l as [|x l IH]; intro H.
  - unfold Py.len. simpl. split; rewrite Qmult_0_r; apply Qle_refl.
  - destruct (H x (or_introl eq_refl)) as [Hlo Hhi].
    destruct (IH (fun y Hy => H y (or_intror Hy))) as [IHlo IHhi].
    assert (E : Py.len (x :: l) == 1 + Py.len l).
    { unfold Py.len. cbn [List.length].
      rewrite Nat2Z.inj_succ, <- Z.add_1_l, inject_Z_plus. reflexivity. }
    cbn [Py.sum]. rewrite E. split; lra.
Qed.

(** The mean of a non-empty list lies between any bounds of its elements. *)
Lemma mean_bounds (l : list Q) (m lo hi : Q) :
  l <> [] ->
  (forall x, In x l -> lo <= x /\ x <= hi) ->
  mean_of l m ->
  lo <= m /\ m <= hi.
Proof.
  intros Hne Hall Hm.
  destruct (sum_bounds l lo hi Hall) as [Hlo Hhi].
  pose proof (len_pos l Hne) as Hpos.
  destruct l as [|x l]; [congruence|].
  unfold mean_of in Hm. rewrite <- Hm in Hlo, Hhi.
  split.
  - apply Qmult_le_r with (z := Py.len (x :: l)); assumption.
  - apply Qmult_le_r with (z := Py.len (x :: l)); assumption.
Qed.

Lemma pred_confidence_bounds (p : Q) :
  1 # 2 <= pred_confidence p /\
  (0 <= p -> p <= 1 -> pred_confidence p <= 1).
Proof.
  unfold pred_confidence. cmp_cases; split; intros; lra.
Qed.

(** X5. The four voting rules are used exactly when there are three votes:
    with three entries the verdict is never the fallback average, and with
    any other number of entries (two, when one weight file is missing) it is
    always the fallback: the mean [m] of the probabilities, labelled FAKE iff
    [m >= 0.5], with confidence [max(m, 1 - m)]. *)
Theorem fallback_iff_not_three_votes (results : Results) (v : Ensemble) :
  _calculate_ensemble_verdict results = Some v ->
  (e_rule v = "Fallback: Simple average" <-> List.length results <> 3%nat) /\
  (List.length results <> 3%nat ->
   mean_of (map (fun r => prob (snd r)) results) (e_prob v) /\
   (e_prediction v = FAKE <-> 1 # 2 <= e_prob v) /\
   (e_prediction v = REAL <-> e_prob v < 1 # 2) /\
   e_confidence v == Qmax (e_prob v) (1 - e_prob v)).
Proof.
  intro H.
  destruct (ensemble_verdict_source results v H)
    as [[Hlen [Hrule _]] | [Hlen [Hrule [Hmean [Hl Hc]]]]].
  - split; [split; intro; congruence | intro; congruence].
  - split; [split; intro; assumption|]. intros _.
    split; [apply np_mean_mean; exact Hmean|].
    rewrite Hl, Hc.
    split; [apply pred_label_fake|].
    split; [apply pred_label_real | apply pred_confidence_max].
Qed.

Lemma fallback_iff_not_three_votes_witness :
  e_rule {| e_prob := ((80 # 100) + ((30 # 100) + 0)) / Py.len [1; 1];
            e_prediction := FAKE;
            e_confidence := ((80 # 100) + ((30 # 100) + 0)) / Py.len [1; 1];
            e_rule := "Fallback: Simple average";
            e_suspicious := Some true |}
  = "Fallback: Simple average" <-> 2%nat <> 3%nat.
Proof.
  apply (proj1 (fallback_iff_not_three_votes
                  [("FaceForensics", entry_of FAKE (80 # 100));
                   ("SDv14", entry_of REAL (70 # 100))]
                  {| e_prob := ((80 # 100) + ((30 # 100) + 0)) / Py.len [1; 1];
                     e_prediction := FAKE;
                     e_confidence :=
                       ((80 # 100) + ((30 # 100) + 0)) / Py.len [1; 1];
                     e_rule := "Fallback: Simple average";
                     e_suspicious := Some true |}
                  eq_refl)).
Defined.

(** X6. The verdict computed from raw entries (label FAKE iff
    [prob >= 0.5], confidence [max(p, 1-p)]) is itself of this form: its
    label is FAKE iff its probability is at least 0.5 and its confidence is
    [max(prob, 1 - prob)].  Its confidence is therefore at least 0.5, so that
    the suspicious flag is set exactly when the confidence is at most 0.65;
    and when the probabilities of the entries lie in [[0,1]], so do the
    probability and the confidence of the verdict. *)
Theorem verdict_of_raw_entries_is_raw (results : Results) (v : Ensemble) :
  (forall r, In r results -> raw_consistent (snd r)) ->
  _calculate_ensemble_verdict results = Some v ->
  e_prediction v = pred_label (e_prob v) /\
  e_confidence v = pred_confidence (e_prob v) /\
  1 # 2 <= e_confidence v /\
  (e_suspicious v = Some true <-> e_confidence v <= 65 # 100) /\
  ((forall r, In r results -> 0 <= prob (snd r) /\ prob (snd r) <= 1) ->
   0 <= e_prob v /\ e_prob v <= 1 /\ e_confidence v <= 1).
Proof.
  intros Hraw H.
  assert (Hcons : e_prediction v = pred_label (e_prob v) /\
                  e_confidence v = pred_confidence (e_prob v)).
  { destruct (ensemble_verdict_source results v H)
      as [[_ [_ [r [Hr [Hp [Hc Hl]]]]]] | [_ [_ [_ [Hl Hc]]]]]; [|auto].
    destruct (Hraw r Hr) as [Hrl Hrc]. rewrite Hp, Hc, Hrc. split; [|reflexivity].
    destruct Hl as [[Hv Hf] | [Hv Hn]]; rewrite Hv.
    - rewrite <- Hrl, Hf. reflexivity.
    - rewrite <- Hrl. destruct (pred_label_binary (prob (snd r))) as [E | E];
        rewrite <- Hrl in E; congruence. }
  destruct Hcons as [Hl Hc].
  pose proof (pred_confidence_bounds (e_prob v)) as [Hhalf Hone].
  rewrite <- Hc in Hhalf, Hone.
  split; [exact Hl|]. split; [exact Hc|]. split; [exact Hhalf|].
  split.
  - destruct (ensemble_verdict_shape results v H) as [u [-> _]].
    destruct (add_suspicious_flag_spec u) as [_ [_ [Hcu [_ Hs]]]].
    rewrite Hcu in *. rewrite Hs.
    assert (E : Py.leb (50 # 100) (e_confidence u) = true).
    { apply leb_le. lra. }
    rewrite E. cbn [andb]. split; intro H1.
    + apply leb_le. congruence.
    + apply leb_le in H1. rewrite H1. reflexivity.
  - intro Hprob.
    assert (Hp : 0 <= e_prob v /\ e_prob v <= 1).
    { destruct (ensemble_verdict_source results v H)
        as [[_ [_ [r [Hr [Hp _]]]]] | [_ [_ [Hmean _]]]].
      - rewrite Hp. apply Hprob. exact Hr.
      - destruct (np_mean_mean _ _ Hmean) as [Hm Hne].
        apply (mean_bounds _ _ 0 1 Hne); [|exact Hm].
        intros x Hx. apply in_map_iff in Hx. destruct Hx as [r [<- Hr]].
        apply Hprob. exact Hr. }
    destruct Hp as [Hp0 Hp1]. split; [exact Hp0|]. split; [exact Hp1|].
    apply Hone; assumption.
Qed.

Lemma verdict_of_raw_entries_is_raw_witness :
  exists v,
    frame_verdict (option Q) toy_prob ensemble_server (Some (60 # 100)) = Some v /\
    e_prediction v = pred_label (e_prob v) /\
    1 # 2 <= e_confidence v.
Proof.
  destruct (frame_verdict (option Q) toy_prob ensemble_server (Some (60 # 100)))
    as [v|] eqn:Hv; [|vm_compute in Hv; discriminate Hv].
  exists v. split; [reflexivity|].
  destruct (verdict_of_raw_entries_is_raw
              (raw_results (option Q) toy_prob ensemble_server (Some (60 # 100)))
              v) as [Hl [_ [Hh _]]].
  - intros r Hr. simpl in Hr.
    destruct Hr as [<- | [<- | [<- | []]]]; split; reflexivity.
  - exact Hv.
  - split; assumption.
Defined.

(** X7. With three models the verdict is the prediction of one of them: its
    probability and confidence are those of one entry, and so is its label
    when the votes are binary.  The ensemble selects, it never blends. *)
Theorem verdict_selects_a_model (results : Results) (v : Ensemble) :
  List.length results = 3%nat ->
  binary_votes results ->
  _calculate_ensemble_verdict results = Some v ->
  exists name entry,
    In (name, entry) results /\
    e_prob v = prob entry /\
    e_confidence v = confidence entry /\
    e_prediction v = prediction entry.
Proof.
  intros Hlen Hbin H.
  destruct (ensemble_verdict_source results v H)
    as [[_ [_ [[name entry] [Hr [Hp [Hc Hl]]]]]] | [Hne _]]; [|congruence].
  exists name, entry. cbn [snd] in *.
  split; [exact Hr|]. split; [exact Hp|]. split; [exact Hc|].
  unfold binary_votes in Hbin. rewrite Forall_forall in Hbin.
  destruct (Hbin _ Hr) as [E | E]; cbn [snd] in E;
    destruct Hl as [[Hv Hf] | [Hv Hn]]; congruence.
Qed.

Lemma verdict_selects_a_model_witness :
  exists name entry,
    In (name, entry)
       [("FaceForensics", entry_of FAKE (90 # 100));
        ("SDv14", entry_of REAL (60 # 100));
        ("Chameleon", entry_of REAL (55 # 100))] /\
    90 # 100 = prob entry /\ 90 # 100 = confidence entry /\
    FAKE = prediction entry.
Proof.
  apply (verdict_selects_a_model
           [("FaceForensics", entry_of FAKE (90 # 100));
            ("SDv14", entry_of REAL (60 # 100));
            ("Chameleon", entry_of REAL (55 # 100))]
           {| e_prob := 90 # 100; e_prediction := FAKE;
              e_confidence := 90 # 100;
              e_rule := "Rule 3: Override - FAKE model has >85% confidence";
              e_suspicious := Some false |}).
  - reflexivity.
  - unfold binary_votes.
    repeat (apply Forall_cons; [simpl; auto|]). apply Forall_nil.
  - reflexivity.
Defined.

(** ** More on the single-model rule *)

(** X8. In single-model mode the adjusted label is FAKE exactly when the raw
    probability is at least both 0.5 and the threshold [T]; a prediction is
    converted exactly when [0.5 <= p < T]; and it is REAL and not converted
    exactly when [p < 0.5].  A threshold at or below 0.5 therefore converts
    nothing. *)
Theorem adjusted_label_thresholds (self : Server) (p : Q) :
  let T := FAKE_CONFIDENCE_THRESHOLD self in
  (fst (fst (adjusted self p)) = FAKE <-> 1 # 2 <= p /\ T <= p) /\
  (snd (adjusted self p) = true <-> 1 # 2 <= p /\ p < T) /\
  (fst (fst (adjusted self p)) = REAL /\ snd (adjusted self p) = false
   <-> p < 1 # 2) /\
  (T <= 1 # 2 -> snd (adjusted self p) = false).
Proof.
  intro T. unfold adjusted.
  destruct (Qlt_le_dec p (1 # 2)) as [Hlow | Eh].
  - assert (El : pred_label p = REAL) by (apply pred_label_real; exact Hlow).
    rewrite El, apply_threshold_real. cbn [fst snd].
    split; [split; [discriminate | intros [H _]; exfalso; lra]|].
    split; [split; [discriminate | intros [H _]; exfalso; lra]|].
    split; [split; [intros _; exact Hlow | intros _; split; reflexivity]|].
    reflexivity.
  - assert (El : pred_label p = FAKE) by (apply pred_label_fake; exact Eh).
    assert (Ec : pred_confidence p = p).
    { unfold pred_confidence. apply leb_le in Eh. rewrite Eh. reflexivity. }
    rewrite El, Ec.
    destruct (Qlt_le_dec p T) as [Hlt | Hge].
    + rewrite (apply_threshold_convert self p p Hlt). cbn [fst snd].
      split; [split; [discriminate | intros [_ H]; exfalso; lra]|].
      split; [split; [intros _; split; assumption | reflexivity]|].
      split; [split; [intros [_ H]; discriminate H | intro H; exfalso; lra]|].
      intro H. exfalso. lra.
    + rewrite (apply_threshold_keep self p p Hge). cbn [fst snd].
      split; [split; [intros _; split; assumption | reflexivity]|].
      split; [split; [discriminate | intros [_ H]; exfalso; lra]|].
      split; [split; [intros [H _]; discriminate H | intro H; exfalso; lra]|].
      reflexivity.
Qed.

(** Bounds of the adjusted confidence. *)
Lemma adjusted_bounds (self : Server) (p : Q) :
  0 <= p -> p <= 1 -> 0 <= REAL_CONFIDENCE_BOOST self ->
  1 # 2 <= snd (fst (adjusted self p)) /\
  snd (fst (adjusted self p)) <= 1 /\
  pred_confidence p <= snd (fst (adjusted self p)).
Proof.
  intros H0 H1 HB. unfold adjusted.
  destruct (pred_confidence_bounds p) as [Hh Ho]. specialize (Ho H0 H1).
  destruct (apply_threshold_cases self p (pred_label p) (pred_confidence p))
    as [[_ [_ E]] | [[_ E] | [_ [_ E]]]]; rewrite E; cbn [fst snd].
  - destruct (Q.min_spec (pred_confidence p + REAL_CONFIDENCE_BOOST self) 1)
      as [[Ho' Hm] | [Ho' Hm]]; rewrite Hm; repeat split; lra.
  - destruct (Q.min_spec (pred_confidence p + REAL_CONFIDENCE_BOOST self) 1)
      as [[Ho' Hm] | [Ho' Hm]]; rewrite Hm; repeat split; lra.
  - repeat split; lra.
Qed.

(** X9. For a raw probability in [[0,1]] and a boost [B >= 0], the adjusted
    confidence of single-model mode lies in [[0.5, 1]] and is never below the
    raw confidence. *)
Theorem adjusted_confidence_bounds (self : Server) (p : Q) :
  0 <= p -> p <= 1 -> 0 <= REAL_CONFIDENCE_BOOST self ->
  1 # 2 <= snd (fst (adjusted self p)) /\
  snd (fst (adjusted self p)) <= 1 /\
  pred_confidence p <= snd (fst (adjusted self p)).
Proof.
  intros H0 H1 HB.
  destruct (adjusted_bounds self p H0 H1 HB) as [Hlow [Hhigh Hraw]].
  split; [exact Hlow|]. split; [exact Hhigh | exact Hraw].
Qed.

Lemma adjusted_confidence_bounds_witness :
  1 # 2 <= snd (fst (adjusted single_server (60 # 100))) /\
  snd (fst (adjusted single_server (60 # 100))) <= 1 /\
  pred_confidence (60 # 100) <= snd (fst (adjusted single_server (60 # 100))).
Proof.
  apply (adjusted_confidence_bounds single_server (60 # 100)).
  - vm_compute. discriminate.
  - vm_compute. discriminate.
  - vm_compute. discriminate.
Defined.

Lemma adjusted_label_thresholds_witness :
  snd (adjusted (with_config single_server (40 # 100) (25 # 100)) (45 # 100))
  = false.
Proof.
  apply (proj2 (proj2 (proj2 (adjusted_label_thresholds
                                (with_config single_server (40 # 100) (25 # 100))
                                (45 # 100))))).
  vm_compute. discriminate.
Defined.

(** ** More on the video aggregator *)

Lemma count_le {A : Type} (f g : A -> bool) (l : list A) :
  (forall x, In x l -> f x = true -> g x = true) ->
  (count f l <= count g l)%nat.
Proof.
  unfold count. induction l as [|x l IH]; intro H; [apply Nat.le_refl|].
  assert (IH' := IH (fun y Hy => H y (or_intror Hy))).
  simpl. destruct (f x) eqn:Ef.
  - rewrite (H x (or_introl eq_refl) Ef). simpl. lia.
  - destruct (g x); simpl; lia.
Qed.

Lemma count_pos_nonempty {A : Type} (f : A -> bool) (l : list A) :
  (0 < count f l)%nat -> filter f l <> [].
Proof.
  unfold count. intros H E. rewrite E in H. simpl in H. lia.
Qed.

Section VideoExtras.

Variable Image : Type.
Variable extract_aligned_face : Image -> option Image.
Variable model_prob : string -> Image -> Q.

Lemma converted_entry_is_real (self : Server) (name : string) (face : Image) :
  converted (adjusted_entry Image model_prob self name face) = true ->
  votes_fake (adjusted_entry Image model_prob self name face) = false /\
  model_prob name face < FAKE_CONFIDENCE_THRESHOLD self /\
  1 # 2 <= model_prob name face.
Proof.
  unfold converted, votes_fake, adjusted_entry, adjusted.
  cbn [was_converted prediction get_flag].
  set (p := model_prob name face).
  destruct (apply_threshold_cases self p (pred_label p) (pred_confidence p))
    as [[Hl [Hc E]] | [[_ E] | [_ [_ E]]]]; rewrite E; cbn [fst snd];
    try discriminate.
  intros _. apply pred_label_fake in Hl.
  assert (Ec : pred_confidence p = p).
  { unfold pred_confidence. apply leb_le in Hl. rewrite Hl. reflexivity. }
  rewrite Ec in Hc. repeat split; assumption.
Qed.

Lemma adjusted_entry_bounds (self : Server) (name : string) (face : Image) :
  0 <= model_prob name face -> model_prob name face <= 1 ->
  0 <= REAL_CONFIDENCE_BOOST self ->
  1 # 2 <= confidence (adjusted_entry Image model_prob self name face) /\
  confidence (adjusted_entry Image model_prob self name face) <= 1.
Proof.
  intros H0 H1 HB. unfold adjusted_entry. cbn [confidence].
  destruct (adjusted_bounds self (model_prob name face) H0 H1 HB) as [Ha [Hb _]].
  split; assumption.
Qed.

Lemma frame_verdict_bounds (self : Server) (face : Image) (v : Ensemble) :
  (forall name, 0 <= model_prob name face /\ model_prob name face <= 1) ->
  frame_verdict Image model_prob self face = Some v ->
  1 # 2 <= e_confidence v /\ e_confidence v <= 1.
Proof.
  intros Hp Hv. unfold frame_verdict in Hv.
  destruct (ensemble_verdict_source _ _ Hv)
    as [[_ [_ [r [Hr [_ [Hc _]]]]]] | [_ [_ [Hmean [_ Hc]]]]].
  - unfold raw_results in Hr. apply in_map_iff in Hr.
    destruct Hr as [n [<- _]]. rewrite Hc. cbn [snd raw_entry confidence].
    destruct (pred_confidence_bounds (model_prob n face)) as [Hh Ho].
    destruct (Hp n). split; [exact Hh | apply Ho; assumption].
  - destruct (np_mean_mean _ _ Hmean) as [Hm Hne].
    assert (Hb : 0 <= e_prob v /\ e_prob v <= 1).
    { apply (mean_bounds _ _ 0 1 Hne); [|exact Hm].
      intros x Hx. apply in_map_iff in Hx. destruct Hx as [r [<- Hr]].
      unfold raw_results in Hr. apply in_map_iff in Hr.
      destruct Hr as [n [<- _]]. apply Hp. }
    rewrite Hc. destruct (pred_confidence_bounds (e_prob v)) as [Hh Ho].
    destruct Hb. split; [exact Hh | apply Ho; assumption].
Qed.

Lemma verdicts_of_in (self : Server) (sfs : list (nat * Image))
    (verdicts : list Ensemble) (v : Ensemble) :
  verdicts_of model_prob self sfs verdicts ->
  In v verdicts ->
  exists sf, In sf sfs /\ frame_verdict Image model_prob self (snd sf) = Some v.
Proof.
  unfold verdicts_of. induction 1 as [|sf w sfs vs Hw _ IH]; intros Hin.
  - destruct Hin.
  - destruct Hin as [<- | Hin].
    + exists sf. split; [left; reflexivity | exact Hw].
    + destruct (IH Hin) as [sf' [Hs Hv]]. exists sf'. split; [right|]; assumption.
Qed.

End VideoExtras.

(** X10. In single-model mode every converted frame is counted as a REAL
    frame: [converted_frames <= real_frames], and [converted_frames] is the
    number of scored frames whose raw probability [p] satisfies
    [0.5 <= p < T]. *)
Theorem converted_frames_are_real
    (Image : Type) (extract_aligned_face : Image -> option Image)
    (model_prob : string -> Image -> Q) (self : Server) (name : string)
    (frames_data : list (FrameData Image)) (vr : VideoResult) :
  models self = [name] ->
  process_video Image extract_aligned_face model_prob self frames_data = Ok vr ->
  exists k,
    converted_frames vr = Some k /\
    (k <= real_frames vr)%nat /\
    k = count (fun face =>
                 Py.leb (1 # 2) (model_prob name face)
                 && Py.ltb (model_prob name face) (FAKE_CONFIDENCE_THRESHOLD self))
              (scored_faces Image extract_aligned_face self frames_data).
Proof.
  intros Hm Hrun.
  pose proof (process_video_ok_scored Image extract_aligned_face model_prob
                self frames_data vr Hrun) as Hne.
  destruct (process_video_single Image extract_aligned_face model_prob
              self name frames_data Hm Hne)
    as [vr' [Hrun' [_ [_ [Hr [_ [Hk _]]]]]]].
  rewrite Hrun in Hrun'. injection Hrun' as <-.
  eexists. split; [exact Hk|]. split.
  - rewrite Hr. apply count_le. intros e He Hc.
    unfold adjusted_entries in He. apply in_map_iff in He.
    destruct He as [face [<- _]].
    destruct (converted_entry_is_real Image model_prob self name face Hc) as [Hf _].
    rewrite Hf. reflexivity.
  - unfold adjusted_entries, count.
    set (faces := scored_faces Image extract_aligned_face self frames_data).
    clearbody faces. induction faces as [|face faces IH]; [reflexivity|].
    cbn [map filter].
    assert (E : converted (adjusted_entry Image model_prob self name face)
                = Py.leb (1 # 2) (model_prob name face)
                  && Py.ltb (model_prob name face) (FAKE_CONFIDENCE_THRESHOLD self)).
    { destruct (converted (adjusted_entry Image model_prob self name face)) eqn:Hc.
      - destruct (converted_entry_is_real Image model_prob self name face Hc)
          as [_ [Hlt Hge]].
        apply ltb_lt in Hlt. apply leb_le in Hge. rewrite Hlt, Hge. reflexivity.
      - destruct (Py.leb (1 # 2) (model_prob name face)
                  && Py.ltb (model_prob name face) (FAKE_CONFIDENCE_THRESHOLD self))
          eqn:Eb; [|reflexivity].
        apply andb_true_iff in Eb. destruct Eb as [Eb1 Eb2].
        apply leb_le in Eb1. apply ltb_lt in Eb2.
        assert (El : pred_label (model_prob name face) = FAKE)
          by (apply pred_label_fake; exact Eb1).
        assert (Ec : pred_confidence (model_prob name face) = model_prob name face).
        { unfold pred_confidence. apply leb_le in Eb1. rewrite Eb1. reflexivity. }
        unfold converted, adjusted_entry, adjusted in Hc.
        cbn [was_converted get_flag] in Hc.
        rewrite El, Ec, (apply_threshold_convert self _ _ Eb2) in Hc.
        discriminate Hc. }
    rewrite E.
    destruct (Py.leb (1 # 2) (model_prob name face)
              && Py.ltb (model_prob name face) (FAKE_CONFIDENCE_THRESHOLD self));
      cbn [List.length]; rewrite IH; reflexivity.
Qed.

Lemma converted_frames_are_real_witness :
  exists vr k,
    process_video (option Q) toy_extract toy_prob single_server scenario_frames
    = Ok vr /\
    converted_frames vr = Some k /\ (k <= real_frames vr)%nat.
Proof.
  destruct (process_video (option Q) toy_extract toy_prob single_server
                          scenario_frames) as [vr| |] eqn:Hrun;
    try (vm_compute in Hrun; discriminate Hrun).
  destruct (converted_frames_are_real (option Q) toy_extract toy_prob
              single_server "Custom" scenario_frames vr eq_refl Hrun)
    as [k [Hk [Hle _]]].
  exists vr, k. split; [reflexivity|]. split; assumption.
Defined.

(** X11. The confidence of a video verdict is always the mean of a non-empty
    bucket, never the default 0.0 of an empty one: when the classifiers
    return probabilities in [[0,1]] and the boost is not negative, every
    video verdict that [process_video] returns, in single-model and in
    ensemble mode, has a confidence in [[0.5, 1]]. *)
Theorem video_confidence_bounds
    (Image : Type) (extract_aligned_face : Image -> option Image)
    (model_prob : string -> Image -> Q) (self : Server)
    (frames_data : list (FrameData Image)) (vr : VideoResult) :
  models self <> [] ->
  (forall name face,
      In face (scored_faces Image extract_aligned_face self frames_data) ->
      0 <= model_prob name face /\ model_prob name face <= 1) ->
  0 <= REAL_CONFIDENCE_BOOST self ->
  process_video Image extract_aligned_face model_prob self frames_data = Ok vr ->
  1 # 2 <= video_confidence vr /\ video_confidence vr <= 1.
Proof.
  intros Hmodels Hp HB Hrun.
  pose proof (process_video_ok_scored Image extract_aligned_face model_prob
                self frames_data vr Hrun) as Hne.
  destruct (models self) as [|name [|name2 rest]] eqn:Hm; [congruence| |].
  - destruct (process_video_single Image extract_aligned_face model_prob
                self name frames_data Hm Hne)
      as [vr' [Hrun' [Ht [Hf [Hr [_ [_ [Hv Hc]]]]]]]].
    rewrite Hrun in Hrun'. injection Hrun' as <-.
    set (es := adjusted_entries Image extract_aligned_face model_prob self name
                                frames_data) in *.
    assert (Hbin : forall e, In e es ->
                     prediction e = FAKE \/ prediction e = REAL).
    { intros e He. unfold es, adjusted_entries in He. apply in_map_iff in He.
      destruct He as [face [<- _]]. apply adjusted_entry_binary. }
    assert (Hlen : (0 < List.length es)%nat).
    { unfold es, adjusted_entries, scored_faces. rewrite !length_map.
      destruct (scored_frames Image extract_aligned_face self frames_data);
        [congruence | simpl; lia]. }
    pose proof (count_partition votes_fake es) as Hpart.
    assert (Hbucket : filter (fun e => (prediction e =? video_verdict vr)%string) es
                      <> []).
    { rewrite Hv. destruct (real_frames vr <? fake_frames vr)%nat eqn:E.
      - apply Nat.ltb_lt in E. apply (count_pos_nonempty votes_fake). lia.
      - apply Nat.ltb_ge in E. apply (count_pos_nonempty votes_real).
        rewrite <- (binary_count_real es Hbin). lia. }
    rewrite Hc.
    apply (mean_bounds
             (map confidence
                  (filter (fun e => (prediction e =? video_verdict vr)%string) es))).
    + intro E. apply map_eq_nil in E. apply Hbucket. exact E.
    + intros x Hx. apply in_map_iff in Hx. destruct Hx as [e [<- He]].
      apply filter_In in He. destruct He as [He _].
      unfold es, adjusted_entries in He. apply in_map_iff in He.
      destruct He as [face [<- Hface]].
      destruct (Hp name face Hface).
      apply adjusted_entry_bounds; assumption.
    + apply mean_or_zero_mean.
  - assert (Hn : (1 < List.length (models self))%nat).
    { rewrite Hm. simpl. lia. }
    destruct (process_video_ensemble Image extract_aligned_face model_prob
                self frames_data Hn Hne)
      as [verdicts [vr' [Hvs [Hrun' [Ht [_ [Hf [Hr [H1 [H2 H3]]]]]]]]]].
    rewrite Hrun in Hrun'. injection Hrun' as <-.
    destruct (verdicts_binary Image model_prob self _ _ Hvs) as [Hlen Hbin].
    pose proof (bucket_partition verdicts Hbin) as Hpart.
    assert (Hpos : (0 < List.length verdicts)%nat).
    { rewrite <- Hlen.
      destruct (scored_frames Image extract_aligned_face self frames_data);
        [congruence | simpl; lia]. }
    assert (Hel : forall (f : Ensemble -> bool) x,
               In x (map e_confidence (filter f verdicts)) ->
               1 # 2 <= x /\ x <= 1).
    { intros f x Hx. apply in_map_iff in Hx. destruct Hx as [v [<- Hv]].
      apply filter_In in Hv. destruct Hv as [Hv _].
      destruct (verdicts_of_in Image model_prob self _ _ v Hvs Hv) as [sf [Hin Hsf]].
      apply (frame_verdict_bounds Image model_prob self (snd sf) v); [|exact Hsf].
      intro n. apply Hp. unfold scored_faces. apply in_map. exact Hin. }
    set (s := count in_suspicious_bucket verdicts) in *.
    set (f := count in_fake_bucket verdicts) in *.
    set (r := count in_real_bucket verdicts) in *.
    destruct (le_lt_dec s f) as [Hsf | Hsf];
      [|destruct (le_lt_dec s r) as [Hsr | Hsr]].
    + destruct (le_lt_dec f r) as [Hfr | Hfr].
      * destruct H3 as [_ Hmean]; [lia | exact Hfr |].
        apply (mean_bounds _ _ _ _ (fun E =>
                 count_pos_nonempty in_real_bucket verdicts
                   ltac:(fold r; lia) (map_eq_nil _ _ E))
                 (Hel in_real_bucket) Hmean).
      * destruct H2 as [_ Hmean]; [lia | exact Hfr |].
        apply (mean_bounds _ _ _ _ (fun E =>
                 count_pos_nonempty in_fake_bucket verdicts
                   ltac:(fold f; lia) (map_eq_nil _ _ E))
                 (Hel in_fake_bucket) Hmean).
    + destruct (le_lt_dec f r) as [Hfr | Hfr].
      * destruct H3 as [_ Hmean]; [lia | exact Hfr |].
        apply (mean_bounds _ _ _ _ (fun E =>
                 count_pos_nonempty in_real_bucket verdicts
                   ltac:(fold r; lia) (map_eq_nil _ _ E))
                 (Hel in_real_bucket) Hmean).
      * destruct H2 as [_ Hmean]; [lia | exact Hfr |].
        apply (mean_bounds _ _ _ _ (fun E =>
                 count_pos_nonempty in_fake_bucket verdicts
                   ltac:(fold f; lia) (map_eq_nil _ _ E))
                 (Hel in_fake_bucket) Hmean).
    + destruct H1 as [_ Hmean]; [split; assumption|].
      apply (mean_bounds _ _ _ _ (fun E =>
               count_pos_nonempty in_suspicious_bucket verdicts
                 ltac:(fold s; lia) (map_eq_nil _ _ E))
               (Hel in_suspicious_bucket) Hmean).
Qed.

Lemma video_confidence_bounds_witness :
  exists vr,
    process_video (option Q) toy_extract toy_prob ensemble_server scenario_frames
    = Ok vr /\
    1 # 2 <= video_confidence vr /\ video_confidence vr <= 1.
Proof.
  destruct (process_video (option Q) toy_extract toy_prob ensemble_server
                          scenario_frames) as [vr| |] eqn:Hrun;
    try (vm_compute in Hrun; discriminate Hrun).
  exists vr. split; [reflexivity|].
  apply (video_confidence_bounds (option Q) toy_extract toy_prob ensemble_server
                                 scenario_frames vr).
  - discriminate.
  - intros name face Hface. vm_compute in Hface.
    repeat (destruct Hface as [<- | Hface]; [split; discriminate|]).
    destruct Hface.
  - vm_compute. discriminate.
  - exact Hrun.
Defined.

(** ** Frame extraction *)

Section Extraction.

Variable Image : Type.
Variable extract_aligned_face : Image -> option Image.
Variable model_prob : string -> Image -> Q.

Lemma read_frames_acc (self : Server) (k : nat) (frames : list Image) :
  forall n acc,
    read_frames Image extract_aligned_face self k frames n acc
    = (acc ++ read_frames Image extract_aligned_face self k frames n [])%list.
Proof.
  induction frames as [|img rest IH]; intros n acc.
  - simpl. rewrite app_nil_r. reflexivity.
  - cbn [read_frames].
    destruct (n mod k =? 0)%nat; [|apply IH].
    destruct (aligned Image extract_aligned_face self img); [|apply IH].
    rewrite (IH (S n) (acc ++ _)%list), (IH (S n) ([] ++ _)%list).
    rewrite <- app_assoc. reflexivity.
Qed.

(** The frames that are kept: those at a multiple of the interval in which
    a face is found. *)
Lemma read_frames_in (self : Server) (k : nat) (frames : list Image) :
  forall n fd,
    In fd (read_frames Image extract_aligned_face self k frames n []) <->
    (n <= frame_number fd)%nat /\
    nth_error frames (frame_number fd - n) = Some (frame fd) /\
    (frame_number fd mod k = 0)%nat /\
    has_face extract_aligned_face self fd = true.
Proof.
  induction frames as [|img rest IH]; intros n fd.
  - simpl. split; [intros [] | intros [_ [H _]]].
    destruct (frame_number fd - n)%nat; discriminate H.
  - cbn [read_frames].
    assert (Hrest : In fd (read_frames Image extract_aligned_face self k rest (S n) [])
                    <-> (S n <= frame_number fd)%nat /\
                        nth_error (img :: rest) (frame_number fd - n)
                        = Some (frame fd) /\
                        (frame_number fd mod k = 0)%nat /\
                        has_face extract_aligned_face self fd = true).
    { rewrite IH. split; intros [H1 [H2 H3]]; (split; [exact H1|]);
        (split; [|exact H3]).
      - replace (frame_number fd - n)%nat with (S (frame_number fd - S n)) by lia.
        exact H2.
      - replace (frame_number fd - n)%nat with (S (frame_number fd - S n)) in H2
          by lia.
        exact H2. }
    assert (Hhead : forall P : Prop,
               (P <-> (frame_number fd = n /\ frame fd = img /\
                       (n mod k = 0)%nat /\
                       aligned Image extract_aligned_face self img <> None)) ->
               (P \/ In fd (read_frames Image extract_aligned_face self k rest (S n) [])
                <-> (n <= frame_number fd)%nat /\
                    nth_error (img :: rest) (frame_number fd - n) = Some (frame fd) /\
                    (frame_number fd mod k = 0)%nat /\
                    has_face extract_aligned_face self fd = true)).
    { intros P HP. rewrite Hrest, HP. unfold has_face. split.
      - intros [[E1 [E2 [E3 E4]]] | [H1 [H2 [H3 H4]]]].
        + rewrite E1, E2, Nat.sub_diag. repeat split; auto.
          destruct (aligned Image extract_aligned_face self img);
            [reflexivity | congruence].
        + repeat split; auto. lia.
      - intros [H1 [H2 [H3 H4]]].
        destruct (Nat.eq_dec (frame_number fd) n) as [E | E].
        + left. rewrite E, Nat.sub_diag in H2. simpl in H2. injection H2 as E2.
          rewrite E in H3. repeat split; auto.
          intro Hn. rewrite E2 in Hn. rewrite Hn in H4. discriminate H4.
        + right. repeat split; auto. lia. }
    destruct (n mod k =? 0)%nat eqn:Emod.
    + apply Nat.eqb_eq in Emod.
      destruct (aligned Image extract_aligned_face self img) as [face|] eqn:Ha.
      * rewrite read_frames_acc. cbn [app In]. apply Hhead.
        split.
        -- intros <-. cbn. repeat split; auto. congruence.
        -- intros [E1 [E2 _]]. destruct fd as [f m]. cbn in *. subst. reflexivity.
      * rewrite Hrest. split.
        -- intros [H1 H2]. split; [lia | exact H2].
        -- intros [H1 [H2 [H3 H4]]].
           destruct (Nat.eq_dec (frame_number fd) n) as [E | E].
           ++ exfalso. rewrite E, Nat.sub_diag in H2. simpl in H2.
              injection H2 as E2. unfold has_face in H4.
              rewrite <- E2, Ha in H4. discriminate H4.
           ++ repeat split; auto. lia.
    + apply Nat.eqb_neq in Emod. rewrite Hrest. split.
      * intros [H1 H2]. split; [lia | exact H2].
      * intros [H1 [H2 [H3 H4]]].
        destruct (Nat.eq_dec (frame_number fd) n) as [E | E].
        -- exfalso. rewrite E in H3. contradiction.
        -- repeat split; auto. lia.
Qed.

Lemma read_frames_sorted (self : Server) (k : nat) (frames : list Image) :
  forall n,
    StronglySorted (fun a b => (frame_number a < frame_number b)%nat)
                   (read_frames Image extract_aligned_face self k frames n []).
Proof.
  induction frames as [|img rest IH]; intro n; [constructor|].
  cbn [read_frames].
  destruct (n mod k =? 0)%nat; [|apply IH].
  destruct (aligned Image extract_aligned_face self img); [|apply IH].
  rewrite read_frames_acc. cbn [app]. constructor; [apply IH|].
  apply Forall_forall. intros fd Hfd.
  apply read_frames_in in Hfd. cbn. lia.
Qed.

Lemma frame_interval_positive (video_fps : Q) (fps : Z) (k : nat) :
  frame_interval_of video_fps fps = Ok k -> (1 <= k)%nat.
Proof.
  unfold frame_interval_of.
  destruct (Py.ltb 0 video_fps); [|intro H; inversion H; lia].
  destruct (fps =? 0)%Z; [discriminate|]. intro H. inversion H. lia.
Qed.

Lemma extract_frames_ok (self : Server) (cap : Video Image) (fps : Z)
    (frames_data : list (FrameData Image)) :
  extract_frames_from_video Image extract_aligned_face self cap fps
  = Ok frames_data ->
  exists k,
    frame_interval_of (video_fps cap) fps = Ok k /\
    isOpened cap = true /\
    frames_data
    = read_frames Image extract_aligned_face self k (video_frames cap) 0 [].
Proof.
  unfold extract_frames_from_video.
  destruct (isOpened cap); [|discriminate]. cbn [negb].
  destruct (frame_interval_of (video_fps cap) fps) as [k| |];
    cbn [bind]; try discriminate.
  intro H. inversion H. exists k. auto.
Qed.

(** Every extracted frame is scored by [process_video]. *)
Lemma all_faces_scored (self : Server) (frames_data : list (FrameData Image)) :
  (forall fd, In fd frames_data -> has_face extract_aligned_face self fd = true) ->
  List.length (scored_frames Image extract_aligned_face self frames_data)
  = List.length frames_data.
Proof.
  intro H. rewrite scored_frames_length. unfold count.
  induction frames_data as [|fd rest IH]; [reflexivity|].
  simpl. rewrite (H fd (or_introl eq_refl)). simpl. f_equal.
  apply IH. intros x Hx. apply H. right. exact Hx.
Qed.

End Extraction.

(** X12. [extract_frames_from_video] keeps exactly the frames whose index is
    a multiple of the frame interval and in which a face is found (when a
    face detector is loaded): each element carries the frame read at its
    [frame_number], and the frame numbers are strictly increasing.  The
    interval is at least 1. *)
Theorem extracted_frames_are_sampled_faces
    (Image : Type) (extract_aligned_face : Image -> option Image)
    (self : Server) (cap : Video Image) (fps : Z)
    (frames_data : list (FrameData Image)) :
  extract_frames_from_video Image extract_aligned_face self cap fps
  = Ok frames_data ->
  exists frame_interval,
    frame_interval_of (video_fps cap) fps = Ok frame_interval /\
    (1 <= frame_interval)%nat /\
    (forall fd,
        In fd frames_data <->
        nth_error (video_frames cap) (frame_number fd) = Some (frame fd) /\
        (frame_number fd mod frame_interval = 0)%nat /\
        has_face extract_aligned_face self fd = true) /\
    StronglySorted (fun a b => (frame_number a < frame_number b)%nat) frames_data.
Proof.
  intro H.
  destruct (extract_frames_ok Image extract_aligned_face self cap fps
              frames_data H) as [k [Hk [_ ->]]].
  exists k. split; [exact Hk|].
  split; [apply (frame_interval_positive _ _ _ Hk)|].
  split; [|apply read_frames_sorted].
  intro fd. rewrite read_frames_in, Nat.sub_0_r.
  split; [intros [_ H1]; exact H1 | intro H1; split; [lia | exact H1]].
Qed.

Lemma extracted_frames_are_sampled_faces_witness :
  exists frames_data,
    extract_frames_from_video (option Q) toy_extract single_server toy_video 1
    = Ok frames_data /\
    StronglySorted (fun a b => (frame_number a < frame_number b)%nat) frames_data /\
    List.length frames_data = 2%nat.
Proof.
  destruct (extracted_frames_are_sampled_faces
              (option Q) toy_extract single_server toy_video 1
              [toy_frame 0 (Some (80 # 100)); toy_frame 4 (Some (40 # 100))])
    as [k [_ [_ [_ Hs]]]].
  - reflexivity.
  - eexists. split; [reflexivity|]. split; [exact Hs | reflexivity].
Defined.

Section WholeVideo.

Variable Image : Type.
Variable extract_aligned_face : Image -> option Image.
Variable model_prob : string -> Image -> Q.

(** With at least one model loaded and at least one scored frame,
    [process_video] returns a verdict over all scored frames. *)
Lemma process_video_total (self : Server) (frames_data : list (FrameData Image)) :
  models self <> [] ->
  scored_frames Image extract_aligned_face self frames_data <> [] ->
  exists vr,
    process_video Image extract_aligned_face model_prob self frames_data = Ok vr /\
    total_frames_analyzed vr
    = List.length (scored_frames Image extract_aligned_face self frames_data).
Proof.
  intros Hmodels Hne.
  destruct (models self) as [|name [|name2 rest]] eqn:Hm; [congruence| |].
  - destruct (process_video_single Image extract_aligned_face model_prob
                self name frames_data Hm Hne) as [vr [Hrun [Ht _]]].
    exists vr. split; [exact Hrun|]. rewrite Ht.
    unfold adjusted_entries, scored_faces. rewrite !length_map. reflexivity.
  - assert (Hn : (1 < List.length (models self))%nat) by (rewrite Hm; simpl; lia).
    destruct (process_video_ensemble Image extract_aligned_face model_prob
                self frames_data Hn Hne) as [verdicts [vr [_ [Hrun [Ht _]]]]].
    exists vr. split; [exact Hrun | exact Ht].
Qed.

Lemma extracted_all_have_faces (self : Server) (cap : Video Image) (fps : Z)
    (frames_data : list (FrameData Image)) :
  extract_frames_from_video Image extract_aligned_face self cap fps
  = Ok frames_data ->
  forall fd, In fd frames_data -> has_face extract_aligned_face self fd = true.
Proof.
  intros H fd Hfd.
  destruct (extract_frames_ok Image extract_aligned_face self cap fps
              frames_data H) as [k [_ [_ ->]]].
  apply read_frames_in in Hfd. apply Hfd.
Qed.

(** The outcome of [process_video] on a video file. *)
Lemma process_video_file_cases (self : Server) (cap : Video Image) (fps : Z) :
  models self <> [] ->
  (process_video_file Image extract_aligned_face model_prob self cap fps
   = Error "Failed to open video file" /\ isOpened cap = false) \/
  (exists exc,
      process_video_file Image extract_aligned_face model_prob self cap fps
      = Raise exc) \/
  (process_video_file Image extract_aligned_face model_prob self cap fps
   = Error "No frames extracted from video" /\
   extract_frames_from_video Image extract_aligned_face self cap fps = Ok []) \/
  (exists frames_data vr,
      extract_frames_from_video Image extract_aligned_face self cap fps
      = Ok frames_data /\
      frames_data <> [] /\
      process_video_file Image extract_aligned_face model_prob self cap fps
      = Ok vr /\
      total_frames_analyzed vr = List.length frames_data).
Proof.
  intro Hmodels. unfold process_video_file.
  destruct (extract_frames_from_video Image extract_aligned_face self cap fps)
    as [frames_data|msg|exc] eqn:Hex.
  - cbn [bind]. destruct frames_data as [|fd rest].
    + right. right. left. split; reflexivity.
    + right. right. right.
      pose proof (all_faces_scored Image extract_aligned_face self (fd :: rest)
                    (extracted_all_have_faces self cap fps _ Hex)) as Hlen.
      destruct (process_video_total self (fd :: rest) Hmodels) as [vr [Hrun Ht]].
      { intro E. rewrite E in Hlen. discriminate Hlen. }
      exists (fd :: rest), vr. split; [reflexivity|]. split; [discriminate|].
      split; [exact Hrun|]. rewrite Ht. exact Hlen.
  - left. unfold extract_frames_from_video in Hex.
    destruct (isOpened cap).
    + cbn [negb] in Hex.
      destruct (frame_interval_of (video_fps cap) fps) eqn:Hk;
        cbn [bind] in Hex; try discriminate Hex.
      unfold frame_interval_of in Hk.
      destruct (Py.ltb 0 (video_fps cap)); [destruct (fps =? 0)%Z|];
        discriminate Hk.
    + cbn [negb] in Hex. inversion Hex. split; reflexivity.
  - right. left. exists exc. reflexivity.
Qed.

End WholeVideo.

(** X13. On a video file, [process_video] scores every frame that
    [extract_frames_from_video] kept: [total_frames_analyzed] is the number
    of extracted frames.  The second face check of the frame loop never
    skips a frame, so the error "No frames could be analyzed (no faces
    detected)" is never returned; the only errors are "Failed to open video
    file" and "No frames extracted from video". *)
Theorem process_video_file_scores_all
    (Image : Type) (extract_aligned_face : Image -> option Image)
    (model_prob : string -> Image -> Q) (self : Server)
    (cap : Video Image) (fps : Z) :
  models self <> [] ->
  (forall vr,
      process_video_file Image extract_aligned_face model_prob self cap fps = Ok vr ->
      exists frames_data,
        extract_frames_from_video Image extract_aligned_face self cap fps
        = Ok frames_data /\
        total_frames_analyzed vr = List.length frames_data) /\
  (forall msg,
      process_video_file Image extract_aligned_face model_prob self cap fps
      = Error msg ->
      (msg = "Failed to open video file" /\ isOpened cap = false) \/
      (msg = "No frames extracted from video" /\
       extract_frames_from_video Image extract_aligned_face self cap fps = Ok [])).
Proof.
  intro Hmodels.
  destruct (process_video_file_cases Image extract_aligned_face model_prob
              self cap fps Hmodels)
    as [[E Ho] | [[exc E] | [[E Hex] | [fds [vr [Hex [_ [E Ht]]]]]]]];
    rewrite E; split; intros x Hx; try discriminate Hx.
  - inversion Hx. left. split; [reflexivity | exact Ho].
  - inversion Hx. right. split; [reflexivity | exact Hex].
  - inversion Hx; subst. exists fds. split; [exact Hex | exact Ht].
Qed.

Lemma process_video_file_scores_all_witness :
  exists vr,
    process_video_file (option Q) toy_extract toy_prob single_server toy_video 1
    = Ok vr /\
    total_frames_analyzed vr = 2%nat.
Proof.
  destruct (process_video_file (option Q) toy_extract toy_prob single_server
                               toy_video 1) as [vr| |] eqn:Hrun;
    try (vm_compute in Hrun; discriminate Hrun).
  exists vr. split; [reflexivity|].
  destruct (proj1 (process_video_file_scores_all
                     (option Q) toy_extract toy_prob single_server toy_video 1
                     ltac:(discriminate)) vr Hrun) as [fds [Hex Ht]].
  rewrite Ht. vm_compute in Hex. injection Hex as <-. reflexivity.
Defined.

(** ** Folders *)

Lemma add_verdict_total (is_suspicious : bool) (verdict : string)
    (s : FolderSummary) :
  summary_total (add_verdict is_suspicious verdict s) = S (summary_total s) /\
  images_processed (add_verdict is_suspicious verdict s) = images_processed s /\
  images_failed (add_verdict is_suspicious verdict s) = images_failed s /\
  videos_processed (add_verdict is_suspicious verdict s) = videos_processed s /\
  videos_failed (add_verdict is_suspicious verdict s) = videos_failed s.
Proof.
  unfold summary_total, add_verdict. cbn.
  destruct is_suspicious; [|destruct (verdict =? "FAKE")%string];
    repeat split; lia.
Qed.

Section Folder.

Variable Image : Type.
Variable extract_aligned_face : Image -> option Image.
Variable model_prob : string -> Image -> Q.

(** A result of [process_image] always lets the folder loop read off a
    verdict. *)
Lemma process_image_ok_shape (self : Server) (img : option Image)
    (img_result : ImageResults) :
  models self <> [] ->
  process_image Image extract_aligned_face model_prob self img = Ok img_result ->
  (exists ens, ENSEMBLE img_result = Some ens) \/
  (exists name entry,
      ENSEMBLE img_result = None /\
      Py.first (models self) = Some name /\
      getitem (model_results img_result) name = Some entry).
Proof.
  intros Hmodels. unfold process_image.
  destruct img as [img|]; [|discriminate].
  destruct (aligned Image extract_aligned_face self img) as [face|]; [|discriminate].
  destruct (models self) as [|name rest] eqn:Hm; [congruence|].
  destruct (1 <? List.length (name :: rest))%nat.
  - destruct (_calculate_ensemble_verdict _) as [ens|]; cbn [or_raise bind];
      [|discriminate].
    intro H. inversion H. left. exists ens. reflexivity.
  - intro H. inversion H. right. exists name. eexists.
    split; [reflexivity|]. split; [reflexivity|].
    cbn [map model_results getitem]. rewrite String.eqb_refl. reflexivity.
Qed.

(** The invariant that one image adds to: one result per file, each file
    processed or failed, one verdict per processed file. *)
Lemma folder_image_step_counts (self : Server)
    (acc : list (FileResult ImageResults) * FolderSummary)
    (img_file : File (option Image)) :
  models self <> [] ->
  let acc' := folder_image_step Image extract_aligned_face model_prob self
                                acc img_file in
  List.length (fst acc') = S (List.length (fst acc)) /\
  (images_processed (snd acc') + images_failed (snd acc')
   = S (images_processed (snd acc) + images_failed (snd acc)))%nat /\
  (summary_total (snd acc') + images_processed (snd acc)
   = summary_total (snd acc) + images_processed (snd acc'))%nat /\
  videos_processed (snd acc') = videos_processed (snd acc) /\
  videos_failed (snd acc') = videos_failed (snd acc).
Proof.
  intros Hmodels. destruct acc as [rs s]. destruct img_file as [file img].
  unfold folder_image_step. cbn [fst snd].
  destruct (process_image Image extract_aligned_face model_prob self img)
    as [img_result|msg|exc] eqn:Hrun.
  - destruct (process_image_ok_shape self img img_result Hmodels Hrun)
      as [[ens E] | [name [entry [E [Hf Hg]]]]]; rewrite E.
    + cbn [fst snd]. rewrite length_app.
      destruct (add_verdict_total (get_flag (e_suspicious ens)) (e_prediction ens)
                                  (add_image_processed s))
        as [H1 [H2 [H3 [H4 H5]]]].
      rewrite H1, H2, H3, H4, H5. cbn. unfold summary_total. repeat split; lia.
    + rewrite Hf. cbn [or_raise bind]. rewrite Hg. cbn [or_raise bind fst snd].
      rewrite length_app.
      destruct (add_verdict_total false (prediction entry) (add_image_processed s))
        as [H1 [H2 [H3 [H4 H5]]]].
      rewrite H1, H2, H3, H4, H5. cbn. unfold summary_total. repeat split; lia.
  - cbn [fst snd]. rewrite length_app. cbn. unfold summary_total. repeat split; lia.
  - cbn [fst snd]. rewrite length_app. cbn. unfold summary_total. repeat split; lia.
Qed.

Lemma folder_video_step_counts (self : Server)
    (acc : list (FileResult VideoResult) * FolderSummary)
    (vid_file : File (Video Image)) :
  let acc' := folder_video_step Image extract_aligned_face model_prob self
                                acc vid_file in
  List.length (fst acc') = S (List.length (fst acc)) /\
  (videos_processed (snd acc') + videos_failed (snd acc')
   = S (videos_processed (snd acc) + videos_failed (snd acc)))%nat /\
  (summary_total (snd acc') + videos_processed (snd acc)
   = summary_total (snd acc) + videos_processed (snd acc'))%nat /\
  images_processed (snd acc') = images_processed (snd acc) /\
  images_failed (snd acc') = images_failed (snd acc).
Proof.
  destruct acc as [rs s]. destruct vid_file as [file cap].
  unfold folder_video_step. cbn [fst snd].
  destruct (process_video_file Image extract_aligned_face model_prob self cap 1)
    as [vr|msg|exc].
  - cbn [fst snd]. rewrite length_app.
    destruct (add_verdict_total (video_verdict vr =? "SUSPICIOUS")%string
                                (video_verdict vr) (add_video_processed s))
      as [H1 [H2 [H3 [H4 H5]]]].
    rewrite H1, H2, H3, H4, H5. cbn. unfold summary_total. repeat split; lia.
  - cbn [fst snd]. rewrite length_app. cbn. unfold summary_total. repeat split; lia.
  - cbn [fst snd]. rewrite length_app. cbn. unfold summary_total. repeat split; lia.
Qed.

Lemma folder_images_counts (self : Server) (image_files : list (File (option Image))) :
  models self <> [] ->
  forall acc,
    let acc' := fold_left (folder_image_step Image extract_aligned_face
                                             model_prob self)
                          image_files acc in
    List.length (fst acc') = (List.length (fst acc) + List.length image_files)%nat /\
    (images_processed (snd acc') + images_failed (snd acc')
     = images_processed (snd acc) + images_failed (snd acc)
       + List.length image_files)%nat /\
    (summary_total (snd acc') + images_processed (snd acc)
     = summary_total (snd acc) + images_processed (snd acc'))%nat /\
    videos_processed (snd acc') = videos_processed (snd acc) /\
    videos_failed (snd acc') = videos_failed (snd acc).
Proof.
  intro Hmodels. induction image_files as [|f rest IH]; intro acc.
  - cbn. unfold summary_total. repeat split; lia.
  - cbn [fold_left List.length].
    destruct (folder_image_step_counts self acc f Hmodels)
      as [H1 [H2 [H3 [H4 H5]]]].
    destruct (IH (folder_image_step Image extract_aligned_face model_prob
                                    self acc f))
      as [I1 [I2 [I3 [I4 I5]]]].
    cbv zeta in *. repeat split; lia.
Qed.

Lemma folder_videos_counts (self : Server) (video_files : list (File (Video Image))) :
  forall acc,
    let acc' := fold_left (folder_video_step Image extract_aligned_face
                                             model_prob self)
                          video_files acc in
    List.length (fst acc') = (List.length (fst acc) + List.length video_files)%nat /\
    (videos_processed (snd acc') + videos_failed (snd acc')
     = videos_processed (snd acc) + videos_failed (snd acc)
       + List.length video_files)%nat /\
    (summary_total (snd acc') + videos_processed (snd acc)
     = summary_total (snd acc) + videos_processed (snd acc'))%nat /\
    images_processed (snd acc') = images_processed (snd acc) /\
    images_failed (snd acc') = images_failed (snd acc).
Proof.
  induction video_files as [|f rest IH]; intro acc.
  - cbn. unfold summary_total. repeat split; lia.
  - cbn [fold_left List.length].
    destruct (folder_video_step_counts self acc f) as [H1 [H2 [H3 [H4 H5]]]].
    destruct (IH (folder_video_step Image extract_aligned_face model_prob
                                    self acc f))
      as [I1 [I2 [I3 [I4 I5]]]].
    cbv zeta in *. repeat split; lia.
Qed.

End Folder.

(** X14. [process_folder] accounts for every file exactly once: with at
    least one model loaded, the result has one entry per image file and per
    video file, every image is counted either as processed or as failed, and
    so is every video (an error or an exception in one file does not stop the
    others), and the FAKE, REAL and SUSPICIOUS counts add up to the number of
    processed files.  A result is returned exactly when the path exists, is a
    directory and holds at least one supported file. *)
Theorem process_folder_accounts_for_every_file
    (Image : Type) (extract_aligned_face : Image -> option Image)
    (model_prob : string -> Image -> Q) (self : Server)
    (exists_ is_dir : bool)
    (image_files : list (File (option Image)))
    (video_files : list (File (Video Image))) :
  models self <> [] ->
  ((exists results,
       process_folder Image extract_aligned_face model_prob self exists_ is_dir
                      image_files video_files = Ok results)
   <-> exists_ = true /\ is_dir = true /\
       (image_files <> [] \/ video_files <> [])) /\
  (forall results,
      process_folder Image extract_aligned_face model_prob self exists_ is_dir
                     image_files video_files = Ok results ->
      total_files results
      = (List.length image_files + List.length video_files)%nat /\
      List.length (image_results results) = List.length image_files /\
      List.length (video_results results) = List.length video_files /\
      (images_processed (summary results) + images_failed (summary results)
       = List.length image_files)%nat /\
      (videos_processed (summary results) + videos_failed (summary results)
       = List.length video_files)%nat /\
      (fs_fake_count (summary results) + fs_real_count (summary results)
       + fs_suspicious_count (summary results)
       = images_processed (summary results) + videos_processed (summary results))%nat).
Proof.
  intro Hmodels. unfold process_folder.
  destruct exists_; cbn [negb];
    [|split; [split; [intros [r H]; discriminate H | intros [H _]; discriminate H]
             | intros r H; discriminate H]].
  destruct is_dir; cbn [negb];
    [|split; [split; [intros [r H]; discriminate H
                     | intros [_ [H _]]; discriminate H]
             | intros r H; discriminate H]].
  destruct (List.length image_files + List.length video_files =? 0)%nat eqn:E0.
  - apply Nat.eqb_eq in E0.
    split; [split; [intros [r H]; discriminate H|] | intros r H; discriminate H].
    intros [_ [_ [H | H]]]; exfalso; apply H;
      apply length_zero_iff_nil; lia.
  - apply Nat.eqb_neq in E0.
    pose proof (folder_images_counts Image extract_aligned_face model_prob self
                  image_files Hmodels ([], empty_summary)) as Hi.
    destruct (fold_left (folder_image_step Image extract_aligned_face model_prob self)
                        image_files ([], empty_summary)) as [irs s1].
    pose proof (folder_videos_counts Image extract_aligned_face model_prob self
                  video_files ([], s1)) as Hv.
    destruct (fold_left (folder_video_step Image extract_aligned_face model_prob self)
                        video_files ([], s1)) as [vrs s2].
    cbv zeta in Hi, Hv. cbn [fst snd List.length] in Hi, Hv.
    destruct Hi as [I1 [I2 [I3 [I4 I5]]]].
    destruct Hv as [V1 [V2 [V3 [V4 V5]]]].
    unfold summary_total in *. cbn in I2, I3, I4, I5.
    split.
    + split; [|intros _; eexists; reflexivity].
      intros _. split; [reflexivity|]. split; [reflexivity|].
      destruct image_files; [|left; discriminate].
      destruct video_files; [|right; discriminate].
      exfalso. apply E0. reflexivity.
    + intros r H. inversion H; subst; clear H. cbn.
      repeat split; lia.
Qed.

Lemma process_folder_accounts_for_every_file_witness :
  exists results,
    process_folder (option Q) toy_extract toy_prob single_server true true
                   toy_images toy_videos = Ok results /\
    (images_processed (summary results) + images_failed (summary results)
     = 3)%nat /\
    (videos_processed (summary results) + videos_failed (summary results)
     = 2)%nat.
Proof.
  destruct (process_folder (option Q) toy_extract toy_prob single_server true true
                           toy_images toy_videos) as [results| |] eqn:Hrun;
    try (vm_compute in Hrun; discriminate Hrun).
  exists results. split; [reflexivity|].
  destruct (proj2 (process_folder_accounts_for_every_file
                     (option Q) toy_extract toy_prob single_server true true
                     toy_images toy_videos ltac:(discriminate)) results Hrun)
    as [_ [_ [_ [Hi [Hv _]]]]].
  split; [exact Hi | exact Hv].
Defined.

(** ** More on the streaming handler *)



Section HandlerExtras.

Variable Image : Type.
Variable extract_aligned_face : Image -> option Image.
Variable model_prob : string -> Image -> Q.
Variable b64_to_bgr_img : string -> option Image.
Variable AUTH_TOKEN : string.

(** What [infer_using_server] returns: the no-face error after one call of
    the aligner, or the entries of the models for the served face. *)
Lemma infer_using_server_cases (self : Server) (img : Image) :
  models self <> [] ->
  (served_face extract_aligned_face self img = None /\
   infer_using_server Image extract_aligned_face model_prob self img
   = ([Align img None], Error "No face detected")) \/
  (exists face events,
      served_face extract_aligned_face self img = Some face /\
      (forall e, In e events -> is_work e = true) /\
      (forall name f, In (Infer name f) events -> f = face) /\
      ((exists ens,
           (1 < List.length (models self))%nat /\
           frame_verdict Image model_prob self face = Some ens /\
           infer_using_server Image extract_aligned_face model_prob self img
           = (events,
              Ok {| model_results := raw_results Image model_prob self face;
                    ENSEMBLE := Some ens |})) \/
       (exists name,
           models self = [name] /\
           infer_using_server Image extract_aligned_face model_prob self img
           = (events,
              Ok {| model_results :=
                      [(name, adjusted_entry Image model_prob self name face)];
                    ENSEMBLE := None |})))).
Proof.
  intro Hmodels.
  assert (Hrun : forall face,
             exists calls,
               (forall e, In e calls -> exists n, e = Infer n face) /\
               ((exists ens,
                    (1 < List.length (models self))%nat /\
                    frame_verdict Image model_prob self face = Some ens /\
                    run_models Image model_prob self face
                    = (calls,
                       Ok {| model_results := raw_results Image model_prob self face;
                             ENSEMBLE := Some ens |})) \/
                (exists name,
                    models self = [name] /\
                    run_models Image model_prob self face
                    = (calls,
                       Ok {| model_results :=
                               [(name, adjusted_entry Image model_prob self name face)];
                             ENSEMBLE := None |})))).
  { intro face.
    exists (fst (run_models Image model_prob self face)).
    split; [intros e He; apply (run_models_events Image model_prob self face e He)|].
    destruct (models self) as [|name [|name2 rest]] eqn:Hm; [congruence| |].
    - right. exists name. split; [reflexivity|].
      rewrite (run_models_single Image model_prob self face name Hm). reflexivity.
    - left.
      assert (Hn : (1 < List.length (models self))%nat) by (rewrite Hm; simpl; lia).
      destruct (frame_verdict_total Image model_prob self face ltac:(rewrite Hm; discriminate))
        as [ens Hv].
      exists ens. rewrite <- Hm. split; [exact Hn|]. split; [exact Hv|].
      rewrite (run_models_ensemble Image model_prob self face ens Hn Hv).
      reflexivity. }
  unfold served_face, infer_using_server.
  destruct (face_detector self && landmark_predictor self).
  - destruct (extract_aligned_face img) as [face|].
    + right. destruct (Hrun face) as [calls [Hcalls Hres]].
      exists face, (Align img (Some face) :: calls). split; [reflexivity|].
      split.
      { intros e [<- | He]; [reflexivity|].
        destruct (Hcalls e He) as [n ->]. reflexivity. }
      split.
      { intros name f [H | He]; [discriminate H|].
        destruct (Hcalls _ He) as [n Hn]. inversion Hn. reflexivity. }
      destruct Hres as [[ens [Hn [Hv E]]] | [name [Hm E]]]; rewrite E.
      * left. exists ens. auto.
      * right. exists name. auto.
    + left. split; reflexivity.
  - right. destruct (Hrun img) as [calls [Hcalls Hres]].
    exists img, calls. split; [reflexivity|].
    split.
    { intros e He. destruct (Hcalls e He) as [n ->]. reflexivity. }
    split.
    { intros name f He. destruct (Hcalls _ He) as [n Hn]. inversion Hn. reflexivity. }
    destruct Hres as [[ens [Hn [Hv E]]] | [name [Hm E]]]; rewrite E.
    + left. exists ens. auto.
    + right. exists name. auto.
Qed.






(** A closing message is not answered and ends the loop. *)
Lemma handle_message_closes (self : Server) (raw_msg : RawMessage) :
  closes AUTH_TOKEN raw_msg = true ->
  handle_message Image extract_aligned_face model_prob b64_to_bgr_img
                 AUTH_TOKEN self raw_msg
  = ([], false).
Proof.
  destruct raw_msg as [| |msg]; cbn [closes handle_message]; intro Hc.
  - discriminate Hc.
  - reflexivity.
  - destruct (negb (AUTH_TOKEN =? "")%string && token_differs AUTH_TOKEN msg);
      [discriminate Hc|].
    cbn [negb andb] in Hc.
    destruct (is_frame msg); [|discriminate Hc].
    destruct (m_id msg); try discriminate Hc. reflexivity.
Qed.

Lemma handler_in (self : Server) (raw_msgs : list RawMessage) (e : Event Image) :
  In e (handler Image extract_aligned_face model_prob b64_to_bgr_img
                AUTH_TOKEN self raw_msgs) ->
  exists raw_msg,
    In raw_msg raw_msgs /\
    In e (fst (handle_message Image extract_aligned_face model_prob
                              b64_to_bgr_img AUTH_TOKEN self raw_msg)).
Proof.
  induction raw_msgs as [|m rest IH]; cbn [handler]; [intros []|].
  destruct (handle_message Image extract_aligned_face model_prob b64_to_bgr_img
                           AUTH_TOKEN self m) as [events open] eqn:E.
  assert (Hhere : In e events ->
                  exists raw_msg,
                    In raw_msg (m :: rest) /\
                    In e (fst (handle_message Image extract_aligned_face
                                 model_prob b64_to_bgr_img AUTH_TOKEN self raw_msg))).
  { intro H. exists m. split; [left; reflexivity | rewrite E; exact H]. }
  destruct open; [|exact Hhere].
  intro H. apply in_app_or in H. destruct H as [H | H]; [exact (Hhere H)|].
  destruct (IH H) as [raw [Hin He]]. exists raw. split; [right|]; assumption.
Qed.

End HandlerExtras.

Lemma sends_in {Image : Type} (events : list (Event Image)) (resp : Response) :
  In resp (sends events) <-> In (Send resp) events.
Proof.
  induction events as [|e events IH]; [tauto|].
  destruct e; cbn [sends In]; rewrite IH; split.
  - intros [-> | H]; auto.
  - intros [H | H]; [inversion H|]; auto.
  - auto.
  - intros [H | H]; [discriminate H | exact H].
  - auto.
  - intros [H | H]; [discriminate H | exact H].
Qed.

Lemma toy_unit_prob_bounds (name : string) (face : option Q) :
  0 <= toy_unit_prob name face /\ toy_unit_prob name face <= 1.
Proof.
  destruct face as [p|]; cbn [toy_unit_prob]; [|split; lra].
  destruct (Q.max_spec 0 (Qmin p 1)) as [[H1 H2] | [H1 H2]];
    destruct (Q.min_spec p 1) as [[H3 H4] | [H3 H4]];
    rewrite H2; rewrite ?H4 in *; split; lra.
Qed.

Section Protocol.

Variable Image : Type.
Variable extract_aligned_face : Image -> option Image.
Variable model_prob : string -> Image -> Q.
Variable b64_to_bgr_img : string -> option Image.
Variable AUTH_TOKEN : string.


(** X16. A message that makes the handler raise (JSON that is not an object,
    or an accepted frame message whose id cannot be sliced) is not answered
    and ends the handler: the trace of the connection is the trace of the
    messages before it, whatever arrives afterwards. *)
Theorem closing_message_ends_connection
    (self : Server) (before after : list RawMessage) (raw_msg : RawMessage) :
  closes AUTH_TOKEN raw_msg = true ->
  handler Image extract_aligned_face model_prob b64_to_bgr_img AUTH_TOKEN self
          (before ++ raw_msg :: after)%list
  = handler Image extract_aligned_face model_prob b64_to_bgr_img AUTH_TOKEN self
            before.
Proof.
  intro Hc. induction before as [|m before IH]; cbn [app handler].
  - rewrite (handle_message_closes Image extract_aligned_face model_prob
               b64_to_bgr_img AUTH_TOKEN self raw_msg Hc).
    reflexivity.
  - destruct (handle_message Image extract_aligned_face model_prob b64_to_bgr_img
                             AUTH_TOKEN self m) as [events open].
    destruct open; [rewrite IH|]; reflexivity.
Qed.

(** X17. With an authentication token configured, a connection on which no
    message carries that token gets only the errors "invalid json" and
    "invalid token": no frame is decoded, aligned or classified. *)
Theorem unauthenticated_messages_do_no_work
    (self : Server) (raw_msgs : list RawMessage) (e : Event Image) :
  AUTH_TOKEN <> "" ->
  (forall msg, In (Json msg) raw_msgs -> m_token msg <> Some AUTH_TOKEN) ->
  In e (handler Image extract_aligned_face model_prob b64_to_bgr_img AUTH_TOKEN
                self raw_msgs) ->
  e = Send (error_response "invalid json") \/
  e = Send (error_response "invalid token").
Proof.
  intros Hauth Htok He.
  destruct (handler_in Image extract_aligned_face model_prob b64_to_bgr_img
              AUTH_TOKEN self raw_msgs e He) as [raw [Hin Hev]].
  destruct raw as [| |msg]; cbn [handle_message fst] in Hev.
  - destruct Hev as [<- | []]. left. reflexivity.
  - destruct Hev.
  - assert (Ea : (AUTH_TOKEN =? "")%string = false)
      by (apply String.eqb_neq; exact Hauth).
    assert (Et : token_differs AUTH_TOKEN msg = true).
    { unfold token_differs. specialize (Htok msg Hin).
      destruct (m_token msg) as [token|]; [|reflexivity].
      destruct (token =? AUTH_TOKEN)%string eqn:E; [|reflexivity].
      apply String.eqb_eq in E. subst token. congruence. }
    rewrite Ea, Et in Hev. cbn [negb andb fst] in Hev.
    destruct Hev as [<- | []]. right. reflexivity.
Qed.

End Protocol.


Lemma closing_message_ends_connection_witness :
  handler (option Q) toy_extract toy_prob toy_decode "" ensemble_server
          [InvalidJson; Json (numbered_frame "face");
           Json (frame_message "frame-2" "face")]
  = [Send (error_response "invalid json")].
Proof.
  exact (closing_message_ends_connection
           (option Q) toy_extract toy_prob toy_decode "" ensemble_server
           [InvalidJson] [Json (frame_message "frame-2" "face")]
           (Json (numbered_frame "face")) eq_refl).
Defined.

Lemma unauthenticated_messages_do_no_work_witness :
  Forall (fun e => e = Send (error_response "invalid json") \/
                   e = Send (error_response "invalid token"))
         (handler (option Q) toy_extract toy_prob toy_decode "secret"
                  ensemble_server
                  [Json (frame_message "frame-1" "face"); InvalidJson;
                   Json (numbered_frame "face")]).
Proof.
  apply Forall_forall. intro e.
  apply (unauthenticated_messages_do_no_work
           (option Q) toy_extract toy_prob toy_decode "secret" ensemble_server).
  - discriminate.
  - intros msg [H | [H | [H | []]]]; inversion H; subst; discriminate.
Defined.

Lemma adjusted_le_one (self : Server) (p : Q) :
  0 <= p -> p <= 1 -> snd (fst (adjusted self p)) <= 1.
Proof.
  intros H0 H1. unfold adjusted.
  destruct (pred_confidence_bounds p) as [Hh Ho]. specialize (Ho H0 H1).
  destruct (apply_threshold_cases self p (pred_label p) (pred_confidence p))
    as [[_ [_ E]] | [[_ E] | [_ [_ E]]]]; rewrite E; cbn [fst snd];
    try apply Q.le_min_r.
  exact Ho.
Qed.

Section Responses.

Variable Image : Type.
Variable extract_aligned_face : Image -> option Image.
Variable model_prob : string -> Image -> Q.
Variable b64_to_bgr_img : string -> option Image.
Variable AUTH_TOKEN : string.

Lemma final_verdict_answers (self : Server) (msg : Message) (face : Image)
    (results : ImageResults) :
  ((exists ens,
       (1 < List.length (models self))%nat /\
       frame_verdict Image model_prob self face = Some ens /\
       results = {| model_results := raw_results Image model_prob self face;
                    ENSEMBLE := Some ens |}) \/
   (exists name,
       models self = [name] /\
       results = {| model_results :=
                      [(name, adjusted_entry Image model_prob self name face)];
                    ENSEMBLE := None |})) ->
  answers_face model_prob self face
    {| r_type := "result"; r_id := m_id msg; r_ts := m_ts msg;
       r_prediction := fst (final_verdict self results);
       r_confidence := snd (final_verdict self results);
       r_error := None; r_models := Some results |}.
Proof.
  intros [[ens [Hn [Hv ->]]] | [name [Hm ->]]].
  - left. exists ens. cbn. auto.
  - right. exists name. unfold final_verdict.
    cbn [ENSEMBLE model_results]. rewrite Hm.
    cbn [List.length Nat.eqb Py.first hd_error getitem].
    rewrite String.eqb_refl. cbn. auto.
Qed.

(** The responses to a message: a plain error, the no-face result, or the
    verdict on the face that was served. *)
Lemma handle_message_response (self : Server) (raw_msg : RawMessage)
    (resp : Response) :
  models self <> [] ->
  In (Send resp)
     (fst (handle_message Image extract_aligned_face model_prob b64_to_bgr_img
                          AUTH_TOKEN self raw_msg)) ->
  (exists error, resp = error_response error) \/
  (exists msg img,
      raw_msg = Json msg /\
      b64_to_bgr_img (payload msg) = Some img /\
      served_face extract_aligned_face self img = None /\
      resp = error_result msg "No face detected") \/
  (exists msg img face,
      raw_msg = Json msg /\
      b64_to_bgr_img (payload msg) = Some img /\
      served_face extract_aligned_face self img = Some face /\
      r_type resp = "result" /\ r_id resp = m_id msg /\ r_ts resp = m_ts msg /\
      r_error resp = None /\
      answers_face model_prob self face resp).
Proof.
  intros Hmodels.
  assert (Hone : forall error : string,
             In (Send resp) [Send (Image:=Image) (error_response error)] ->
             exists error, resp = error_response error).
  { intros error [H | []]. inversion H. exists error. reflexivity. }
  destruct raw_msg as [| |msg]; cbn [handle_message fst].
  - intro H. left. exact (Hone _ H).
  - intros [].
  - destruct (negb (AUTH_TOKEN =? "")%string && token_differs AUTH_TOKEN msg).
    { intro H. left. exact (Hone _ H). }
    destruct (is_frame msg).
    2:{ intro H. left. exact (Hone _ H). }
    assert (Hgo :
      In (Send resp)
         (fst (if no_frame msg
               then ([Send (error_response "no frame provided")], true)
               else
                 match b64_to_bgr_img (match m_frameB64 msg with
                                       | Some frame_b64 => frame_b64
                                       | None => ""
                                       end) with
                 | None => ([Send (error_response "failed to decode frame")], true)
                 | Some img_bgr =>
                     let '(events, results) :=
                       infer_using_server Image extract_aligned_face model_prob
                                          self img_bgr in
                     match results with
                     | Error error_msg =>
                         ((events ++ [Send (error_result msg error_msg)])%list, true)
                     | Raise _ => (events, false)
                     | Ok results =>
                         let '(final_prediction, final_confidence) :=
                           final_verdict self results in
                         let resp :=
                           {| r_type := "result"; r_id := m_id msg;
                              r_ts := m_ts msg;
                              r_prediction := final_prediction;
                              r_confidence := final_confidence;
                              r_error := None;
                              r_models := Some results |} in
                         ((events ++ [Send resp])%list, true)
                     end
                 end)) ->
      (exists error, resp = error_response error) \/
      (exists msg0 img,
          Json msg = Json msg0 /\
          b64_to_bgr_img (payload msg0) = Some img /\
          served_face extract_aligned_face self img = None /\
          resp = error_result msg0 "No face detected") \/
      (exists msg0 img face,
          Json msg = Json msg0 /\
          b64_to_bgr_img (payload msg0) = Some img /\
          served_face extract_aligned_face self img = Some face /\
          r_type resp = "result" /\ r_id resp = m_id msg0 /\
          r_ts resp = m_ts msg0 /\ r_error resp = None /\
          answers_face model_prob self face resp)).
    { destruct (no_frame msg).
      { intro H. left. exact (Hone _ H). }
      change (match m_frameB64 msg with
              | Some frame_b64 => frame_b64
              | None => ""
              end) with (payload msg).
      destruct (b64_to_bgr_img (payload msg)) as [img|] eqn:Ed.
      2:{ intro H. left. exact (Hone _ H). }
      assert (Htail : forall (events : list (Event Image)) (r : Response),
                 (forall e, In e events -> is_work e = true) ->
                 In (Send resp) (events ++ [Send r])%list -> resp = r).
      { intros events r Hw H. apply in_app_or in H. destruct H as [H | [H | []]].
        - apply Hw in H. discriminate H.
        - inversion H. reflexivity. }
      destruct (infer_using_server_cases Image extract_aligned_face model_prob
                  self img Hmodels)
        as [[Hs E] | [face [events [Hs [Hw [_ Hres]]]]]].
      - rewrite E. cbn [fst]. intro H.
        right. left. exists msg, img.
        split; [reflexivity|]. split; [exact Ed|]. split; [exact Hs|].
        apply (Htail [Align img None]); [|exact H].
        intros e [<- | []]. reflexivity.
      - assert (Hans := final_verdict_answers self msg face).
        destruct Hres as [[ens [Hn [Hv E]]] | [name [Hm E]]]; rewrite E;
          match goal with
          | |- context [final_verdict self ?r] =>
              specialize (Hans r); destruct (final_verdict self r) as [fp fc]
          end;
          cbn [fst snd] in *; intro H;
          apply (Htail events _ Hw) in H; subst resp;
          right; right; exists msg, img, face;
          (split; [reflexivity|]); (split; [exact Ed|]);
          (split; [exact Hs|]); cbn [r_type r_id r_ts r_error];
          repeat (split; [reflexivity|]); apply Hans.
        + left. exists ens. auto.
        + right. exists name. auto. }
    destruct (m_id msg); [exact Hgo | exact Hgo | intros []].
Qed.

Lemma answers_face_binary (self : Server) (face : Image) (resp : Response) :
  answers_face model_prob self face resp ->
  r_prediction resp = Some FAKE \/ r_prediction resp = Some REAL.
Proof.
  intros [[ens [_ [Hv [_ [Hp _]]]]] | [name [_ [_ [Hp _]]]]]; rewrite Hp.
  - unfold frame_verdict in Hv.
    destruct (ensemble_verdict_shape _ _ Hv) as [u [-> [_ Hb]]].
    destruct (add_suspicious_flag_spec u) as [_ [-> _]].
    destruct Hb as [-> | ->]; auto.
  - destruct (adjusted_entry_binary Image model_prob self name face) as [-> | ->];
      auto.
Qed.

Lemma answers_face_confidence (self : Server) (face : Image) (resp : Response) :
  (forall name, 0 <= model_prob name face /\ model_prob name face <= 1) ->
  answers_face model_prob self face resp ->
  exists c, r_confidence resp = Some c /\ c <= 1.
Proof.
  intros Hp [[ens [_ [Hv [_ [_ Hc]]]]] | [name [_ [_ [_ Hc]]]]]; rewrite Hc;
    eexists; (split; [reflexivity|]).
  - apply (frame_verdict_bounds Image model_prob self face ens Hp Hv).
  - unfold adjusted_entry. cbn [confidence].
    destruct (Hp name). apply adjusted_le_one; assumption.
Qed.

(** X18. With at least one model loaded, every response of the handler is
    of one of three kinds: an error (type "error", no prediction, no
    models); the no-face result (type "result", prediction NO_FACE,
    confidence 0); or a verdict (type "result", no error, prediction FAKE or
    REAL) whose prediction and confidence are those of the ENSEMBLE entry
    when several models are loaded and those of the single model's adjusted
    entry otherwise.  The placeholder prediction of the last branch of the
    handler is never sent. *)
Theorem responses_follow_protocol
    (self : Server) (raw_msgs : list RawMessage) (resp : Response) :
  models self <> [] ->
  In resp (sends (handler Image extract_aligned_face model_prob b64_to_bgr_img
                          AUTH_TOKEN self raw_msgs)) ->
  (r_type resp = "error" /\ r_prediction resp = None /\
   r_confidence resp = None /\ r_models resp = None /\ r_error resp <> None) \/
  (r_type resp = "result" /\ r_prediction resp = Some "NO_FACE" /\
   r_confidence resp = Some 0 /\ r_models resp = None) \/
  (r_type resp = "result" /\ r_error resp = None /\
   (r_prediction resp = Some FAKE \/ r_prediction resp = Some REAL) /\
   exists face, answers_face model_prob self face resp).
Proof.
  intros Hmodels Hin. apply sends_in in Hin.
  destruct (handler_in Image extract_aligned_face model_prob b64_to_bgr_img
              AUTH_TOKEN self raw_msgs _ Hin) as [raw [_ Hev]].
  destruct (handle_message_response self raw resp Hmodels Hev)
    as [[error ->] | [[msg [img [_ [_ [_ ->]]]]]
                     | [msg [img [face [_ [_ [_ [Ht [_ [_ [He Ha]]]]]]]]]]]].
  - left. cbn. repeat split; try reflexivity. discriminate.
  - right. left. cbn. repeat split; reflexivity.
  - right. right. split; [exact Ht|]. split; [exact He|].
    split; [exact (answers_face_binary self face resp Ha)|].
    exists face. exact Ha.
Qed.

End Responses.

(** X19. The callers of the streaming endpoint pass its answers through
    [apply_confidence_transformations] before they aggregate them.  When the
    classifiers return probabilities in [[0,1]] and at least one model is
    loaded, this is the identity on every response of the handler that
    carries a prediction: the confidence is at most 1, so it is never
    divided by 100, and the no-face result already has confidence 0. *)
Theorem transformations_pass_through
    (Image : Type) (extract_aligned_face : Image -> option Image)
    (model_prob : string -> Image -> Q)
    (b64_to_bgr_img : string -> option Image) (AUTH_TOKEN : string)
    (self : Server) (raw_msgs : list RawMessage) (resp : Response)
    (prediction : string) :
  models self <> [] ->
  (forall name face, 0 <= model_prob name face /\ model_prob name face <= 1) ->
  In resp (sends (handler Image extract_aligned_face model_prob b64_to_bgr_img
                          AUTH_TOKEN self raw_msgs)) ->
  r_prediction resp = Some prediction ->
  exists confidence,
    r_confidence resp = Some confidence /\
    confidence <= 1 /\
    apply_confidence_transformations prediction confidence
    = (prediction, confidence).
Proof.
  intros Hmodels Hp Hin Hpred. apply sends_in in Hin.
  destruct (handler_in Image extract_aligned_face model_prob b64_to_bgr_img
              AUTH_TOKEN self raw_msgs _ Hin) as [raw [_ Hev]].
  destruct (handle_message_response Image extract_aligned_face model_prob
              b64_to_bgr_img AUTH_TOKEN self raw resp Hmodels Hev)
    as [[error ->] | [[msg [img [_ [_ [_ ->]]]]]
                     | [msg [img [face [_ [_ [_ [_ [_ [_ [_ Ha]]]]]]]]]]]].
  - discriminate Hpred.
  - cbn in Hpred. inversion Hpred. subst prediction.
    exists 0. split; [reflexivity|]. split; [lra | reflexivity].
  - destruct (answers_face_confidence Image model_prob self face resp
                (fun name => Hp name face) Ha) as [c [Hc Hle]].
    exists c. split; [exact Hc|]. split; [exact Hle|].
    assert (Hl : Py.ltb 1 c = false) by (apply ltb_ge; exact Hle).
    unfold apply_confidence_transformations. rewrite Hl.
    destruct (answers_face_binary Image model_prob self face resp Ha) as [E | E];
      rewrite E in Hpred; inversion Hpred; reflexivity.
Qed.

Lemma responses_follow_protocol_witness :
  let resp :=
    {| r_type := "result"; r_id := Str "frame-2"; r_ts := Some 3;
       r_prediction := Some FAKE; r_confidence := Some (90 # 100);
       r_error := None;
       r_models :=
         Some {| model_results :=
                   raw_results (option Q) toy_prob ensemble_server
                               (Some (90 # 100));
                 ENSEMBLE :=
                   frame_verdict (option Q) toy_prob ensemble_server
                                 (Some (90 # 100)) |} |} in
  In resp (sends (handler (option Q) toy_extract toy_prob toy_decode ""
                          ensemble_server
                          [InvalidJson; Json (frame_message "frame-2" "face")])) /\
  exists face, answers_face toy_prob ensemble_server face resp.
Proof.
  intro resp.
  assert (Hin : In resp
                   (sends (handler (option Q) toy_extract toy_prob toy_decode ""
                                   ensemble_server
                                   [InvalidJson;
                                    Json (frame_message "frame-2" "face")]))).
  { vm_compute. right. left. reflexivity. }
  split; [exact Hin|].
  destruct (responses_follow_protocol
              (option Q) toy_extract toy_prob toy_decode "" ensemble_server
              [InvalidJson; Json (frame_message "frame-2" "face")] resp)
    as [[H _] | [[_ [H _]] | [_ [_ [_ H]]]]].
  - discriminate.
  - exact Hin.
  - discriminate H.
  - discriminate H.
  - exact H.
Defined.

Lemma transformations_pass_through_witness :
  Forall (fun resp =>
            forall prediction,
              r_prediction resp = Some prediction ->
              exists confidence,
                r_confidence resp = Some confidence /\
                confidence <= 1 /\
                apply_confidence_transformations prediction confidence
                = (prediction, confidence))
         (sends (handler (option Q) toy_extract toy_unit_prob toy_decode ""
                         single_server
                         [Json (frame_message "frame-1" "blank");
                          Json (frame_message "frame-2" "face")])).
Proof.
  apply Forall_forall. intros resp Hin prediction.
  apply (transformations_pass_through
           (option Q) toy_extract toy_unit_prob toy_decode "" single_server
           [Json (frame_message "frame-1" "blank");
            Json (frame_message "frame-2" "face")]).
  - discriminate.
  - intros name face. apply toy_unit_prob_bounds.
  - exact Hin.
Defined.

(** ** Start-up *)

Lemma load_ensemble_acc (model_weights : list (string * Weights))
    (acc models : list string) :
  load_ensemble model_weights acc = Ok models ->
  models
  = (acc ++ map fst (filter (fun nw => match snd nw with
                                       | Loadable => true
                                       | _ => false
                                       end) model_weights))%list /\
  Forall (fun nw => snd nw <> Corrupt) model_weights.
Proof.
  revert acc. induction model_weights as [|[name w] rest IH]; intros acc H.
  - cbn in *. inversion H. rewrite app_nil_r. split; [reflexivity | constructor].
  - cbn [load_ensemble] in H. destruct w.
    + destruct (IH _ H) as [E F]. cbn [filter snd]. split; [exact E|].
      constructor; [discriminate | exact F].
    + destruct (IH _ H) as [E F]. cbn [filter snd map fst].
      rewrite <- app_assoc in E. split; [exact E|].
      constructor; [discriminate | exact F].
    + discriminate H.
Qed.

Lemma loadable_models_nodup (ff sd ch : Weights) : NoDup (loadable_models ff sd ch).
Proof.
  destruct ff, sd, ch; cbn;
    repeat match goal with
           | |- NoDup [] => constructor
           | |- NoDup (_ :: _) => constructor; [cbn; intuition discriminate|]
           end.
Qed.

(** X20. When [_load_models] succeeds, the server has at least one model and
    no two models share a name.  With the ensemble flag the models are
    exactly those of the three weight files that exist, in the order
    FaceForensics, SDv14, Chameleon, and each existing file loaded; without
    it there is one model, named after the stem of the weight file. *)
Theorem loaded_models_are_existing_weights
    (ensemble : bool) (ff sd ch : Weights)
    (single_weights : option (string * Weights)) (models : list string) :
  _load_models ensemble ff sd ch single_weights = Ok models ->
  models <> [] /\ NoDup models /\
  (ensemble = true ->
   models = loadable_models ff sd ch /\
   ff <> Corrupt /\ sd <> Corrupt /\ ch <> Corrupt) /\
  (ensemble = false ->
   exists weight_name,
     single_weights = Some (weight_name, Loadable) /\
     models = [model_display_name weight_name]).
Proof.
  unfold _load_models. destruct ensemble.
  - destruct (load_ensemble _ []) as [ms|e|x] eqn:E; cbn [bind];
      try discriminate.
    destruct (load_ensemble_acc _ _ _ E) as [Hms HF].
    cbn [app] in Hms. fold (loadable_models ff sd ch) in Hms.
    destruct ms as [|m ms]; [discriminate|].
    intro H. inversion H. subst models.
    split; [discriminate|]. split; [rewrite Hms; apply loadable_models_nodup|].
    split; [|discriminate].
    intros _. split; [exact Hms|].
    inversion HF as [|? ? H1 HF1]; subst.
    inversion HF1 as [|? ? H2 HF2]; subst.
    inversion HF2 as [|? ? H3 _]; subst.
    auto.
  - destruct single_weights as [[weight_name w]|]; [|discriminate].
    destruct w; try discriminate.
    intro H. inversion H.
    split; [discriminate|]. split; [repeat constructor; intros []|].
    split; [discriminate|].
    intros _. exists weight_name. split; reflexivity.
Qed.

Lemma loaded_models_are_existing_weights_witness :
  _load_models true Missing Loadable Loadable None = Ok ["SDv14"; "Chameleon"] /\
  NoDup ["SDv14"; "Chameleon"] /\
  ["SDv14"; "Chameleon"] = loadable_models Missing Loadable Loadable.
Proof.
  destruct (loaded_models_are_existing_weights
              true Missing Loadable Loadable None ["SDv14"; "Chameleon"] eq_refl)
    as [_ [Hd [He _]]].
  destruct (He eq_refl) as [Hm _].
  split; [reflexivity|]. split; assumption.
Defined.

Section OneWeightFile.

Variable Image : Type.
Variable extract_aligned_face : Image -> option Image.
Variable model_prob : string -> Image -> Q.

(** X21. A server started with the ensemble flag while only one of the
    three weight files exists runs in single-model mode: [process_image]
    returns the one entry adjusted by the threshold/boost rule, and no
    ENSEMBLE entry. *)
Theorem one_weight_file_is_single_model
    (self : Server) (ff sd ch : Weights)
    (single_weights : option (string * Weights)) (img face : Image) :
  _load_models true ff sd ch single_weights = Ok (models self) ->
  List.length (loadable_models ff sd ch) = 1%nat ->
  aligned Image extract_aligned_face self img = Some face ->
  exists name,
    loadable_models ff sd ch = [name] /\
    process_image Image extract_aligned_face model_prob self (Some img)
    = Ok {| model_results :=
              [(name, adjusted_entry Image model_prob self name face)];
            ENSEMBLE := None |}.
Proof.
  intros Hload Hone Ha.
  unfold _load_models in Hload.
  destruct (load_ensemble _ []) as [ms|e|x] eqn:E; cbn [bind] in Hload;
    try discriminate.
  destruct (load_ensemble_acc _ _ _ E) as [Hms _].
  cbn [app] in Hms. fold (loadable_models ff sd ch) in Hms.
  destruct ms as [|m ms]; [discriminate|].
  inversion Hload as [Hself]. rewrite Hms in Hself.
  destruct (loadable_models ff sd ch) as [|name [|n2 rest]];
    try discriminate Hone.
  exists name. split; [reflexivity|].
  apply process_image_single; [symmetry; exact Hself | exact Ha].
Qed.

End OneWeightFile.

Lemma one_weight_file_is_single_model_witness :
  exists name,
    loadable_models Missing Loadable Missing = [name] /\
    process_image (option Q) toy_extract toy_prob
                  {| models := ["SDv14"]; face_detector := true;
                     landmark_predictor := true;
                     FAKE_CONFIDENCE_THRESHOLD := 70 # 100;
                     REAL_CONFIDENCE_BOOST := 25 # 100 |}
                  (Some (Some (60 # 100)))
    = Ok {| model_results :=
              [(name,
                adjusted_entry (option Q) toy_prob
                  {| models := ["SDv14"]; face_detector := true;
                     landmark_predictor := true;
                     FAKE_CONFIDENCE_THRESHOLD := 70 # 100;
                     REAL_CONFIDENCE_BOOST := 25 # 100 |}
                  name (Some (60 # 100)))];
            ENSEMBLE := None |}.
Proof.
  apply (one_weight_file_is_single_model
           (option Q) toy_extract toy_prob
           {| models := ["SDv14"]; face_detector := true;
              landmark_predictor := true;
              FAKE_CONFIDENCE_THRESHOLD := 70 # 100;
              REAL_CONFIDENCE_BOOST := 25 # 100 |}
           Missing Loadable Missing None (Some (60 # 100)) (Some (60 # 100)));
    reflexivity.
Defined.

Section Configuration.

Variable parse_float : string -> option Q.

Lemma ask_percentage_bounds (default : Q) (inputs : list Typed) (value : Q) :
  0 <= default -> default <= 1 ->
  fst (ask_percentage parse_float default inputs) = Ok value ->
  0 <= value /\ value <= 1.
Proof.
  intros H0 H1. induction inputs as [|t rest IH]; cbn [ask_percentage fst].
  - discriminate.
  - destruct t as [user_input|].
    + destruct (user_input =? "")%string.
      * cbn [fst]. intro H. inversion H. subst. split; assumption.
      * destruct (parse_float user_input) as [v|]; [|exact IH].
        destruct (Py.leb 0 v && Py.leb v 100) eqn:E; [|exact IH].
        apply andb_true_iff in E. destruct E as [Ea Eb].
        apply leb_le in Ea, Eb.
        cbn [fst]. intro H. inversion H.
        unfold Qdiv. change (/ 100) with (1 # 100). split; lra.
    + cbn [fst]. intro H. inversion H. subst. split; assumption.
Qed.

(** X22. Whatever the operator types at the two prompts, the threshold and
    the boost that the streaming server ends up with are fractions in
    [[0,1]]: a value outside 0..100 or a line that is not a number is asked
    again, an empty line or Ctrl-C gives the default.  Nothing else of the
    server changes, and with these settings the adjusted confidence of a
    probability in [[0,1]] lies in [[0.5, 1]]. *)
Theorem configured_levels_are_fractions
    (self self' : Server) (inputs : list Typed) :
  configure parse_float self inputs = Ok self' ->
  (0 <= FAKE_CONFIDENCE_THRESHOLD self' /\ FAKE_CONFIDENCE_THRESHOLD self' <= 1) /\
  (0 <= REAL_CONFIDENCE_BOOST self' /\ REAL_CONFIDENCE_BOOST self' <= 1) /\
  models self' = models self /\
  face_detector self' = face_detector self /\
  landmark_predictor self' = landmark_predictor self /\
  forall p, 0 <= p -> p <= 1 ->
            1 # 2 <= snd (fst (adjusted self' p)) /\
            snd (fst (adjusted self' p)) <= 1.
Proof.
  unfold configure.
  pose proof (ask_percentage_bounds (70 # 100) inputs) as HT.
  destruct (ask_percentage parse_float (70 # 100) inputs) as [threshold rest].
  cbn [fst] in HT.
  destruct threshold as [T|e|x]; cbn [bind]; try discriminate.
  pose proof (ask_percentage_bounds (25 # 100) rest) as HB.
  destruct (ask_percentage parse_float (25 # 100) rest) as [boost rest'].
  cbn [fst] in HB.
  destruct boost as [B|e|x]; cbn [bind]; try discriminate.
  intro H. inversion H. subst self'. cbn.
  assert (HT' := HT T ltac:(lra) ltac:(lra) eq_refl).
  assert (HB' := HB B ltac:(lra) ltac:(lra) eq_refl).
  split; [exact HT'|]. split; [exact HB'|].
  repeat (split; [reflexivity|]).
  intros p Hp0 Hp1.
  destruct (adjusted_bounds (with_config self T B) p Hp0 Hp1) as [Ha [Hb _]].
  - cbn. tauto.
  - split; assumption.
Qed.

End Configuration.

Lemma configured_levels_are_fractions_witness :
  configure toy_float single_server
            [Line "150"; Line "eighty"; Line "80"; KeyboardInterrupt]
  = Ok (with_config single_server (80 / 100) (25 # 100)) /\
  0 <= 80 / 100 /\ 80 / 100 <= 1.
Proof.
  assert (H : configure toy_float single_server
                        [Line "150"; Line "eighty"; Line "80"; KeyboardInterrupt]
              = Ok (with_config single_server (80 / 100) (25 # 100)))
    by reflexivity.
  destruct (configured_levels_are_fractions toy_float single_server _ _ H)
    as [[H0 H1] _].
  split; [exact H|]. split; [exact H0 | exact H1].
Defined.

(** ** The public upload endpoint *)

Lemma first_in {A : Type} (l : list A) (x : A) : Py.first l = Some x -> In x l.
Proof. destruct l; [discriminate|]. intro H. inversion H. left. reflexivity. Qed.

Lemma transformation_keeps_prediction (prediction : string) (confidence : Q) :
  fst (apply_confidence_transformations prediction confidence) = prediction.
Proof.
  unfold apply_confidence_transformations.
  destruct (prediction =? "NO_FACE")%string; [reflexivity|].
  destruct (Py.ltb 1 confidence); reflexivity.
Qed.

Lemma frames_by_label (frs : list PublicFrame) :
  Forall (fun f => pf_prediction f = FAKE \/ pf_prediction f = REAL \/
                   pf_prediction f = "NO_FACE") frs ->
  filter (labelled "fake") (map to_prediction (filter with_face frs))
  = map to_prediction (filter (shows FAKE) frs) /\
  filter (labelled "real") (map to_prediction (filter with_face frs))
  = map to_prediction (filter (shows REAL) frs) /\
  (List.length (filter with_face frs)
   = count (shows FAKE) frs + count (shows REAL) frs)%nat /\
  (List.length frs
   = count (shows FAKE) frs + count (shows REAL) frs
     + count (shows "NO_FACE") frs)%nat.
Proof.
  unfold count.
  induction 1 as [|f frs Hf _ IH]; [repeat split; reflexivity|].
  destruct IH as [IH1 [IH2 [IH3 IH4]]].
  unfold with_face, shows, labelled, to_prediction in *.
  cbn [filter map List.length].
  destruct Hf as [E | [E | E]]; rewrite E; cbn [String.eqb Ascii.eqb Bool.eqb
    negb filter map List.length pp_label FAKE REAL];
    change (Py.lower "FAKE") with "fake";
    change (Py.lower "REAL") with "real";
    cbn; rewrite ?IH1, ?IH2, ?E; repeat split; try reflexivity; lia.
Qed.

Section Upload.

Variable Image : Type.
Variable extract_aligned_face : Image -> option Image.
Variable model_prob : string -> Image -> Q.
Variable b64_to_bgr_img : string -> option Image.
Variable AUTH_TOKEN : string.
Variable encode_frame : Image -> option string.
Variable connects : nat -> bool.
Variable frame_id_of : nat -> string.
Variable round1 : Q -> Q.

(** The answers that a frame can get from a server with a model. *)
Lemma send_frame_prediction (self : Server) (n : nat) (frame : Image)
    (frame_id : string) (resp : Response) (prediction : string) :
  models self <> [] ->
  send_frame_to_native_host Image extract_aligned_face model_prob b64_to_bgr_img
                            AUTH_TOKEN encode_frame connects self n frame frame_id
  = Some resp ->
  r_prediction resp = Some prediction ->
  prediction = FAKE \/ prediction = REAL \/ prediction = "NO_FACE".
Proof.
  intros Hmodels Hsend Hpred. unfold send_frame_to_native_host in Hsend.
  destruct (encode_frame frame) as [data_url|]; [|discriminate].
  destruct (connects n); [|discriminate].
  apply first_in, sends_in in Hsend.
  destruct (handler_in _ _ _ _ _ _ _ _ Hsend) as [raw [_ Hev]].
  destruct (handle_message_response _ _ _ _ _ _ _ _ Hmodels Hev)
    as [[error ->] | [[msg [img [_ [_ [_ ->]]]]]
                     | [msg [img [face [_ [_ [_ [_ [_ [_ [_ Ha]]]]]]]]]]]].
  - discriminate Hpred.
  - cbn in Hpred. inversion Hpred. auto.
  - destruct (answers_face_binary _ _ _ _ _ Ha) as [E | E];
      rewrite E in Hpred; inversion Hpred; auto.
Qed.

Lemma upload_step_counts (self : Server) (k : nat) (st : UploadState)
    (frame : Image) :
  us_frame_count
      (upload_step Image extract_aligned_face model_prob b64_to_bgr_img
         AUTH_TOKEN encode_frame connects frame_id_of self k st frame)
  = S (us_frame_count st) /\
  us_analyzed_count
      (upload_step Image extract_aligned_face model_prob b64_to_bgr_img
         AUTH_TOKEN encode_frame connects frame_id_of self k st frame)
  = (if (us_frame_count st mod k =? 0)%nat
     then S (us_analyzed_count st) else us_analyzed_count st).
Proof.
  unfold upload_step.
  destruct (us_frame_count st mod k =? 0)%nat; [|split; reflexivity].
  destruct (send_frame_to_native_host _ _ _ _ _ _ _ _ _ _ _) as [resp|];
    [|split; reflexivity].
  destruct (r_prediction resp) as [p|]; [|split; reflexivity].
  destruct (apply_confidence_transformations _ _) as [p' c'].
  split; reflexivity.
Qed.

Lemma upload_step_invariant (self : Server) (k : nat) (st : UploadState)
    (frame : Image) :
  models self <> [] ->
  upload_invariant st -> upload_invariant
      (upload_step Image extract_aligned_face model_prob b64_to_bgr_img
         AUTH_TOKEN encode_frame connects frame_id_of self k st frame).
Proof.
  intros Hmodels [Hp [Hf Hl]]. unfold upload_step, upload_invariant.
  destruct (us_frame_count st mod k =? 0)%nat;
    [|cbn; repeat split; assumption].
  destruct (send_frame_to_native_host _ _ _ _ _ _ _ _ _ _ _) as [resp|] eqn:Es;
    [|cbn; repeat split; try assumption; lia].
  destruct (r_prediction resp) as [p|] eqn:Ep;
    [|cbn; repeat split; try assumption; lia].
  pose proof (send_frame_prediction self _ _ _ _ _ Hmodels Es Ep) as Hb.
  pose proof (transformation_keeps_prediction p
                (match r_confidence resp with Some c => c | None => 0 end)) as Hk.
  destruct (apply_confidence_transformations _ _) as [p' c'].
  cbn [fst] in Hk. subst p'.
  cbn [us_predictions us_frame_results us_analyzed_count].
  rewrite filter_app, map_app, length_app. cbn [filter List.length].
  unfold with_face at 2. unfold shows. cbn [pf_prediction].
  split; [|split].
  - destruct (negb (p =? "NO_FACE")%string); cbn [map];
      rewrite Hp; [reflexivity | rewrite app_nil_r; reflexivity].
  - apply Forall_app. split; [exact Hf|].
    constructor; [exact Hb | constructor].
  - lia.
Qed.

Lemma upload_loop_invariant (self : Server) (k : nat) (frames : list Image)
    (st : UploadState) :
  models self <> [] ->
  upload_invariant st -> upload_invariant (fold_left
      (upload_step Image extract_aligned_face model_prob b64_to_bgr_img
         AUTH_TOKEN encode_frame connects frame_id_of self k) frames st).
Proof.
  intro Hmodels. revert st.
  induction frames as [|frame rest IH]; intros st Hinv; [exact Hinv|].
  cbn [fold_left]. apply IH. apply upload_step_invariant; assumption.
Qed.

Lemma upload_loop_counts (self : Server) (k : nat) (frames : list Image)
    (st : UploadState) :
  us_analyzed_count (fold_left
      (upload_step Image extract_aligned_face model_prob b64_to_bgr_img
         AUTH_TOKEN encode_frame connects frame_id_of self k) frames st)
  = (us_analyzed_count st
     + List.length (sampled k (us_frame_count st) frames))%nat.
Proof.
  revert st. induction frames as [|frame rest IH]; intro st.
  - cbn. lia.
  - cbn [fold_left sampled]. rewrite IH.
    destruct (upload_step_counts self k st frame) as [-> ->].
    destruct (us_frame_count st mod k =? 0)%nat; cbn [List.length]; lia.
Qed.


Lemma analyze_video_state (self : Server) (cap : Video Image)
    (results : PublicResults) :
  models self <> [] ->
  analyze_video Image extract_aligned_face model_prob b64_to_bgr_img AUTH_TOKEN
                encode_frame connects frame_id_of round1 self cap
  = SseComplete results ->
  exists st,
    results = upload_verdict round1 st /\
    upload_invariant st /\
    us_analyzed_count st
    = List.length (sampled (Z.to_nat (Z.max 1 (py_int (video_fps cap)))) 0
                           (video_frames cap)).
Proof.
  intros Hmodels. unfold analyze_video.
  destruct (isOpened cap); cbn [negb]; [|discriminate].
  intro H. inversion H as [Hr]. clear H.
  eexists. split; [reflexivity|]. split.
  - apply (upload_loop_invariant self _ _ _ Hmodels).
    unfold upload_invariant.
    cbn [us_predictions us_frame_results us_analyzed_count filter map List.length].
    split; [reflexivity | split; [constructor | lia]].
  - rewrite upload_loop_counts. reflexivity.
Qed.

Lemma upload_verdict_counts (st : UploadState) :
  upload_invariant st ->
  let r := upload_verdict round1 st in
  pr_total_frames r = us_analyzed_count st /\
  pr_frame_results r = us_frame_results st /\
  pr_fake_count r = count (shows FAKE) (us_frame_results st) /\
  pr_real_count r = count (shows REAL) (us_frame_results st) /\
  pr_no_face_count r
  = (Z.of_nat (us_analyzed_count st)
     - Z.of_nat (count (shows FAKE) (us_frame_results st))
     - Z.of_nat (count (shows REAL) (us_frame_results st)))%Z.
Proof.
  intros [Hp [Hf Hl]].
  destruct (frames_by_label _ Hf) as [E1 [E2 [E3 E4]]].
  assert (Hlen : List.length (us_predictions st)
                 = (count (shows FAKE) (us_frame_results st)
                    + count (shows REAL) (us_frame_results st))%nat)
    by (rewrite Hp, length_map; exact E3).
  assert (Hfk : count (labelled "fake") (us_predictions st)
                = count (shows FAKE) (us_frame_results st))
    by (unfold count; rewrite Hp, E1, length_map; reflexivity).
  assert (Hrl : count (labelled "real") (us_predictions st)
                = count (shows REAL) (us_frame_results st))
    by (unfold count; rewrite Hp, E2, length_map; reflexivity).
  unfold upload_verdict.
  destruct (us_predictions st) as [|p ps] eqn:Ep.
  - cbn in Hlen. cbn. repeat split; lia.
  - rewrite Hfk, Hrl, Hlen.
    destruct (count (shows REAL) (us_frame_results st)
              <? count (shows FAKE) (us_frame_results st))%nat;
      cbn; repeat split; lia.
Qed.

(** X23. In the final message of a public upload, served by a server with
    at least one model, the three counts add up to the number of analysed
    frames, which is the number of frames sampled from the video.  The fake
    and real counts are those of the FAKE and REAL entries of the frame
    results sent along; the no-face count is the number of NO_FACE entries
    plus the number of analysed frames that got no usable answer, so it is
    never negative. *)
Theorem upload_counts_partition (self : Server) (cap : Video Image)
    (results : PublicResults) :
  models self <> [] ->
  analyze_video Image extract_aligned_face model_prob b64_to_bgr_img AUTH_TOKEN
                encode_frame connects frame_id_of round1 self cap
  = SseComplete results ->
  (Z.of_nat (pr_fake_count results) + Z.of_nat (pr_real_count results)
   + pr_no_face_count results
   = Z.of_nat (pr_total_frames results))%Z /\
  pr_total_frames results
  = List.length (sampled (Z.to_nat (Z.max 1 (py_int (video_fps cap)))) 0
                         (video_frames cap)) /\
  pr_fake_count results = count (shows FAKE) (pr_frame_results results) /\
  pr_real_count results = count (shows REAL) (pr_frame_results results) /\
  (List.length (pr_frame_results results) <= pr_total_frames results)%nat /\
  pr_no_face_count results
  = (Z.of_nat (count (shows "NO_FACE") (pr_frame_results results))
     + (Z.of_nat (pr_total_frames results)
        - Z.of_nat (List.length (pr_frame_results results))))%Z.
Proof.
  intros Hmodels Hrun.
  destruct (analyze_video_state self cap results Hmodels Hrun)
    as [st [-> [Hinv Hn]]].
  destruct (upload_verdict_counts st Hinv) as [Ht [Hr [Hfk [Hrl Hno]]]].
  destruct Hinv as [_ [Hf Hl]].
  destruct (frames_by_label _ Hf) as [_ [_ [_ E4]]].
  rewrite Ht, Hr, Hfk, Hrl, Hno.
  split; [lia|]. split; [exact Hn|].
  repeat split; try reflexivity; lia.
Qed.

(** X24. The verdict of a public upload is NO_FACE, with confidence 0,
    exactly when no analysed frame was answered FAKE or REAL.  Otherwise it
    is FAKE when the FAKE frames strictly outnumber the REAL ones and REAL
    when they do not (a tie gives REAL), and the confidence is the rounded
    percentage of the average confidence of the frames of the winning label,
    of which there is at least one. *)
Theorem upload_verdict_rule (self : Server) (cap : Video Image)
    (results : PublicResults) :
  models self <> [] ->
  analyze_video Image extract_aligned_face model_prob b64_to_bgr_img AUTH_TOKEN
                encode_frame connects frame_id_of round1 self cap
  = SseComplete results ->
  let fakes := filter (shows FAKE) (pr_frame_results results) in
  let reals := filter (shows REAL) (pr_frame_results results) in
  (fakes = [] /\ reals = [] /\
   pr_verdict results = "NO_FACE" /\ pr_confidence results = 0) \/
  ((List.length reals < List.length fakes)%nat /\
   pr_verdict results = FAKE /\
   pr_confidence results = round1 (average (map pf_confidence fakes) * 100)) \/
  ((List.length fakes <= List.length reals)%nat /\ reals <> [] /\
   pr_verdict results = REAL /\
   pr_confidence results = round1 (average (map pf_confidence reals) * 100)).
Proof.
  intros Hmodels Hrun.
  destruct (analyze_video_state self cap results Hmodels Hrun)
    as [st [-> [Hinv _]]].
  destruct Hinv as [Hp [Hf _]].
  destruct (frames_by_label _ Hf) as [E1 [E2 [E3 _]]].
  assert (Hlen : List.length (us_predictions st)
                 = (count (shows FAKE) (us_frame_results st)
                    + count (shows REAL) (us_frame_results st))%nat)
    by (rewrite Hp, length_map; exact E3).
  assert (Hfk : filter (labelled "fake") (us_predictions st)
                = map to_prediction (filter (shows FAKE) (us_frame_results st)))
    by (rewrite Hp; exact E1).
  assert (Hrl : filter (labelled "real") (us_predictions st)
                = map to_prediction (filter (shows REAL) (us_frame_results st)))
    by (rewrite Hp; exact E2).
  assert (Hconf : forall l, map pp_confidence (map to_prediction l)
                            = map pf_confidence l).
  { intro l. rewrite map_map. reflexivity. }
  unfold upload_verdict, count in *.
  destruct (us_predictions st) as [|p ps] eqn:Ep.
  - left. cbn [List.length] in Hlen. cbn.
    destruct (filter (shows FAKE) (us_frame_results st));
      destruct (filter (shows REAL) (us_frame_results st));
      try discriminate Hlen.
    repeat split; reflexivity.
  - right. rewrite Hfk, Hrl, !Hconf, !length_map.
    destruct (List.length (filter (shows REAL) (us_frame_results st))
              <? List.length (filter (shows FAKE) (us_frame_results st)))%nat
      eqn:Ec.
    + left. apply Nat.ltb_lt in Ec. cbn. repeat split; try reflexivity. exact Ec.
    + right. apply Nat.ltb_ge in Ec. cbn.
      repeat split; try reflexivity; [exact Ec|].
      intro Hnil. rewrite Hnil in *. cbn [List.length] in *.
      assert (Hz : List.length (filter (shows FAKE) (us_frame_results st)) = 0%nat)
        by lia.
      rewrite Hz in Hlen. discriminate Hlen.
Qed.

(** X25. The frame messages of the public upload carry no token.  When the
    streaming server has [DF_AUTH_TOKEN] set, no frame gets a usable answer:
    every upload that opens ends with the verdict NO_FACE, confidence 0, no
    frame results, and all analysed frames counted as frames without a
    face. *)
Theorem upload_with_token_sees_no_face (self : Server) (cap : Video Image) :
  AUTH_TOKEN <> "" ->
  isOpened cap = true ->
  analyze_video Image extract_aligned_face model_prob b64_to_bgr_img AUTH_TOKEN
                encode_frame connects frame_id_of round1 self cap
  = SseComplete
      (let analyzed :=
         List.length (sampled (Z.to_nat (Z.max 1 (py_int (video_fps cap)))) 0
                              (video_frames cap)) in
       {| pr_verdict := "NO_FACE"; pr_confidence := 0;
          pr_total_frames := analyzed;
          pr_fake_count := 0; pr_real_count := 0;
          pr_no_face_count := Z.of_nat analyzed;
          pr_frame_results := [] |}).
Proof.
  intros Hauth Hopen.
  assert (Ea : (AUTH_TOKEN =? "")%string = false)
    by (apply String.eqb_neq; exact Hauth).
  assert (Hstep : forall k st frame,
             us_predictions st = [] -> us_frame_results st = [] ->
             us_predictions
                 (upload_step Image extract_aligned_face model_prob b64_to_bgr_img
                    AUTH_TOKEN encode_frame connects frame_id_of self k st frame) = [] /\
             us_frame_results
                 (upload_step Image extract_aligned_face model_prob b64_to_bgr_img
                    AUTH_TOKEN encode_frame connects frame_id_of self k st frame) = []).
  { intros k st frame Hp Hf. unfold upload_step.
    destruct (us_frame_count st mod k =? 0)%nat; [|split; assumption].
    unfold send_frame_to_native_host.
    destruct (encode_frame frame) as [data_url|]; [|split; assumption].
    destruct (connects (S (us_analyzed_count st))); [|split; assumption].
    cbn [handler handle_message token_differs m_token].
    rewrite Ea. cbn. split; assumption. }
  assert (Hloop : forall k frames st,
             us_predictions st = [] -> us_frame_results st = [] ->
             us_predictions (fold_left
                 (upload_step Image extract_aligned_face model_prob b64_to_bgr_img
                    AUTH_TOKEN encode_frame connects frame_id_of self k) frames st) = [] /\
             us_frame_results (fold_left
                 (upload_step Image extract_aligned_face model_prob b64_to_bgr_img
                    AUTH_TOKEN encode_frame connects frame_id_of self k) frames st) = []).
  { intros k frames. induction frames as [|frame rest IH]; intros st Hp Hf.
    - split; assumption.
    - cbn [fold_left]. destruct (Hstep k st frame Hp Hf) as [Hp' Hf'].
      apply IH; assumption. }
  unfold analyze_video. rewrite Hopen. cbn [negb].
  set (k := Z.to_nat (Z.max 1 (py_int (video_fps cap)))).
  set (st0 := {| us_predictions := []; us_frame_results := [];
                 us_frame_count := 0; us_analyzed_count := 0 |}).
  destruct (Hloop k (video_frames cap) st0 eq_refl eq_refl) as [Hp Hf].
  pose proof (upload_loop_counts self k (video_frames cap) st0) as Hn.
  cbn [us_analyzed_count us_frame_count st0 Nat.add] in Hn.
  unfold upload_verdict. rewrite Hp, Hf, Hn. reflexivity.
Qed.

End Upload.

Lemma upload_counts_partition_witness :
  exists results,
    analyze_video (option Q) toy_extract toy_prob toy_decode "" toy_encode
                  (fun _ => true) (fun _ => "public") (fun x => x)
                  single_server toy_video
    = SseComplete results /\
    pr_total_frames results = 3%nat /\
    (Z.of_nat (pr_fake_count results) + Z.of_nat (pr_real_count results)
     + pr_no_face_count results
     = Z.of_nat (pr_total_frames results))%Z.
Proof.
  eexists. split; [reflexivity|].
  destruct (upload_counts_partition
              (option Q) toy_extract toy_prob toy_decode "" toy_encode
              (fun _ => true) (fun _ => "public") (fun x => x)
              single_server toy_video _ ltac:(discriminate) eq_refl)
    as [Hsum [Htotal _]].
  split; [exact Htotal | exact Hsum].
Defined.

Lemma upload_verdict_rule_witness :
  exists results,
    analyze_video (option Q) toy_extract toy_prob toy_decode "" toy_encode
                  (fun _ => true) (fun _ => "public") (fun x => x)
                  single_server toy_video
    = SseComplete results /\
    pr_verdict results = FAKE /\
    (List.length (filter (shows REAL) (pr_frame_results results))
     < List.length (filter (shows FAKE) (pr_frame_results results)))%nat.
Proof.
  eexists. split; [reflexivity|].
  destruct (upload_verdict_rule
              (option Q) toy_extract toy_prob toy_decode "" toy_encode
              (fun _ => true) (fun _ => "public") (fun x => x)
              single_server toy_video _ ltac:(discriminate) eq_refl)
    as [[_ [_ [H _]]] | [[Hlt [Hv _]] | [_ [_ [H _]]]]].
  - discriminate H.
  - split; [exact Hv | exact Hlt].
  - discriminate H.
Defined.

Lemma upload_with_token_sees_no_face_witness :
  analyze_video (option Q) toy_extract toy_prob toy_decode "secret" toy_encode
                (fun _ => true) (fun _ => "public") (fun x => x)
                single_server toy_video
  = SseComplete {| pr_verdict := "NO_FACE"; pr_confidence := 0;
                   pr_total_frames := 3;
                   pr_fake_count := 0; pr_real_count := 0;
                   pr_no_face_count := 3;
                   pr_frame_results := [] |}.
Proof.
  exact (upload_with_token_sees_no_face
           (option Q) toy_extract toy_prob toy_decode "secret" toy_encode
           (fun _ => true) (fun _ => "public") (fun x => x)
           single_server toy_video ltac:(discriminate) eq_refl).
Defined.

(** ** The upload task *)

Section Task.

Variable Image : Type.
Variable extract_aligned_face : Image -> option Image.
Variable model_prob : string -> Image -> Q.
Variable b64_to_bgr_img : string -> option Image.
Variable AUTH_TOKEN : string.
Variable encode_frame : Image -> option string.
Variable connects : nat -> bool.
Variable frame_id_of : nat -> string.

(** What a frame is answered by a server with a model whose classifiers
    return probabilities. *)
Lemma send_frame_answer (self : Server) (n : nat) (frame : Image)
    (frame_id : string) (resp : Response) (prediction : string) :
  models self <> [] ->
  (forall name face, 0 <= model_prob name face /\ model_prob name face <= 1) ->
  send_frame_to_server Image extract_aligned_face model_prob b64_to_bgr_img
                       AUTH_TOKEN encode_frame connects self n frame frame_id
  = Some resp ->
  r_prediction resp = Some prediction ->
  exists confidence,
    r_confidence resp = Some confidence /\
    apply_confidence_transformations prediction confidence
    = (prediction, confidence) /\
    ((prediction = "NO_FACE" /\ confidence = 0) \/
     ((prediction = FAKE \/ prediction = REAL) /\ confidence <= 1)).
Proof.
  intros Hmodels Hp Hsend Hpred.
  unfold send_frame_to_server, send_frame_to_native_host in Hsend.
  destruct (encode_frame frame) as [data_url|]; [|discriminate].
  destruct (connects n); [|discriminate].
  apply first_in, sends_in in Hsend.
  destruct (handler_in _ _ _ _ _ _ _ _ Hsend) as [raw [_ Hev]].
  destruct (handle_message_response _ _ _ _ _ _ _ _ Hmodels Hev)
    as [[error ->] | [[msg [img [_ [_ [_ ->]]]]]
                     | [msg [img [face [_ [_ [_ [_ [_ [_ [_ Ha]]]]]]]]]]]].
  - discriminate Hpred.
  - cbn in Hpred. inversion Hpred. subst prediction.
    exists 0. split; [reflexivity|]. split; [reflexivity|]. left. auto.
  - destruct (answers_face_confidence _ _ _ _ _ (fun name => Hp name face) Ha)
      as [c [Hc Hle]].
    exists c. split; [exact Hc|].
    assert (Hl : Py.ltb 1 c = false) by (apply ltb_ge; exact Hle).
    assert (Hb : prediction = FAKE \/ prediction = REAL).
    { destruct (answers_face_binary _ _ _ _ _ Ha) as [E | E];
        rewrite E in Hpred; inversion Hpred; auto. }
    split; [|right; split; assumption].
    unfold apply_confidence_transformations. rewrite Hl.
    destruct Hb as [-> | ->]; reflexivity.
Qed.

Lemma sync_loop_rows (self : Server) (fps : Q) (total_frames : Z) (k : nat)
    (frames : list Image) (rows : list FrameRow) (frame_count processed_count : nat)
    (rows' : list FrameRow) (out : Outcome nat) :
  sync_loop Image extract_aligned_face model_prob b64_to_bgr_img
    AUTH_TOKEN encode_frame connects frame_id_of self fps total_frames k
    frames rows frame_count processed_count
  = (rows', out) ->
  exists added,
    rows' = (rows ++ added)%list /\
    map row_frame_number added = seq processed_count (List.length added) /\
    (forall n, out = Ok n ->
               n = (processed_count + List.length added)%nat /\
               List.length added = List.length (sampled k frame_count frames)).
Proof.
  revert rows frame_count processed_count.
  induction frames as [|frame rest IH]; intros rows fc pc; cbn [sync_loop].
  - intro H. inversion H. subst. exists []. rewrite app_nil_r.
    split; [reflexivity|]. split; [reflexivity|].
    intros n Hn. inversion Hn. cbn. split; [lia | reflexivity].
  - cbn [sampled]. destruct (fc mod k =? 0)%nat.
    + destruct (Qeq_bool fps 0).
      { intro H. inversion H. subst. exists []. rewrite app_nil_r.
        split; [reflexivity|]. split; [reflexivity|]. intros n Hn. discriminate Hn. }
      match goal with
      | |- context [let '(prediction, confidence) := ?a in _] =>
          destruct a as [prediction confidence]
      end.
      destruct (total_frames =? 0)%Z.
      { intro H. inversion H. subst. eexists [_].
        split; [reflexivity|]. split; [reflexivity|]. intros n Hn. discriminate Hn. }
      intro H. apply IH in H. destruct H as [added [-> [Hnum Hok]]].
      eexists (_ :: added). rewrite <- app_assoc.
      split; [reflexivity|]. cbn [map row_frame_number List.length seq].
      split; [rewrite Hnum; reflexivity|].
      intros n Hn. destruct (Hok n Hn) as [-> ->]. split; [lia | reflexivity].
    + intro H. apply IH in H. exact H.
Qed.

Lemma sync_loop_stored (self : Server) (fps : Q) (total_frames : Z) (k : nat)
    (frames : list Image) (rows : list FrameRow) (frame_count processed_count : nat) :
  models self <> [] ->
  (forall name face, 0 <= model_prob name face /\ model_prob name face <= 1) ->
  Forall stored_row_ok rows ->
  Forall stored_row_ok
         (fst
             (sync_loop Image extract_aligned_face model_prob b64_to_bgr_img
                AUTH_TOKEN encode_frame connects frame_id_of self fps
                total_frames k frames rows frame_count processed_count)).
Proof.
  intros Hmodels Hp. revert rows frame_count processed_count.
  induction frames as [|frame rest IH]; intros rows fc pc Hrows;
    cbn [sync_loop]; [exact Hrows|].
  destruct (fc mod k =? 0)%nat; [|apply IH; exact Hrows].
  destruct (Qeq_bool fps 0); [exact Hrows|].
  assert (Hrow : forall timestamp,
             stored_row_ok
               (let '(prediction, confidence) :=
                  match
                    send_frame_to_server Image extract_aligned_face model_prob
                      b64_to_bgr_img AUTH_TOKEN encode_frame connects self pc
                      frame (frame_id_of pc)
                  with
                  | Some resp =>
                      match r_prediction resp with
                      | Some prediction =>
                          let confidence := match r_confidence resp with
                                            | Some c => c
                                            | None => 0
                                            end in
                          let '(prediction, confidence) :=
                            apply_confidence_transformations prediction confidence in
                          (prediction, confidence * 100)
                      | None => (REAL, 50)
                      end
                  | None => (REAL, 50)
                  end in
                {| row_timestamp := timestamp; row_frame_number := pc;
                   row_prediction := prediction;
                   row_confidence := confidence |})).
  { intro timestamp.
    destruct (send_frame_to_server _ _ _ _ _ _ _ _ _ _ _) as [resp|] eqn:Es.
    2:{ right. cbn [row_prediction row_confidence]. split; [auto | lra]. }
    destruct (r_prediction resp) as [p|] eqn:Ep.
    2:{ right. cbn [row_prediction row_confidence]. split; [auto | lra]. }
    destruct (send_frame_answer self _ _ _ _ _ Hmodels Hp Es Ep)
      as [c [Hc [Ha Hcases]]].
    rewrite Hc. cbv beta iota zeta. rewrite Ha.
    unfold stored_row_ok. cbn [row_prediction row_confidence].
    destruct Hcases as [[-> ->] | [Hb Hle]].
    - left. split; [reflexivity | lra].
    - right. unfold stored_row_ok. cbn [row_prediction row_confidence].
      split; [exact Hb | lra]. }
  specialize (Hrow (count_Q fc / fps)).
  match goal with
  | |- context [let '(prediction, confidence) := ?a in _] =>
      destruct a as [prediction confidence]
  end.
  assert (Hrows' : Forall stored_row_ok
                     (rows ++ [{| row_timestamp := count_Q fc / fps;
                                  row_frame_number := pc;
                                  row_prediction := prediction;
                                  row_confidence := confidence |}])%list).
  { apply Forall_app. split; [exact Hrows | constructor; [exact Hrow | constructor]]. }
  destruct (total_frames =? 0)%Z; [exact Hrows'|].
  apply IH. exact Hrows'.
Qed.

(** X26. When the upload task completes, with a streaming server that has at
    least one model and classifiers that return probabilities, it has
    stored exactly one row per sampled frame, numbered 0, 1, 2, ... in
    order, and [processed_frames] is their number (0 for a video that does
    not open).  Every row is NO_FACE with confidence 0, or FAKE or REAL with
    a confidence of at most 100. *)
Theorem upload_task_rows (self : Server) (cap : Video Image)
    (total_frames target_fps : Z) (rows : list FrameRow) (n : nat) :
  models self <> [] ->
  (forall name face, 0 <= model_prob name face /\ model_prob name face <= 1) ->
  process_video_sync Image extract_aligned_face model_prob b64_to_bgr_img
                     AUTH_TOKEN encode_frame connects frame_id_of self cap
                     total_frames target_fps
  = (rows, Ok n) ->
  n = List.length rows /\
  map row_frame_number rows = seq 0 n /\
  n = (if isOpened cap
       then List.length
              (sampled (Z.to_nat (Z.max 1 (py_int (video_fps cap
                                                   / inject_Z target_fps))))
                       0 (video_frames cap))
       else 0%nat) /\
  Forall stored_row_ok rows.
Proof.
  intros Hmodels Hp. unfold process_video_sync.
  destruct (target_fps =? 0)%Z; [discriminate|].
  destruct (isOpened cap).
  - intro H.
    pose proof (sync_loop_stored self (video_fps cap) total_frames
                  (Z.to_nat (Z.max 1 (py_int (video_fps cap / inject_Z target_fps))))
                  (video_frames cap) [] 0 0 Hmodels Hp (Forall_nil _)) as Hst.
    rewrite H in Hst. cbn [fst] in Hst.
    apply sync_loop_rows in H. destruct H as [added [-> [Hnum Hok]]].
    destruct (Hok n eq_refl) as [Hn Hs]. cbn [app Nat.add] in *. subst n.
    split; [reflexivity|]. split; [exact Hnum|]. split; [exact Hs | exact Hst].
  - intro H. inversion H. subst. repeat split; constructor.
Qed.

(** X27. The frame messages of the upload task carry no token.  When the
    streaming server has [DF_AUTH_TOKEN] set, every row that the task stores
    is the fallback: REAL with confidence 50. *)
Theorem upload_task_with_token_stores_real
    (self : Server) (cap : Video Image) (total_frames target_fps : Z) :
  AUTH_TOKEN <> "" ->
  Forall (fun row => row_prediction row = REAL /\ row_confidence row = 50)
         (fst (process_video_sync Image extract_aligned_face model_prob
                                  b64_to_bgr_img AUTH_TOKEN encode_frame connects
                                  frame_id_of self cap total_frames target_fps)).
Proof.
  intro Hauth.
  assert (Ea : (AUTH_TOKEN =? "")%string = false)
    by (apply String.eqb_neq; exact Hauth).
  assert (Hsend : forall n frame frame_id resp,
             send_frame_to_server Image extract_aligned_face model_prob
               b64_to_bgr_img AUTH_TOKEN encode_frame connects self n frame frame_id
             = Some resp ->
             r_prediction resp = None).
  { intros n frame frame_id resp.
    unfold send_frame_to_server, send_frame_to_native_host.
    destruct (encode_frame frame) as [data_url|]; [|discriminate].
    destruct (connects n); [|discriminate].
    cbn [handler handle_message token_differs m_token].
    rewrite Ea. cbn. intro H. inversion H. reflexivity. }
  assert (Hloop : forall k frames rows fc pc,
             Forall (fun row => row_prediction row = REAL /\ row_confidence row = 50)
                    rows ->
             Forall (fun row => row_prediction row = REAL /\ row_confidence row = 50)
                    (fst
                        (sync_loop Image extract_aligned_face model_prob b64_to_bgr_img
                           AUTH_TOKEN encode_frame connects frame_id_of self
                           (video_fps cap) total_frames k frames rows fc pc))).
  { intros k frames. induction frames as [|frame rest IH]; intros rows fc pc Hrows;
      cbn [sync_loop]; [exact Hrows|].
    destruct (fc mod k =? 0)%nat; [|apply IH; exact Hrows].
    destruct (Qeq_bool (video_fps cap) 0); [exact Hrows|].
    pose proof (Hsend pc frame (frame_id_of pc)) as Hs.
    destruct (send_frame_to_server _ _ _ _ _ _ _ _ _ _ _) as [resp|].
    - rewrite (Hs resp eq_refl).
      destruct (total_frames =? 0)%Z;
        [|apply IH]; (apply Forall_app; split;
                      [exact Hrows | constructor; [split; reflexivity | constructor]]).
    - destruct (total_frames =? 0)%Z;
        [|apply IH]; (apply Forall_app; split;
                      [exact Hrows | constructor; [split; reflexivity | constructor]]). }
  unfold process_video_sync.
  destruct (target_fps =? 0)%Z; [constructor|].
  destruct (isOpened cap); [|constructor].
  apply Hloop. constructor.
Qed.

Lemma sync_loop_completes (self : Server) (fps : Q) (total_frames : Z) (k : nat)
    (frames : list Image) (rows : list FrameRow) (frame_count processed_count : nat) :
  Qeq_bool fps 0 = false -> (total_frames =? 0)%Z = false ->
  exists n,
    snd
        (sync_loop Image extract_aligned_face model_prob b64_to_bgr_img
           AUTH_TOKEN encode_frame connects frame_id_of self fps total_frames
           k frames rows frame_count processed_count)
    = Ok n.
Proof.
  intros Hf Ht. revert rows frame_count processed_count.
  induction frames as [|frame rest IH]; intros rows fc pc; cbn [sync_loop].
  - exists pc. reflexivity.
  - destruct (fc mod k =? 0)%nat; [|apply IH].
    rewrite Hf.
    match goal with
    | |- context [let '(prediction, confidence) := ?a in _] =>
        destruct a as [prediction confidence]
    end.
    rewrite Ht. apply IH.
Qed.

(** X28. The upload task fails with an exception exactly when the
    configured [UPLOAD_FPS] is 0, or the video opens and has a frame while
    the container reports a frame rate of 0 or a frame count of 0; in every
    other case it completes, and a video that does not open completes with
    no frame processed.  At most one row has been stored when it fails. *)
Theorem upload_task_failure_cases
    (self : Server) (cap : Video Image) (total_frames target_fps : Z)
    (rows : list FrameRow) (out : Outcome nat) :
  process_video_sync Image extract_aligned_face model_prob b64_to_bgr_img
                     AUTH_TOKEN encode_frame connects frame_id_of self cap
                     total_frames target_fps
  = (rows, out) ->
  ((exists n, out = Ok n) \/
   (out = Raise "ZeroDivisionError" /\ (List.length rows <= 1)%nat)) /\
  (out = Raise "ZeroDivisionError" <->
   target_fps = 0%Z \/
   (isOpened cap = true /\ video_frames cap <> [] /\
    (video_fps cap == 0 \/ total_frames = 0%Z))) /\
  (isOpened cap = false -> target_fps <> 0%Z -> rows = [] /\ out = Ok 0%nat).
Proof.
  unfold process_video_sync.
  destruct (target_fps =? 0)%Z eqn:Et.
  { apply Z.eqb_eq in Et. intro H. inversion H. subst.
    split; [right; split; [reflexivity | cbn; lia]|].
    split; [split; [intros _; left; reflexivity | reflexivity]|].
    intros _ Hne. congruence. }
  apply Z.eqb_neq in Et.
  destruct (isOpened cap).
  2:{ intro H. inversion H. subst.
      split; [left; exists 0%nat; reflexivity|].
      split; [|intros _ _; split; reflexivity].
      split; [discriminate|].
      intros [H0 | [H0 _]]; [congruence | discriminate H0]. }
  destruct (video_frames cap) as [|frame rest] eqn:Ef.
  { cbn [sync_loop]. intro H. inversion H. subst.
    split; [left; exists 0%nat; reflexivity|].
    split; [|discriminate].
    split; [discriminate|].
    intros [H0 | [_ [H0 _]]]; [congruence | congruence]. }
  cbn [sync_loop].
  rewrite Nat.Div0.mod_0_l. cbn [Nat.eqb].
  destruct (Qeq_bool (video_fps cap) 0) eqn:Eq.
  { apply Qeq_bool_iff in Eq. intro H. inversion H. subst.
    split; [right; split; [reflexivity | cbn; lia]|].
    split; [|discriminate].
    split; [intros _|reflexivity].
    right. split; [reflexivity|]. split; [discriminate|]. left. exact Eq. }
  match goal with
  | |- context [let '(prediction, confidence) := ?a in _] =>
      destruct a as [prediction confidence]
  end.
  destruct (total_frames =? 0)%Z eqn:Ez.
  { apply Z.eqb_eq in Ez. intro H. inversion H. subst.
    split; [right; split; [reflexivity | cbn; lia]|].
    split; [|discriminate].
    split; [intros _|reflexivity].
    right. split; [reflexivity|]. split; [discriminate|]. right. reflexivity. }
  intro H.
  match type of H with
  | sync_loop _ _ _ _ _ _ _ _ self ?fps ?tf ?k ?fr ?rw ?fc ?pc = _ =>
      destruct (sync_loop_completes self fps tf k fr rw fc pc Eq Ez) as [n Hn]
  end.
  rewrite H in Hn. cbn [snd] in Hn. subst out.
  split; [left; exists n; reflexivity|].
  split; [|discriminate].
  split; [discriminate|].
  intros [H0 | [_ [_ [H0 | H0]]]].
  - congruence.
  - apply Qeq_bool_neq in Eq. contradiction.
  - apply Z.eqb_neq in Ez. contradiction.
Qed.

End Task.

Lemma upload_task_rows_witness :
  exists rows,
    process_video_sync (option Q) toy_extract toy_unit_prob toy_decode ""
                       toy_encode (fun _ => true) (fun _ => "upload")
                       single_server toy_video 6 1
    = (rows, Ok 3%nat) /\
    map row_frame_number rows = [0%nat; 1%nat; 2%nat] /\
    Forall stored_row_ok rows.
Proof.
  eexists. split; [reflexivity|].
  destruct (upload_task_rows
              (option Q) toy_extract toy_unit_prob toy_decode ""
              toy_encode (fun _ => true) (fun _ => "upload")
              single_server toy_video 6 1 _ 3%nat ltac:(discriminate)
              toy_unit_prob_bounds eq_refl)
    as [_ [Hnum [_ Hrows]]].
  split; [exact Hnum | exact Hrows].
Defined.

Lemma upload_task_with_token_stores_real_witness :
  Forall (fun row => row_prediction row = REAL /\ row_confidence row = 50)
         (fst (process_video_sync (option Q) toy_extract toy_unit_prob toy_decode
                                  "secret" toy_encode (fun _ => true)
                                  (fun _ => "upload") single_server toy_video
                                  6 1)) /\
  List.length
    (fst (process_video_sync (option Q) toy_extract toy_unit_prob toy_decode
                             "secret" toy_encode (fun _ => true)
                             (fun _ => "upload") single_server toy_video 6 1))
  = 3%nat.
Proof.
  split; [|reflexivity].
  apply (upload_task_with_token_stores_real
           (option Q) toy_extract toy_unit_prob toy_decode "secret" toy_encode
           (fun _ => true) (fun _ => "upload") single_server toy_video 6 1).
  discriminate.
Defined.

Lemma upload_task_failure_cases_witness :
  exists rows,
    process_video_sync (option Q) toy_extract toy_unit_prob toy_decode ""
                       toy_encode (fun _ => true) (fun _ => "upload")
                       single_server toy_video 0 1
    = (rows, Raise "ZeroDivisionError") /\
    (List.length rows <= 1)%nat.
Proof.
  eexists. split; [reflexivity|].
  destruct (upload_task_failure_cases
              (option Q) toy_extract toy_unit_prob toy_decode ""
              toy_encode (fun _ => true) (fun _ => "upload")
              single_server toy_video 0 1 _ _ eq_refl)
    as [[[n Hn] | [_ Hlen]] _].
  - discriminate Hn.
  - exact Hlen.
Defined.

(** ** Monotonicity of the ensemble verdict *)

(** The four kinds of probability that the rules distinguish. *)
Lemma classify (p : Q) :
  (p < 15 # 100 /\ Py.leb (1 # 2) p = false /\ Py.ltb (85 # 100) p = false /\
   Py.ltb (85 # 100) (1 - p) = true) \/
  (15 # 100 <= p /\ p < 1 # 2 /\ Py.leb (1 # 2) p = false /\
   Py.ltb (85 # 100) p = false /\ Py.ltb (85 # 100) (1 - p) = false) \/
  (1 # 2 <= p /\ p <= 85 # 100 /\ Py.leb (1 # 2) p = true /\
   Py.ltb (85 # 100) p = false /\ Py.ltb (85 # 100) (1 - p) = false) \/
  (85 # 100 < p /\ Py.leb (1 # 2) p = true /\ Py.ltb (85 # 100) p = true /\
   Py.ltb (85 # 100) (1 - p) = false).
Proof.
  destruct (Qlt_le_dec p (15 # 100)) as [H1 | H1];
    [left | right; destruct (Qlt_le_dec p (1 # 2)) as [H2 | H2];
            [left | right; destruct (Qlt_le_dec (85 # 100) p) as [H3 | H3];
                    [right | left]]];
    repeat split; try assumption;
    try (apply leb_le; lra); try (apply leb_gt; lra);
    try (apply ltb_lt; lra); try (apply ltb_ge; lra).
Qed.

(** Case analysis on a comparison none of whose sides is itself a choice. *)
Ltac cmp_inner :=
  match goal with
  | |- context [Py.ltb ?x ?y] =>
      lazymatch x with
      | context [if _ then _ else _] => fail
      | _ =>
          lazymatch y with
          | context [if _ then _ else _] => fail
          | _ =>
              let E := fresh "Hcmp" in
              destruct (Py.ltb x y) eqn:E;
              [apply ltb_lt in E | apply ltb_ge in E]
          end
      end
  end.

Ltac settle_case :=
  split; intro;
  first [ reflexivity | lia | discriminate | exfalso; lia | exfalso; lra ].

Lemma three_model_verdict (a b c : string) (pa pb pc : Q) :
  exists v,
    _calculate_ensemble_verdict
      [(a, entry_at pa); (b, entry_at pb); (c, entry_at pc)] = Some v /\
    (e_prediction v = FAKE <-> three_votes_fake [pa; pb; pc]).
Proof.
  unfold _calculate_ensemble_verdict, three_votes_fake, count, entry_at,
    pred_label, pred_confidence, FAKE.
  destruct (classify pa) as [[Ha [A1 [A2 A3]]] | [[Ha [Ha' [A1 [A2 A3]]]]
                           | [[Ha [Ha' [A1 [A2 A3]]]] | [Ha [A1 [A2 A3]]]]]];
  destruct (classify pb) as [[Hb [B1 [B2 B3]]] | [[Hb [Hb' [B1 [B2 B3]]]]
                           | [[Hb [Hb' [B1 [B2 B3]]]] | [Hb [B1 [B2 B3]]]]]];
  destruct (classify pc) as [[Hc [C1 [C2 C3]]] | [[Hc [Hc' [C1 [C2 C3]]]]
                           | [[Hc [Hc' [C1 [C2 C3]]]] | [Hc [C1 [C2 C3]]]]]];
  cbn [collect_votes filter prediction]; rewrite ?A1, ?B1, ?C1;
  cbn -[Py.ltb Py.leb Qminus];
  rewrite ?A1, ?B1, ?C1, ?A2, ?B2, ?C2, ?A3, ?B3, ?C3;
  cbn -[Py.ltb Py.leb Qminus];
  repeat (cmp_inner;
          rewrite ?A1, ?B1, ?C1, ?A2, ?B2, ?C2, ?A3, ?B3, ?C3;
          cbn -[Py.ltb Py.leb Qminus]);
  (eexists; split; [reflexivity|]);
  rewrite (proj1 (proj2 (add_suspicious_flag_spec _)));
  cbn -[Py.ltb Py.leb Qminus];
  settle_case.
Qed.

Lemma count_mono (f : Q -> bool) (ps ps' : list Q) :
  (forall p p', p <= p' -> f p = true -> f p' = true) ->
  Forall2 Qle ps ps' -> (count f ps <= count f ps')%nat.
Proof.
  intros Hf. unfold count.
  induction 1 as [|p p' ps ps' Hp _ IH]; [apply Nat.le_refl|].
  cbn [filter]. destruct (f p) eqn:E.
  - rewrite (Hf p p' Hp E). cbn [List.length]. lia.
  - destruct (f p'); cbn [List.length]; lia.
Qed.

Lemma count_disjoint {A : Type} (f g : A -> bool) (l : list A) :
  (forall x, f x = true -> g x = false) ->
  (count f l + count g l <= List.length l)%nat.
Proof.
  intro H. unfold count. induction l as [|x l IH]; [apply Nat.le_refl|].
  cbn [filter]. destruct (f x) eqn:E.
  - rewrite (H x E). cbn [List.length]. lia.
  - destruct (g x); cbn [List.length]; lia.
Qed.

Lemma three_votes_fake_mono (ps ps' : list Q) :
  List.length ps = 3%nat ->
  Forall2 Qle ps ps' ->
  three_votes_fake ps -> three_votes_fake ps'.
Proof.
  intros Hlen Hle. unfold three_votes_fake.
  assert (Hlen' : List.length ps' = 3%nat)
    by (rewrite <- (Forall2_length Hle); exact Hlen).
  assert (HF : (count (Py.leb (1 # 2)) ps <= count (Py.leb (1 # 2)) ps')%nat).
  { apply count_mono; [|exact Hle].
    intros p p' Hp H. apply leb_le in H. apply leb_le. lra. }
  assert (HS : (count (Py.ltb (85 # 100)) ps
                <= count (Py.ltb (85 # 100)) ps')%nat).
  { apply count_mono; [|exact Hle].
    intros p p' Hp H. apply ltb_lt in H. apply ltb_lt. lra. }
  assert (HR : (count (fun p => Py.ltb (85 # 100) (1 - p)) ps'
                <= count (fun p => Py.ltb (85 # 100) (1 - p)) ps)%nat).
  { clear - Hle. unfold count.
    induction Hle as [|p p' ps ps' Hp _ IH]; [apply Nat.le_refl|].
    cbn [filter]. destruct (Py.ltb (85 # 100) (1 - p')) eqn:E.
    - assert (E' : Py.ltb (85 # 100) (1 - p) = true)
        by (apply ltb_lt in E; apply ltb_lt; lra).
      rewrite E'. cbn [List.length]. lia.
    - destruct (Py.ltb (85 # 100) (1 - p)); cbn [List.length]; lia. }
  assert (HSF : (count (Py.ltb (85 # 100)) ps'
                 <= count (Py.leb (1 # 2)) ps')%nat).
  { apply count_le. intros p _ H. apply ltb_lt in H. apply leb_le. lra. }
  assert (HRF : (count (Py.leb (1 # 2)) ps'
                 + count (fun p => Py.ltb (85 # 100) (1 - p)) ps'
                 <= 3)%nat).
  { rewrite <- Hlen'. apply count_disjoint.
    intros p H. apply leb_le in H. apply ltb_ge. lra. }
  cbv zeta. lia.
Qed.

Lemma sum_mono {A : Type} (f g : A -> Q) (l : list A) :
  (forall x, In x l -> f x <= g x) ->
  Py.sum (map f l) <= Py.sum (map g l).
Proof.
  induction l as [|x l IH]; intro H; [apply Qle_refl|].
  cbn [map Py.sum].
  assert (H1 := H x (or_introl eq_refl)).
  assert (H2 := IH (fun y Hy => H y (or_intror Hy))).
  lra.
Qed.

Section Monotone.

Variable Image : Type.
Variable model_prob : string -> Image -> Q.

(** X29. In ensemble mode the verdict is monotone in the evidence: when
    every model finds a second face at least as fake as a first one, and
    the verdict on the first face is FAKE, the verdict on the second face
    is FAKE too.  This holds for the rules 1 to 4 of three models and for
    the average of any other number of models. *)
Theorem more_fake_evidence_keeps_fake
    (self : Server) (face face' : Image) (v : Ensemble) :
  (forall name, In name (models self) ->
                model_prob name face <= model_prob name face') ->
  frame_verdict Image model_prob self face = Some v ->
  e_prediction v = FAKE ->
  exists v',
    frame_verdict Image model_prob self face' = Some v' /\
    e_prediction v' = FAKE.
Proof.
  intros Hle Hv Hfake. unfold frame_verdict in *.
  destruct (Nat.eq_dec (List.length (models self)) 3) as [H3 | H3].
  - unfold raw_results in *.
    destruct (models self) as [|a [|b [|c [|d rest]]]]; try discriminate H3.
    cbn [map] in *.
    change (raw_entry Image model_prob ?n ?f)
      with (entry_at (model_prob n f)) in *.
    destruct (three_model_verdict a b c (model_prob a face) (model_prob b face)
                (model_prob c face)) as [w [Hw Hiff]].
    rewrite Hw in Hv. inversion Hv. subst w.
    destruct (three_model_verdict a b c (model_prob a face') (model_prob b face')
                (model_prob c face')) as [w' [Hw' Hiff']].
    exists w'. split; [exact Hw'|]. apply Hiff'.
    apply (three_votes_fake_mono
             [model_prob a face; model_prob b face; model_prob c face]);
      [reflexivity| |apply Hiff; exact Hfake].
    repeat constructor; apply Hle; cbn; auto.
  - assert (Hlen : forall f, List.length (raw_results Image model_prob self f)
                             = List.length (models self))
      by (intro f; unfold raw_results; apply length_map).
    destruct (ensemble_verdict_source _ _ Hv)
      as [[Hl _] | [_ [_ [Hmean [Hp _]]]]];
      [rewrite Hlen in Hl; contradiction|].
    assert (Hmodels : models self <> []).
    { intro E. unfold raw_results in Hv. rewrite E in Hv. discriminate Hv. }
    destruct (frame_verdict_total Image model_prob self face' Hmodels)
      as [v' Hv'].
    unfold frame_verdict in Hv'.
    exists v'. split; [exact Hv'|].
    destruct (ensemble_verdict_source _ _ Hv')
      as [[Hl _] | [_ [_ [Hmean' [Hp' _]]]]];
      [rewrite Hlen in Hl; contradiction|].
    rewrite Hp'. apply pred_label_fake.
    rewrite Hp in Hfake. apply pred_label_fake in Hfake.
    destruct (np_mean_mean _ _ Hmean) as [Hm _].
    destruct (np_mean_mean _ _ Hmean') as [Hm' _].
    unfold raw_results in Hm, Hm'. rewrite map_map in Hm, Hm'.
    cbn [snd raw_entry prob] in Hm, Hm'.
    pose proof (sum_mono (fun n => model_prob n face)
                         (fun n => model_prob n face') (models self) Hle) as Hs.
    destruct (models self) as [|n ns]; [congruence|].
    pose proof (len_pos (n :: ns) ltac:(discriminate)) as Hpos.
    assert (El : forall (h : string -> Q),
               Py.len (map h (n :: ns)) = Py.len (n :: ns)).
    { intro h. unfold Py.len. rewrite length_map. reflexivity. }
    unfold mean_of in Hm, Hm'. cbn [map] in Hm, Hm'.
    change (model_prob n face :: map (fun x => model_prob x face) ns)
      with (map (fun x => model_prob x face) (n :: ns)) in Hm.
    change (model_prob n face' :: map (fun x => model_prob x face') ns)
      with (map (fun x => model_prob x face') (n :: ns)) in Hm'.
    rewrite El in Hm, Hm'.
    assert (Hmm : e_prob v * Py.len (n :: ns) <= e_prob v' * Py.len (n :: ns))
      by (rewrite Hm, Hm'; exact Hs).
    apply Qmult_le_r in Hmm; [lra | exact Hpos].
Qed.

End Monotone.

Lemma more_fake_evidence_keeps_fake_witness :
  exists v',
    frame_verdict (option Q) toy_prob ensemble_server (Some (95 # 100)) = Some v' /\
    e_prediction v' = FAKE.
Proof.
  destruct (ensemble_verdict_total
              (raw_results (option Q) toy_prob ensemble_server (Some (90 # 100))))
    as [v Hv]; [discriminate|].
  apply (more_fake_evidence_keeps_fake
           (option Q) toy_prob ensemble_server (Some (90 # 100)) (Some (95 # 100))
           v).
  - intros name _. cbn. lra.
  - exact Hv.
  - vm_compute in Hv. inversion Hv. reflexivity.
Defined.
